(** * Session / queue / team state machine of the Overwatch schedule bot

    A shallow embedding of [bot.js] (class [OverwatchScheduleBot]): the five
    SQLite tables as lists of rows in rowid order, the interaction handlers
    as state-passing functions returning the new bot state together with
    the effects they emit (replies, console output, edits of the session
    message), and the properties of the session/queue/team logic proved
    over that embedding.

    Conventions of the embedding.
    - JavaScript numbers that hold integers are [Z]; Discord snowflakes and
      all TEXT columns are [string]; BOOLEAN columns are [bool].
    - [preferred_roles] is stored as [JSON.stringify] of an array of role
      names and read back with [JSON.parse]; the round trip is the
      identity on such arrays, so the column is a [list string].
    - A handler with its SQLite callbacks is one step: callbacks run in
      program order and the statements do not fail (types match the schema
      and SQLite does not enforce the foreign keys).  [step], [run] and
      [lifetime] therefore describe interactions handled one after
      another.  Where the callbacks of two interactions can interleave
      with another outcome, in [joinWithAccount], the lookup and the
      callback that writes are separate definitions.
    - The effects of a step are listed in the order in which they happen:
      a reply comes before what the resync started just before it does,
      because the resync works in a later callback.
    - [CURRENT_TIMESTAMP] and [new Date()] are read from the event that
      carries the interaction; the process runs in UTC.
    - Custom ids of buttons and menus are kept in the structured form they
      have before [createSessionButtons] and the other builders print them
      and after [handleButton] and [handleSelectMenu] split them again,
      which gives the same parts as long as the numbers printed into them
      are not negative, as the ids handed out by AUTOINCREMENT are.  The
      id of the day menu carries a number the user chose: it is printed,
      split and parsed as in the source ([day_menu_id]).
    - As published, bot.js declares one callback of [handleToggleStream]
      without [async] although it awaits (line 1081); it is read as
      declared [async].
    - Emoji are written by their short names, and the fixed help texts of
      embeds are cut down to the part that depends on the data. *)

From stdpp Require Import base gmap strings list pretty.
From Stdlib Require Import Ascii ZArith Lia Sorted.
Open Scope Z_scope.

(** ** JavaScript helpers *)

(** [Array.prototype.indexOf] on an array of strings: -1 when absent. *)
Fixpoint indexOf (l : list string) (x : string) : Z :=
  match l with
  | [] => -1
  | y :: l' => if String.eqb y x then 0
               else let i := indexOf l' x in if i =? -1 then -1 else 1 + i
  end.

(** [Array.prototype.includes] on an array of strings. *)
Definition includes (l : list string) (x : string) : bool :=
  existsb (String.eqb x) l.

(** [[...new Set(l)]]: first occurrences, in order. *)
Fixpoint uniq_from (seen l : list string) : list string :=
  match l with
  | [] => []
  | x :: l' => if includes seen x then uniq_from seen l'
               else x :: uniq_from (x :: seen) l'
  end.

Definition array_from_set (l : list string) : list string := uniq_from [] l.

(** [Array.prototype.join]. *)
Fixpoint join (sep : string) (l : list string) : string :=
  match l with
  | [] => ""
  | [x] => x
  | x :: l' => x +:+ sep +:+ join sep l'
  end.

(** Truthiness of a string and of a number. *)
Definition truthy_s (s : string) : bool := negb (String.eqb s "").
Definition truthy_n (n : Z) : bool := negb (n =? 0).

(** [a || b] on strings. *)
Definition or_else (a b : string) : string := if truthy_s a then a else b.

(** [String.prototype.split] with a separator of one character. *)
Fixpoint split_on (sep : Ascii.ascii) (s : string) : list string :=
  match s with
  | EmptyString => [EmptyString]
  | String c s' =>
      if Ascii.eqb c sep then EmptyString :: split_on sep s'
      else match split_on sep s' with
           | [] => [String c EmptyString]
           | part :: parts => String c part :: parts
           end
  end.

(** [parseInt(s)]: leading white space is skipped (the ASCII white space
    here), then a sign, then [0x] or [0X] for radix 16, then the longest run
    of digits of the radix; [None] is [NaN].  The value is exact, as it is
    in JavaScript for the integers a double holds. *)
Definition is_space (c : Ascii.ascii) : bool :=
  let n := Ascii.nat_of_ascii c in
  ((9 <=? n)%nat && (n <=? 13)%nat) || (n =? 32)%nat.

Fixpoint trimStart (s : string) : string :=
  match s with
  | EmptyString => EmptyString
  | String c s' => if is_space c then trimStart s' else s
  end.

Definition digit_of (radix : Z) (c : Ascii.ascii) : option Z :=
  let n := Z.of_nat (Ascii.nat_of_ascii c) in
  let v := if (48 <=? n) && (n <=? 57) then n - 48
           else if (97 <=? n) && (n <=? 122) then n - 87
           else if (65 <=? n) && (n <=? 90) then n - 55
           else 36 in
  if v <? radix then Some v else None.

Fixpoint digits_prefix (radix : Z) (s : string) : list Z :=
  match s with
  | EmptyString => []
  | String c s' => match digit_of radix c with
                   | Some v => v :: digits_prefix radix s'
                   | None => []
                   end
  end.

Definition parseInt (s : string) : option Z :=
  let '(sign, unsigned) :=
    match trimStart s with
    | String "-"%char rest => (-1, rest)
    | String "+"%char rest => (1, rest)
    | rest => (1, rest)
    end in
  let '(radix, body) :=
    match unsigned with
    | String "0"%char (String "x"%char rest) => (16, rest)
    | String "0"%char (String "X"%char rest) => (16, rest)
    | rest => (10, rest)
    end in
  match digits_prefix radix body with
  | [] => None
  | ds => Some (sign * fold_left (fun acc v => acc * radix + v) ds 0)
  end.

(** [`${n}`] for a number read from a nullable INTEGER column. *)
Definition show_integer (n : option Z) : string :=
  match n with
  | Some n => pretty n
  | None => "null"
  end.

(** ** Static configuration (constructor) *)

Record RankInfo := {
  divisions : list Z;
  color : string;
  wideGroupThreshold : Z
}.

Definition ranks : list (string * RankInfo) :=
  [ ("Bronze",      {| divisions := [5;4;3;2;1]; color := "#CD7F32"; wideGroupThreshold := 5 |});
    ("Silver",      {| divisions := [5;4;3;2;1]; color := "#C0C0C0"; wideGroupThreshold := 5 |});
    ("Gold",        {| divisions := [5;4;3;2;1]; color := "#FFD700"; wideGroupThreshold := 5 |});
    ("Platinum",    {| divisions := [5;4;3;2;1]; color := "#00CED1"; wideGroupThreshold := 5 |});
    ("Diamond",     {| divisions := [5;4;3;2;1]; color := "#B57EDC"; wideGroupThreshold := 5 |});
    ("Master",      {| divisions := [5;4;3;2;1]; color := "#FF6B35"; wideGroupThreshold := 3 |});
    ("Grandmaster", {| divisions := [5;4;3;2;1]; color := "#FF1744"; wideGroupThreshold := 0 |});
    ("Champion",    {| divisions := [1];         color := "#FFD700"; wideGroupThreshold := 0 |}) ].

Record GameMode := {
  roles : list (string * Z);   (* Object.entries order *)
  totalPlayers : Z
}.

Definition gameModes : list (string * GameMode) :=
  [ ("5v5",     {| roles := [("Tank", 1); ("DPS", 2); ("Support", 2)]; totalPlayers := 5 |});
    ("6v6",     {| roles := [("Any", 6)]; totalPlayers := 6 |});
    ("Stadium", {| roles := [("Any", 6)]; totalPlayers := 6 |}) ].

(** Property access [obj[key]] on an object literal; [None] is [undefined]. *)
Fixpoint get {A} (obj : list (string * A)) (key : string) : option A :=
  match obj with
  | [] => None
  | (k, v) :: obj' => if String.eqb k key then Some v else get obj' key
  end.

Definition daysOfWeek : list string :=
  ["Today"; "Tomorrow"; "Monday"; "Tuesday"; "Wednesday"; "Thursday";
   "Friday"; "Saturday"; "Sunday"].

(** ** Rank helpers *)

Definition formatRank (rank : string) (division : Z) : string :=
  if negb (truthy_s rank) || negb (truthy_n division) then "Unranked"
  else rank +:+ " " +:+ pretty division.

Definition getRoleEmoji (role : string) : string :=
  match get [("Tank", ":shield:"); ("DPS", ":crossed_swords:");
             ("Support", ":green_heart:"); ("Any", ":video_game:")] role with
  | Some e => e
  | None => ":question:"
  end.

Definition rankOrder : list string :=
  ["Bronze"; "Silver"; "Gold"; "Platinum"; "Diamond"; "Master";
   "Grandmaster"; "Champion"].

Definition getRankValue (rank : string) (division : Z) : Z :=
  if negb (truthy_s rank) || negb (truthy_n division) then 0
  else
    let rankIndex := indexOf rankOrder rank in
    if rankIndex =? -1 then 0
    else (rankIndex * 10) + (6 - division).

(** ** The database ([initDatabase])

    One module per table; a table is the list of its rows in rowid order. *)

Module users.
Record row := {
  discord_id : string;                 (* TEXT PRIMARY KEY *)
  username : string;
  preferred_roles : list string;       (* TEXT DEFAULT '[]' *)
  timezone : string                    (* TEXT DEFAULT 'America/New_York' *)
}.
End users.

Module user_accounts.
Record row := {
  id : Z;                              (* INTEGER PRIMARY KEY AUTOINCREMENT *)
  discord_id : string;
  account_name : string;
  tank_rank : string;                  (* TEXT DEFAULT '' *)
  tank_division : Z;                   (* INTEGER DEFAULT 0 *)
  dps_rank : string;
  dps_division : Z;
  support_rank : string;
  support_division : Z;
  is_primary : bool
}.
End user_accounts.

Module sessions.
Record row := {
  id : Z;
  creator_id : string;
  guild_id : string;
  channel_id : string;
  game_mode : string;
  scheduled_time : Z;
  timezone : string;
  description : string;
  max_rank_diff : option Z;            (* INTEGER DEFAULT 5; None is NULL *)
  status : string;                     (* TEXT DEFAULT 'open' *)
  message_id : string                  (* TEXT DEFAULT '' *)
}.

Definition set_status (st : string) (s : row) : row :=
  {| id := id s; creator_id := creator_id s; guild_id := guild_id s;
     channel_id := channel_id s; game_mode := game_mode s;
     scheduled_time := scheduled_time s; timezone := timezone s;
     description := description s; max_rank_diff := max_rank_diff s;
     status := st; message_id := message_id s |}.
End sessions.

Module session_queue.
Record row := {
  id : Z;
  session_id : Z;
  user_id : string;
  account_id : Z;
  preferred_roles : list string;       (* TEXT DEFAULT '[]' *)
  is_streaming : bool;                 (* BOOLEAN DEFAULT FALSE *)
  queue_position : Z;                  (* INTEGER DEFAULT 0, never written *)
  status : string;                     (* TEXT DEFAULT 'queued', never written *)
  joined_at : Z                        (* DATETIME DEFAULT CURRENT_TIMESTAMP *)
}.

Definition set_roles_account (rs : list string) (a : Z) (q : row) : row :=
  {| id := id q; session_id := session_id q; user_id := user_id q;
     account_id := a; preferred_roles := rs; is_streaming := is_streaming q;
     queue_position := queue_position q; status := status q;
     joined_at := joined_at q |}.

Definition set_streaming (b : bool) (q : row) : row :=
  {| id := id q; session_id := session_id q; user_id := user_id q;
     account_id := account_id q; preferred_roles := preferred_roles q;
     is_streaming := b; queue_position := queue_position q;
     status := status q; joined_at := joined_at q |}.
End session_queue.

Module session_participants.
Record row := {
  id : Z;
  session_id : Z;
  user_id : string;
  account_id : Z;
  role : string;
  is_streaming : bool;
  selected_by : string;
  selected_at : Z
}.

Definition set_streaming (b : bool) (p : row) : row :=
  {| id := id p; session_id := session_id p; user_id := user_id p;
     account_id := account_id p; role := role p; is_streaming := b;
     selected_by := selected_by p; selected_at := selected_at p |}.
End session_participants.

(** The database file: the five tables used by the session logic and the
    AUTOINCREMENT counters of the tables the bot inserts into. *)
Record Database := {
  t_users : list users.row;
  t_user_accounts : list user_accounts.row;
  t_sessions : list sessions.row;
  t_session_queue : list session_queue.row;
  t_session_participants : list session_participants.row;
  seq_user_accounts : Z;
  seq_sessions : Z;
  seq_session_queue : Z
}.

Definition empty_db : Database :=
  {| t_users := []; t_user_accounts := []; t_sessions := [];
     t_session_queue := []; t_session_participants := [];
     seq_user_accounts := 0; seq_sessions := 0; seq_session_queue := 0 |}.

Definition with_users (l : list users.row) (d : Database) : Database :=
  {| t_users := l; t_user_accounts := t_user_accounts d;
     t_sessions := t_sessions d; t_session_queue := t_session_queue d;
     t_session_participants := t_session_participants d;
     seq_user_accounts := seq_user_accounts d; seq_sessions := seq_sessions d;
     seq_session_queue := seq_session_queue d |}.

Definition with_user_accounts (l : list user_accounts.row) (n : Z)
    (d : Database) : Database :=
  {| t_users := t_users d; t_user_accounts := l;
     t_sessions := t_sessions d; t_session_queue := t_session_queue d;
     t_session_participants := t_session_participants d;
     seq_user_accounts := n; seq_sessions := seq_sessions d;
     seq_session_queue := seq_session_queue d |}.

Definition with_sessions (l : list sessions.row) (n : Z)
    (d : Database) : Database :=
  {| t_users := t_users d; t_user_accounts := t_user_accounts d;
     t_sessions := l; t_session_queue := t_session_queue d;
     t_session_participants := t_session_participants d;
     seq_user_accounts := seq_user_accounts d; seq_sessions := n;
     seq_session_queue := seq_session_queue d |}.

Definition with_session_queue (l : list session_queue.row) (n : Z)
    (d : Database) : Database :=
  {| t_users := t_users d; t_user_accounts := t_user_accounts d;
     t_sessions := t_sessions d; t_session_queue := l;
     t_session_participants := t_session_participants d;
     seq_user_accounts := seq_user_accounts d; seq_sessions := seq_sessions d;
     seq_session_queue := n |}.

Definition with_session_participants (l : list session_participants.row)
    (d : Database) : Database :=
  {| t_users := t_users d; t_user_accounts := t_user_accounts d;
     t_sessions := t_sessions d; t_session_queue := t_session_queue d;
     t_session_participants := l;
     seq_user_accounts := seq_user_accounts d; seq_sessions := seq_sessions d;
     seq_session_queue := seq_session_queue d |}.

(** ** Bot state, interactions and effects *)

(** [this.tempSessionData[userId]]: the draft kept between [/create-session]
    and the day menu. *)
Record TempSession := {
  gameMode : string;
  ts_description : string;
  maxRankDiff : Z;
  userTimezone : string;
  guildId : string;
  channelId : string
}.

Record Bot := {
  db : Database;
  tempSessionData : option (gmap string TempSession)   (* None: undefined *)
}.

Definition new_bot : Bot := {| db := empty_db; tempSessionData := None |}.

Definition with_db (d : Database) (b : Bot) : Bot :=
  {| db := d; tempSessionData := tempSessionData b |}.

(** Slash commands with their options ([handleCommand]). *)
Inductive Command :=
| setup_profile (timezone : option string)
| add_account (account_name : string) (is_primary : option bool)
| edit_account (account_name : string)
| create_session (game_mode : string) (description : option string)
                 (max_rank_diff : option Z)
| join_queue (session_id : Z)
| manage_session (session_id : Z)
| view_sessions
| my_profile
| cancel_session (session_id : Z)
| leave_queue (session_id : Z).

(** Button custom ids, already split on the dashes ([handleButton]). *)
Inductive ButtonId :=
| btn_join_queue (sessionId : Z)
| btn_leave_queue (sessionId : Z)
| btn_quick_join (sessionId : Z) (role : string)
| btn_toggle_stream (sessionId : Z) (userId : string)
| btn_refresh_session (sessionId : Z)
| btn_manage_session (sessionId : Z)
| btn_set_rank (accountId : Z) (role : string)
| btn_edit_profile
| btn_delete_account (accountId : Z).

(** Select-menu custom ids created by the bot, as [handleSelectMenu] reads
    them; of the day menu it reads [parts[2]] and [parseInt(parts[3])]. *)
Inductive SelectId :=
| select_preferred_roles
| select_day (gameMode : string) (maxRankDiff : option Z)   (* None is NaN *)
| select_queue_account (sessionId : Z)
| select_queue_roles (sessionId : Z) (accountId : Z)
| select_player (sessionId : Z) (role : string)
| quick_join_account (sessionId : Z) (role : string)
| select_rank (accountId : Z) (role : string).

Inductive InteractionKind :=
| ChatInputCommand (c : Command)
| Button (customId : ButtonId)
| StringSelectMenu (customId : SelectId) (values : list string).

Record Interaction := {
  user_id : string;          (* interaction.user.id *)
  user_username : string;    (* interaction.user.username *)
  guild : string;            (* interaction.guild.id *)
  channel : string;          (* interaction.channel.id *)
  kind : InteractionKind
}.

(** What a promise of the Discord client settles to. *)
Inductive Settled := Fulfilled | Rejected (reason : string).

(** The Discord side at the time of an interaction: whether fetching the
    channel, fetching the message in it and editing that message succeed. *)
Record Discord := {
  channels_fetch : string -> Settled;
  messages_fetch : string -> string -> Settled;
  message_edit : string -> string -> Settled
}.

Record MenuOption := {
  label : string;
  value : string;
  opt_description : string
}.

Inductive Component :=
| SelectMenu (customId : SelectId) (placeholder : string)
             (options : list MenuOption)
| ButtonRow (buttons : list ButtonId).

Record Embed := {
  title : string;
  e_description : string;
  e_color : string;
  fields : list (string * string)
}.

Record Message := {
  content : string;
  embeds : list Embed;
  components : list Component
}.

Definition text (s : string) : Message :=
  {| content := s; embeds := []; components := [] |}.

Inductive Effect :=
| Reply (m : Message)                         (* reply / editReply *)
| ConsoleError (what : string) (error : string)
| MessageEdit (channel_id message_id : string) (m : Message)
| Uncaught (error : string).                  (* exception no handler sees *)

(** One event of the gateway: the interaction, the clock and the state of
    the Discord side while it is handled. *)
Record Event := {
  interaction : Interaction;
  now : Z;                    (* milliseconds since the epoch *)
  discord : Discord
}.

(** ** Promises and exceptions

    A promise built by the bot resolves, rejects, or never settles because
    the SQLite callback that should settle it threw; an [await] inside
    [try] turns a rejection into a throw. *)

Inductive Promise (A : Type) :=
| Resolve (a : A)
| Reject (reason : string)
| Hang (error : string).
Arguments Resolve {A} a.
Arguments Reject {A} reason.
Arguments Hang {A} error.

Inductive Completion (A : Type) :=
| Normal (a : A)
| Throw (error : string)
| Stuck (error : string).
Arguments Normal {A} a.
Arguments Throw {A} error.
Arguments Stuck {A} error.

#[export] Instance Completion_ret : MRet Completion := fun _ a => Normal a.
#[export] Instance Completion_bind : MBind Completion := fun _ _ f c =>
  match c with
  | Normal a => f a
  | Throw e => Throw e
  | Stuck e => Stuck e
  end.

Definition await {A} (p : Promise A) : Completion A :=
  match p with
  | Resolve a => Normal a
  | Reject r => Throw r
  | Hang e => Stuck e
  end.

Definition await_settled (s : Settled) : Completion () :=
  match s with
  | Fulfilled => Normal ()
  | Rejected r => Throw r
  end.

(** [try { body } catch (error) { handler(error) }]. *)
Definition try_catch {A} (body : Completion A) (handler : string -> Completion A)
    : Completion A :=
  match body with
  | Throw e => handler e
  | c => c
  end.

(** ** Queries *)

Definition nl : string := String (Ascii.ascii_of_nat 10) EmptyString.

(** The double quote as a string. *)
Definition dquote : string := String (Ascii.ascii_of_nat 34) EmptyString.

(** [SELECT * FROM sessions WHERE id = ?] with [db.get]. *)
Definition get_session (d : Database) (sessionId : Z) : option sessions.row :=
  head (List.filter (fun s => sessions.id s =? sessionId) (t_sessions d)).

(** [... WHERE id = ? AND creator_id = ?] with [db.get]. *)
Definition get_session_of_creator (d : Database) (sessionId : Z)
    (creator : string) : option sessions.row :=
  head (List.filter (fun s => (sessions.id s =? sessionId)
                              && String.eqb (sessions.creator_id s) creator)
                    (t_sessions d)).

(** The WHERE clause [session_id = ? AND user_id = ?] on the queue. *)
Definition queue_match (sessionId : Z) (userId : string)
    (q : session_queue.row) : bool :=
  (session_queue.session_id q =? sessionId)
  && String.eqb (session_queue.user_id q) userId.

Definition participant_match (sessionId : Z) (userId : string)
    (p : session_participants.row) : bool :=
  (session_participants.session_id p =? sessionId)
  && String.eqb (session_participants.user_id p) userId.

Definition get_queue_entry (d : Database) (sessionId : Z) (userId : string)
    : option session_queue.row :=
  head (List.filter (queue_match sessionId userId) (t_session_queue d)).

Definition get_participant (d : Database) (sessionId : Z) (userId : string)
    : option session_participants.row :=
  head (List.filter (participant_match sessionId userId)
                    (t_session_participants d)).

(** [SELECT * FROM user_accounts WHERE discord_id = ?] with [db.all]. *)
Definition accounts_of (d : Database) (userId : string)
    : list user_accounts.row :=
  List.filter (fun a => String.eqb (user_accounts.discord_id a) userId)
              (t_user_accounts d).

(** A row of [session_queue] or [session_participants] joined with its
    user (inner join) and its account (left join). *)
Record Joined (R : Type) := {
  base : R;
  u : users.row;
  ua : option user_accounts.row
}.
Arguments base {R} j.
Arguments u {R} j.
Arguments ua {R} j.

Definition join_rows {R} (userOf : R -> string) (accountOf : R -> Z)
    (d : Database) (rows : list R) : list (Joined R) :=
  flat_map (fun r =>
    flat_map (fun usr =>
      match List.filter (fun a => user_accounts.id a =? accountOf r)
                        (t_user_accounts d) with
      | [] => [ {| base := r; u := usr; ua := None |} ]
      | accs => map (fun a => {| base := r; u := usr; ua := Some a |}) accs
      end)
      (List.filter (fun usr => String.eqb (userOf r) (users.discord_id usr))
                   (t_users d)))
    rows.

(** Columns of the joined account; [NULL] reads as a falsy value. *)
Definition j_account_name {R} (j : Joined R) : string :=
  match ua j with Some a => user_accounts.account_name a | None => "" end.
Definition j_tank_rank {R} (j : Joined R) : string :=
  match ua j with Some a => user_accounts.tank_rank a | None => "" end.
Definition j_tank_division {R} (j : Joined R) : Z :=
  match ua j with Some a => user_accounts.tank_division a | None => 0 end.
Definition j_dps_rank {R} (j : Joined R) : string :=
  match ua j with Some a => user_accounts.dps_rank a | None => "" end.
Definition j_dps_division {R} (j : Joined R) : Z :=
  match ua j with Some a => user_accounts.dps_division a | None => 0 end.
Definition j_support_rank {R} (j : Joined R) : string :=
  match ua j with Some a => user_accounts.support_rank a | None => "" end.
Definition j_support_division {R} (j : Joined R) : Z :=
  match ua j with Some a => user_accounts.support_division a | None => 0 end.

(** [ORDER BY]: ascending for the comparison of the ordering terms alone;
    rows that compare equal stay in scan (rowid) order. *)
Fixpoint insert_sorted {A} (lt : A -> A -> bool) (x : A) (l : list A) : list A :=
  match l with
  | [] => [x]
  | y :: l' => if lt x y then x :: l else y :: insert_sorted lt x l'
  end.

Definition sort_rows {A} (lt : A -> A -> bool) (l : list A) : list A :=
  fold_left (fun acc x => insert_sorted lt x acc) l [].

(** Comparison of two rows on one integer or timestamp column. *)
Definition key_lt {A} (key : A -> Z) (x y : A) : bool := key x <? key y.
Definition key_le {A} (key : A -> Z) (x y : A) : Prop := key x <= key y.

(** [ORDER BY] one integer or timestamp column. *)
Definition order_by {A} (key : A -> Z) (l : list A) : list A :=
  sort_rows (key_lt key) l.

Definition q_joined_at (q : Joined session_queue.row) : Z :=
  session_queue.joined_at (base q).

Definition order_by_joined_at (l : list (Joined session_queue.row))
    : list (Joined session_queue.row) :=
  order_by q_joined_at l.

(** The queue query of [manageSession]. *)
Definition select_queue_ordered (d : Database) (sessionId : Z)
    : list (Joined session_queue.row) :=
  order_by_joined_at
    (join_rows session_queue.user_id session_queue.account_id d
       (List.filter (fun q => session_queue.session_id q =? sessionId)
                    (t_session_queue d))).

(** The queue query of [createSessionEmbed] (no ORDER BY). *)
Definition select_queue (d : Database) (sessionId : Z)
    : list (Joined session_queue.row) :=
  join_rows session_queue.user_id session_queue.account_id d
    (List.filter (fun q => session_queue.session_id q =? sessionId)
                 (t_session_queue d)).

(** The team query of [manageSession] and [createSessionEmbed]. *)
Definition select_team (d : Database) (sessionId : Z)
    : list (Joined session_participants.row) :=
  join_rows session_participants.user_id session_participants.account_id d
    (List.filter (fun p => session_participants.session_id p =? sessionId)
                 (t_session_participants d)).

(** [SELECT COUNT( * ) FROM session_queue WHERE session_id = ?]. *)
Definition queue_count (d : Database) (sessionId : Z) : Z :=
  Z.of_nat (length (List.filter
     (fun q => session_queue.session_id q =? sessionId) (t_session_queue d))).

(** ** Rendering of a session *)

(** Stands for [Date.prototype.toLocaleString] with the options of
    [formatTimeForTimezone]; the locale rendering itself is not modelled. *)
Definition formatTimeForTimezone (date : Z) (fromTz toTz : string) : string :=
  "<t:" +:+ pretty date +:+ " " +:+ or_else toTz "America/New_York" +:+ ">".

Definition getPlayerRankDescription (player : Joined session_queue.row)
    (role : string) : string :=
  let rank :=
    if String.eqb role "Tank" then
      formatRank (j_tank_rank player) (j_tank_division player)
    else if String.eqb role "DPS" then
      formatRank (j_dps_rank player) (j_dps_division player)
    else if String.eqb role "Support" then
      formatRank (j_support_rank player) (j_support_division player)
    else
      let tankRank := getRankValue (j_tank_rank player) (j_tank_division player) in
      let dpsRank := getRankValue (j_dps_rank player) (j_dps_division player) in
      let supportRank :=
        getRankValue (j_support_rank player) (j_support_division player) in
      let highest := Z.max (Z.max tankRank dpsRank) supportRank in
      if highest =? tankRank then
        formatRank (j_tank_rank player) (j_tank_division player)
      else if highest =? dpsRank then
        formatRank (j_dps_rank player) (j_dps_division player)
      else formatRank (j_support_rank player) (j_support_division player) in
  or_else rank "Unranked".

Definition stream_indicator (b : bool) : string :=
  if b then " :tv:" else "".

(** The text of one role field of the session embed. *)
Definition role_field_value (roleTeam : list (Joined session_participants.row))
    (count : Z) : string :=
  let filledSlots := Z.of_nat (length roleTeam) in
  let filled :=
    map (fun player =>
           let displayName :=
             if truthy_s (j_account_name player)
             then users.username (u player) +:+ " (" +:+ j_account_name player +:+ ")"
             else users.username (u player) in
           ":white_check_mark: " +:+ displayName
             +:+ stream_indicator (session_participants.is_streaming (base player))
             +:+ nl)
        roleTeam in
  let open := replicate (Z.to_nat (count - filledSlots)) (":o: *Open Slot*" +:+ nl) in
  join "" (filled ++ open).

Definition in_role (role : string) (p : Joined session_participants.row) : bool :=
  String.eqb (session_participants.role (base p)) role.

Definition createSessionEmbed (d : Database) (sessionId : Z) : Promise Embed :=
  match get_session d sessionId with
  | None => Reject "Session not found"
  | Some session =>
      let queueCount := queue_count d sessionId in
      let team := select_team d sessionId in
      let queue := select_queue d sessionId in
      match get gameModes (sessions.game_mode session) with
      | None => Hang "TypeError: Cannot read properties of undefined (reading 'roles')"
      | Some mode =>
          let roleFields :=
            map (fun '(role, count) =>
                   let roleTeam := List.filter (in_role role) team in
                   let filledSlots := Z.of_nat (length roleTeam) in
                   (getRoleEmoji role +:+ " " +:+ role +:+ " (" +:+ pretty filledSlots
                      +:+ "/" +:+ pretty count +:+ ")",
                    or_else (role_field_value roleTeam count) "No slots available"))
                (roles mode) in
          let totalFilled := Z.of_nat (length team) in
          let totalSlots := totalPlayers mode in
          let streamingCount :=
            Z.of_nat (length (List.filter
                (fun p => session_participants.is_streaming (base p)) team))
            + Z.of_nat (length (List.filter
                (fun q => session_queue.is_streaming (base q)) queue)) in
          let status1 :=
            if totalFilled =? totalSlots then ":green_circle: **FULL TEAM SELECTED**"
            else ":yellow_circle: **" +:+ pretty totalFilled +:+ "/"
                 +:+ pretty totalSlots +:+ "** selected from team" in
          let status2 :=
            if 0 <? queueCount
            then status1 +:+ nl +:+ ":dart: **" +:+ pretty queueCount +:+ "** player"
                 +:+ (if negb (queueCount =? 1) then "s" else "") +:+ " in queue"
            else status1 +:+ nl +:+ ":mailbox_with_no_mail: No one in queue yet" in
          let statusValue :=
            if 0 <? streamingCount
            then status2 +:+ nl +:+ ":tv: **" +:+ pretty streamingCount +:+ "** streaming"
            else status2 in
          Resolve
            {| title := ":video_game: " +:+ sessions.game_mode session +:+ " Session #"
                        +:+ pretty (sessions.id session);
               e_description :=
                 "**:alarm_clock: Time:** "
                 +:+ formatTimeForTimezone (sessions.scheduled_time session)
                                           (sessions.timezone session) "America/New_York"
                 +:+ nl +:+ "**:memo: Description:** "
                 +:+ or_else (sessions.description session) "None"
                 +:+ nl +:+ "**:bar_chart: Max Rank Difference:** "
                 +:+ show_integer (sessions.max_rank_diff session) +:+ " divisions";
               e_color := if 0 <? queueCount then "#00FF00" else "#0099FF";
               fields := roleFields ++ [(":bar_chart: Status", statusValue)] |}
      end
  end.

Definition createSessionButtons (d : Database) (sessionId : Z)
    : Promise (list Component) :=
  match get_session d sessionId with
  | None => Resolve []
  | Some session =>
      match get gameModes (sessions.game_mode session) with
      | None => Hang "TypeError: Cannot read properties of undefined (reading 'roles')"
      | Some mode =>
          let quickJoinButtons :=
            map (fun '(role, _) => btn_quick_join sessionId role) (roles mode) in
          Resolve
            [ ButtonRow (take 5 quickJoinButtons);
              ButtonRow [btn_join_queue sessionId; btn_leave_queue sessionId;
                         btn_refresh_session sessionId; btn_manage_session sessionId];
              ButtonRow [btn_toggle_stream sessionId "{USER_ID}"] ]
      end
  end.

(** [updateSessionMessage]: the resync of the bound session message.  The
    caller gets a promise that is already resolved and goes on to send its
    reply; what the lookup callback does afterwards is returned as
    effects, which the callers list after their reply. *)
Definition updateSessionMessage (d : Database) (w : Discord) (sessionId : Z)
    : list Effect :=
  match get_session d sessionId with
  | None => []
  | Some session =>
      if negb (truthy_s (sessions.message_id session)) then []
      else
        let body : Completion (list Effect) :=
          _ ← await_settled (channels_fetch w (sessions.channel_id session));
          _ ← await_settled (messages_fetch w (sessions.channel_id session)
                                              (sessions.message_id session));
          updatedEmbed ← await (createSessionEmbed d sessionId);
          updatedButtons ← await (createSessionButtons d sessionId);
          _ ← await_settled (message_edit w (sessions.channel_id session)
                                            (sessions.message_id session));
          mret [MessageEdit (sessions.channel_id session)
                            (sessions.message_id session)
                            {| content := ""; embeds := [updatedEmbed];
                               components := updatedButtons |}] in
        match try_catch body (fun error =>
                mret [ConsoleError "Failed to update session message:" error]) with
        | Normal effects => effects
        | Throw error => [Uncaught error]
        | Stuck error => [Uncaught error]
        end
  end.

(** ** Session management ([manageSession]) *)

(** The filter of [manageSession]: who may be offered for [role]. *)
Definition eligible_for (role : string) (q : Joined session_queue.row) : bool :=
  let roles := session_queue.preferred_roles (base q) in
  includes roles role || includes roles "Any" || String.eqb role "Any".

Definition player_option (role : string) (p : Joined session_queue.row)
    : MenuOption :=
  {| label := users.username (u p) +:+ " ("
              +:+ or_else (j_account_name p) "No Account" +:+ ")";
     value := session_queue.user_id (base p) +:+ "-"
              +:+ pretty (session_queue.account_id (base p));
     opt_description := getPlayerRankDescription p role |}.

Definition createManagementEmbed (session : sessions.row)
    (queue : list (Joined session_queue.row))
    (team : list (Joined session_participants.row)) : Completion Embed :=
  mode ← match get gameModes (sessions.game_mode session) with
         | Some mode => Normal mode
         | None => Throw "TypeError: Cannot read properties of undefined (reading 'roles')"
         end;
  let teamText :=
    join "" (map (fun '(role, count) =>
      let roleTeam := List.filter (in_role role) team in
      "**" +:+ getRoleEmoji role +:+ " " +:+ role +:+ " ("
        +:+ pretty (Z.of_nat (length roleTeam)) +:+ "/" +:+ pretty count +:+ ")**" +:+ nl
        +:+ join "" (map (fun player =>
              ":white_check_mark: " +:+ users.username (u player) +:+ " ("
                +:+ or_else (j_account_name player) "No Account" +:+ ")"
                +:+ stream_indicator (session_participants.is_streaming (base player))
                +:+ nl) roleTeam)
        +:+ join "" (replicate (Z.to_nat (count - Z.of_nat (length roleTeam)))
                               (":o: Empty Slot" +:+ nl))
        +:+ nl) (roles mode)) in
  let queueField :=
    if 0 <? Z.of_nat (length queue) then
      ("Queue (" +:+ pretty (Z.of_nat (length queue)) +:+ ")",
       join nl (map (fun q =>
         "* " +:+ users.username (u q) +:+ " ("
           +:+ or_else (j_account_name q) "No Account" +:+ ") - "
           +:+ join ", " (session_queue.preferred_roles (base q))
           +:+ stream_indicator (session_queue.is_streaming (base q)))
         (take 10 queue)))
    else ("Queue", "No players in queue") in
  mret
  {| title := ":gear: Manage Session #" +:+ pretty (sessions.id session);
     e_description :=
       "**Mode:** " +:+ sessions.game_mode session +:+ nl +:+ "**Time:** "
       +:+ formatTimeForTimezone (sessions.scheduled_time session)
                                 (sessions.timezone session) "America/New_York"
       +:+ nl +:+ "**Description:** " +:+ or_else (sessions.description session) "None";
     e_color := "#FF6B35";
     fields := [("Current Team", or_else teamText "No players selected"); queueField] |}.

(** The candidates computed for one role: the filtered queue, in the order
    of the query. *)
Definition eligible (d : Database) (sessionId : Z) (role : string)
    : list (Joined session_queue.row) :=
  List.filter (eligible_for role) (select_queue_ordered d sessionId).

(** The selection menus built by the loop over the roles of the mode: one
    menu per role that still has an open slot and an eligible candidate,
    listing at most 25 of them. *)
Definition selection_menus (d : Database) (sessionId : Z) (mode : GameMode)
    : list Component :=
  let team := select_team d sessionId in
  flat_map (fun '(role, count) =>
    let currentInRole := Z.of_nat (length (List.filter (in_role role) team)) in
    if currentInRole <? count then
      let eligible := eligible d sessionId role in
      if 0 <? Z.of_nat (length eligible) then
        [SelectMenu (select_player sessionId role)
                    ("Select " +:+ role +:+ " player")
                    (map (player_option role) (take 25 eligible))]
      else []
    else []) (roles mode).

Definition manageSession (b : Bot) (i : Interaction) (sessionId : Z)
    : Bot * list Effect :=
  match get_session_of_creator (db b) sessionId (user_id i) with
  | None => (b, [Reply (text "Session not found or you are not the creator!")])
  | Some session =>
      let queue := select_queue_ordered (db b) sessionId in
      let team := select_team (db b) sessionId in
      match createManagementEmbed session queue team,
            get gameModes (sessions.game_mode session) with
      | Normal embed, Some mode =>
          let components := selection_menus (db b) sessionId mode in
          (b, [Reply {| content := ""; embeds := [embed];
                        components := take 5 components |}])
      | Throw error, _ | Stuck error, _ => (b, [Uncaught error])
      | Normal _, None =>
          (b, [Uncaught "TypeError: Cannot read properties of undefined (reading 'roles')"])
      end
  end.

(** ** Joining and leaving the queue *)

(** [joinQueue]: the Join Queue command and button.  It only answers; the
    menus it shows are handled by the last branch of [handleSelectMenu]. *)
Definition joinQueue (b : Bot) (i : Interaction) (sessionId : Z)
    : Bot * list Effect :=
  match get_queue_entry (db b) sessionId (user_id i) with
  | Some existing =>
      (b, [Reply (text "You are already in the queue for this session!")])
  | None =>
      match accounts_of (db b) (user_id i) with
      | [] => (b, [Reply (text
                 "Please add at least one account first with `/add-account`!")])
      | [account] =>
          (* showRolePreferences *)
          (b, [Reply {| content := "Select which roles you can play for this session:";
                        embeds := [];
                        components :=
                          [SelectMenu
                             (select_queue_roles sessionId (user_accounts.id account))
                             "Select roles you can play (multiple allowed)"
                             (map (fun r => {| label := r; value := r;
                                               opt_description := "" |})
                                  ["Tank"; "DPS"; "Support"])] |}])
      | accounts =>
          (b, [Reply {| content := "Select which account to use for this session:";
                        embeds := [];
                        components :=
                          [SelectMenu (select_queue_account sessionId)
                             "Select which account to use"
                             (map (fun account =>
                                {| label := user_accounts.account_name account
                                     +:+ (if user_accounts.is_primary account
                                          then " (Primary)" else "");
                                   value := pretty (user_accounts.id account);
                                   opt_description :=
                                     "Tank: " +:+ formatRank (user_accounts.tank_rank account)
                                                   (user_accounts.tank_division account)
                                     +:+ " | DPS: "
                                     +:+ formatRank (user_accounts.dps_rank account)
                                                   (user_accounts.dps_division account)
                                     +:+ " | Support: "
                                     +:+ formatRank (user_accounts.support_rank account)
                                                   (user_accounts.support_division account) |})
                                accounts)] |}])
      end
  end.

(** [joinWithAccount] is two SQLite callbacks.  The first receives the row
    the lookup found ([existing]); what it does with it, the UPDATE or the
    INSERT with its own callback, is [joinWithAccount_write].  The reply is
    sent before the lookup callback of [updateSessionMessage] runs, so it
    comes first in the effects. *)
Definition joinWithAccount_write (b : Bot) (e : Event) (sessionId accountId : Z)
    (roles : list string) (existing : option session_queue.row)
    : Bot * list Effect :=
  let i := interaction e in
  match existing with
  | Some existing =>
      let existingRoles := session_queue.preferred_roles existing in
      let newRoles := array_from_set (existingRoles ++ roles) in
      let d' :=
        with_session_queue
          (map (fun q => if queue_match sessionId (user_id i) q
                         then session_queue.set_roles_account newRoles accountId q
                         else q)
               (t_session_queue (db b)))
          (seq_session_queue (db b)) (db b) in
      (with_db d' b,
       Reply (text (":white_check_mark: Updated queue entry! Now queued for: **"
                    +:+ join ", " newRoles +:+ "**"))
       :: updateSessionMessage d' (discord e) sessionId)
  | None =>
      let id := seq_session_queue (db b) + 1 in
      let d' :=
        with_session_queue
          (t_session_queue (db b) ++
           [ {| session_queue.id := id;
                session_queue.session_id := sessionId;
                session_queue.user_id := user_id i;
                session_queue.account_id := accountId;
                session_queue.preferred_roles := roles;
                session_queue.is_streaming := false;
                session_queue.queue_position := 0;
                session_queue.status := "queued";
                session_queue.joined_at := now e |} ])
          id (db b) in
      (with_db d' b,
       Reply (text (":white_check_mark: Successfully joined queue for: **"
                    +:+ join ", " roles +:+ "**"))
       :: updateSessionMessage d' (discord e) sessionId)
  end.

(** [joinWithAccount] when nothing runs between its lookup and the callback
    that receives the row: create the caller's queue entry or merge the
    roles into the one found. *)
Definition joinWithAccount (b : Bot) (e : Event) (sessionId accountId : Z)
    (roles : list string) : Bot * list Effect :=
  joinWithAccount_write b e sessionId accountId roles
    (get_queue_entry (db b) sessionId (user_id (interaction e))).

(** [String.prototype.toLowerCase] on ASCII letters. *)
Definition lower_ascii (c : Ascii.ascii) : Ascii.ascii :=
  let n := Ascii.nat_of_ascii c in
  if (65 <=? n)%nat && (n <=? 90)%nat then Ascii.ascii_of_nat (n + 32) else c.

Fixpoint toLowerCase (s : string) : string :=
  match s with
  | EmptyString => EmptyString
  | String c s' => String (lower_ascii c) (toLowerCase s')
  end.

(** [account[`${role.toLowerCase()}_rank`]]; a column that does not exist
    reads as a falsy value. *)
Definition rank_column (role : string) (account : user_accounts.row) : string :=
  let rankField := toLowerCase role +:+ "_rank" in
  if String.eqb rankField "tank_rank" then user_accounts.tank_rank account
  else if String.eqb rankField "dps_rank" then user_accounts.dps_rank account
  else if String.eqb rankField "support_rank" then user_accounts.support_rank account
  else "".

Definition division_column (role : string) (account : user_accounts.row) : Z :=
  let field := toLowerCase role +:+ "_division" in
  if String.eqb field "tank_division" then user_accounts.tank_division account
  else if String.eqb field "dps_division" then user_accounts.dps_division account
  else if String.eqb field "support_division" then user_accounts.support_division account
  else 0.

(** The accounts [handleQuickJoin] may join with: those that have a rank
    for the role, or all of them for 'Any'. *)
Definition eligibleAccounts (accounts : list user_accounts.row) (role : string)
    : list user_accounts.row :=
  if negb (String.eqb role "Any")
  then List.filter (fun account => truthy_s (rank_column role account)) accounts
  else accounts.

Definition handleQuickJoin (b : Bot) (e : Event) (sessionId : Z) (role : string)
    : Bot * list Effect :=
  let i := interaction e in
  let accounts := accounts_of (db b) (user_id i) in
  match accounts with
  | [] => (b, [Reply (text "Please add an account first with `/add-account`!")])
  | _ =>
      let eligibleAccounts := eligibleAccounts accounts role in
      match eligibleAccounts with
      | [] => (b, [Reply (text ("No accounts found with " +:+ role
                                +:+ " ranks! Please set your " +:+ role
                                +:+ " rank first."))])
      | [account] =>
          joinWithAccount b e sessionId (user_accounts.id account) [role]
      | _ =>
          (b, [Reply
                 {| content := "";
                    embeds :=
                      [ {| title := ":dart: Quick Join as " +:+ role;
                           e_description :=
                             join "" (imap (fun index account =>
                               "**" +:+ pretty (Z.of_nat index + 1) +:+ ". "
                               +:+ user_accounts.account_name account +:+ "** "
                               +:+ (if user_accounts.is_primary account
                                    then "(Primary)" else "") +:+ nl
                               +:+ (if negb (String.eqb role "Any")
                                    then formatRank (rank_column role account)
                                                    (division_column role account)
                                    else
                                      "Tank: " +:+ formatRank (user_accounts.tank_rank account)
                                                    (user_accounts.tank_division account)
                                      +:+ " | DPS: "
                                      +:+ formatRank (user_accounts.dps_rank account)
                                                    (user_accounts.dps_division account)
                                      +:+ " | Support: "
                                      +:+ formatRank (user_accounts.support_rank account)
                                                    (user_accounts.support_division account))
                               +:+ nl +:+ nl) eligibleAccounts);
                           e_color := "#00FF00"; fields := [] |} ];
                    components :=
                      [SelectMenu (quick_join_account sessionId role) "Select account"
                         (map (fun account =>
                            {| label := user_accounts.account_name account
                                 +:+ (if user_accounts.is_primary account
                                      then " (Primary)" else "");
                               value := pretty (user_accounts.id account);
                               opt_description :=
                                 if negb (String.eqb role "Any")
                                 then formatRank (rank_column role account)
                                                 (division_column role account)
                                 else "Multi-role account" |})
                            eligibleAccounts)] |}])
      end
  end.

(** [DELETE FROM session_queue WHERE session_id = ? AND user_id = ?]:
    the table afterwards and [this.changes]. *)
Definition delete_queue_entry (d : Database) (sessionId : Z) (userId : string)
    : Database * Z :=
  let kept := List.filter (fun q => negb (queue_match sessionId userId q))
                          (t_session_queue d) in
  let changes := Z.of_nat (length (List.filter (queue_match sessionId userId)
                                               (t_session_queue d))) in
  (with_session_queue kept (seq_session_queue d) d, changes).

(** [handleLeaveQueue]: the [/leave-queue] command. *)
Definition handleLeaveQueue (b : Bot) (e : Event) (sessionId : Z)
    : Bot * list Effect :=
  let '(d', changes) := delete_queue_entry (db b) sessionId (user_id (interaction e)) in
  if changes =? 0 then
    (with_db d' b, [Reply (text "You were not in the queue for this session!")])
  else
    (with_db d' b,
     Reply (text ("Left the queue for session #" +:+ pretty sessionId +:+ "."))
     :: updateSessionMessage d' (discord e) sessionId).

(** [handleLeaveQueueButton]: the Leave Queue button. *)
Definition handleLeaveQueueButton (b : Bot) (e : Event) (sessionId : Z)
    : Bot * list Effect :=
  let '(d', _) := delete_queue_entry (db b) sessionId (user_id (interaction e)) in
  (with_db d' b,
   Reply (text (":white_check_mark: Left the queue for session #"
                +:+ pretty sessionId +:+ "!"))
   :: updateSessionMessage d' (discord e) sessionId).

(** ** Cancelling a session *)

(** [UPDATE sessions SET status = "cancelled" WHERE id = ? AND creator_id = ?]:
    the table afterwards and [this.changes], the number of rows the WHERE
    clause selects. *)
Definition cancel_match (sessionId : Z) (creator : string) (s : sessions.row)
    : bool :=
  (sessions.id s =? sessionId) && String.eqb (sessions.creator_id s) creator.

Definition update_cancelled (d : Database) (sessionId : Z) (creator : string)
    : Database * Z :=
  let updated :=
    map (fun s => if cancel_match sessionId creator s
                  then sessions.set_status "cancelled" s else s)
        (t_sessions d) in
  let changes := Z.of_nat (length (List.filter (cancel_match sessionId creator)
                                               (t_sessions d))) in
  (with_sessions updated (seq_sessions d) d, changes).

Definition handleCancelSession (b : Bot) (i : Interaction) (sessionId : Z)
    : Bot * list Effect :=
  let '(d', changes) := update_cancelled (db b) sessionId (user_id i) in
  if changes =? 0 then
    (with_db d' b, [Reply (text "Session not found or you are not the creator!")])
  else
    (with_db d' b,
     [Reply (text ("Session #" +:+ pretty sessionId +:+ " has been cancelled."))]).

(** ** Streaming flag *)

Definition stream_message (newStreamStatus : bool) : string :=
  if newStreamStatus then ":tv: Now streaming!" else ":tv: Stopped streaming".

Definition handleToggleStream (b : Bot) (e : Event) (sessionId : Z)
    (userId : string) : Bot * list Effect :=
  let isOwnToggle := String.eqb userId (user_id (interaction e)) in
  if negb isOwnToggle then
    (b, [Reply (text "You can only toggle your own streaming status!")])
  else
    match get_queue_entry (db b) sessionId userId with
    | Some queueEntry =>
        let newStreamStatus := negb (session_queue.is_streaming queueEntry) in
        let d' :=
          with_session_queue
            (map (fun q => if queue_match sessionId userId q
                           then session_queue.set_streaming newStreamStatus q
                           else q)
                 (t_session_queue (db b)))
            (seq_session_queue (db b)) (db b) in
        (with_db d' b,
         Reply (text (stream_message newStreamStatus))
         :: updateSessionMessage d' (discord e) sessionId)
    | None =>
        match get_participant (db b) sessionId userId with
        | Some participant =>
            let newStreamStatus :=
              negb (session_participants.is_streaming participant) in
            let d' :=
              with_session_participants
                (map (fun p => if participant_match sessionId userId p
                               then session_participants.set_streaming newStreamStatus p
                               else p)
                     (t_session_participants (db b)))
                (db b) in
            (with_db d' b,
             Reply (text (stream_message newStreamStatus))
             :: updateSessionMessage d' (discord e) sessionId)
        | None =>
            (* bot.js:1081 declares this callback without [async] although it
               awaits the reply at :1098, which the parser rejects for the
               whole file; it is read here as declared [async]. *)
            (b, [Reply (text "You are not part of this session!")])
        end
    end.

(** ** Profiles and accounts *)

Definition role_options : list MenuOption :=
  map (fun r => {| label := r; value := r; opt_description := "" |})
      ["Tank"; "DPS"; "Support"].

Definition handleSetupProfile (b : Bot) (i : Interaction)
    (tz : option string) : Bot * list Effect :=
  let timezone := or_else (default "" tz) "America/New_York" in
  (* INSERT OR REPLACE INTO users (discord_id, username, timezone) *)
  let users' :=
    List.filter (fun usr => negb (String.eqb (users.discord_id usr) (user_id i)))
                (t_users (db b))
    ++ [ {| users.discord_id := user_id i; users.username := user_username i;
            users.preferred_roles := []; users.timezone := timezone |} ] in
  (with_db (with_users users' (db b)) b,
   [Reply {| content := "";
             embeds := [ {| title := "Profile Setup";
                            e_description := "Welcome! Profile created for "
                              +:+ user_username i +:+ "." +:+ nl +:+ nl
                              +:+ "**Timezone:** " +:+ timezone;
                            e_color := "#FF6B35"; fields := [] |} ];
             components := [SelectMenu select_preferred_roles
                              "Select your preferred roles" role_options] |}]).

Definition set_primary (p : bool) (a : user_accounts.row) : user_accounts.row :=
  {| user_accounts.id := user_accounts.id a;
     user_accounts.discord_id := user_accounts.discord_id a;
     user_accounts.account_name := user_accounts.account_name a;
     user_accounts.tank_rank := user_accounts.tank_rank a;
     user_accounts.tank_division := user_accounts.tank_division a;
     user_accounts.dps_rank := user_accounts.dps_rank a;
     user_accounts.dps_division := user_accounts.dps_division a;
     user_accounts.support_rank := user_accounts.support_rank a;
     user_accounts.support_division := user_accounts.support_division a;
     user_accounts.is_primary := p |}.

Definition rank_buttons (accountId : Z) : Component :=
  ButtonRow [btn_set_rank accountId "Tank"; btn_set_rank accountId "DPS";
             btn_set_rank accountId "Support"].

Definition handleAddAccount (b : Bot) (i : Interaction) (accountName : string)
    (primary : option bool) : Bot * list Effect :=
  let isPrimary := default false primary in
  let cleared :=
    if isPrimary
    then map (fun a => if String.eqb (user_accounts.discord_id a) (user_id i)
                       then set_primary false a else a)
             (t_user_accounts (db b))
    else t_user_accounts (db b) in
  let accountId := seq_user_accounts (db b) + 1 in
  let inserted :=
    cleared ++
    [ {| user_accounts.id := accountId;
         user_accounts.discord_id := user_id i;
         user_accounts.account_name := accountName;
         user_accounts.tank_rank := ""; user_accounts.tank_division := 0;
         user_accounts.dps_rank := ""; user_accounts.dps_division := 0;
         user_accounts.support_rank := ""; user_accounts.support_division := 0;
         user_accounts.is_primary := isPrimary |} ] in
  (with_db (with_user_accounts inserted accountId (db b)) b,
   [Reply {| content := "";
             embeds := [ {| title := "Account Added!";
                            e_description := "**" +:+ accountName +:+ "** "
                              +:+ (if isPrimary then "(Primary)" else "");
                            e_color := "#00FF00"; fields := [] |} ];
             components := [rank_buttons accountId] |}]).

Definition account_ranks_text (account : user_accounts.row) : string :=
  ":shield: Tank: " +:+ formatRank (user_accounts.tank_rank account)
                                   (user_accounts.tank_division account) +:+ nl
  +:+ ":crossed_swords: DPS: " +:+ formatRank (user_accounts.dps_rank account)
                                   (user_accounts.dps_division account) +:+ nl
  +:+ ":green_heart: Support: " +:+ formatRank (user_accounts.support_rank account)
                                   (user_accounts.support_division account).

Definition handleEditAccount (b : Bot) (i : Interaction) (accountName : string)
    : Bot * list Effect :=
  match head (List.filter
                (fun a => String.eqb (user_accounts.discord_id a) (user_id i)
                          && String.eqb (user_accounts.account_name a) accountName)
                (t_user_accounts (db b))) with
  | None => (b, [Reply (text "Account not found!")])
  | Some account =>
      (b, [Reply {| content := "";
                    embeds := [ {| title := "Edit Account: " +:+ accountName;
                                   e_description := "Current ranks:" +:+ nl
                                     +:+ account_ranks_text account;
                                   e_color := "#FF6B35"; fields := [] |} ];
                    components :=
                      [rank_buttons (user_accounts.id account);
                       ButtonRow [btn_delete_account (user_accounts.id account)]] |}])
  end.

Definition handleDeleteAccount (b : Bot) (i : Interaction) (accountId : Z)
    : Bot * list Effect :=
  match head (List.filter
                (fun a => (user_accounts.id a =? accountId)
                          && String.eqb (user_accounts.discord_id a) (user_id i))
                (t_user_accounts (db b))) with
  | None => (b, [Reply (text "Account not found or not yours!")])
  | Some account =>
      let kept := List.filter (fun a => negb (user_accounts.id a =? accountId))
                              (t_user_accounts (db b)) in
      (with_db (with_user_accounts kept (seq_user_accounts (db b)) (db b)) b,
       [Reply (text (":white_check_mark: Deleted account " +:+ dquote
                     +:+ user_accounts.account_name account +:+ dquote +:+ "!"))])
  end.

Definition showRankSelection (b : Bot) (accountId : Z) (role : string)
    : Bot * list Effect :=
  (b, [Reply {| content := "Select your **" +:+ role +:+ "** rank:";
                embeds := [];
                components :=
                  [SelectMenu (select_rank accountId role)
                     ("Select your " +:+ role +:+ " rank")
                     (map (fun '(rank, _) => {| label := rank; value := rank;
                                                opt_description := "" |})
                          ranks)] |}]).

(** [ORDER BY account_name] and [ORDER BY is_primary DESC, account_name]. *)
Definition by_name (a1 a2 : user_accounts.row) : bool :=
  String.ltb (user_accounts.account_name a1) (user_accounts.account_name a2).

Definition by_primary_then_name (a1 a2 : user_accounts.row) : bool :=
  match user_accounts.is_primary a1, user_accounts.is_primary a2 with
  | true, false => true
  | false, true => false
  | _, _ => by_name a1 a2
  end.

Definition primary_tag (a : user_accounts.row) : string :=
  if user_accounts.is_primary a then " (Primary)" else "".

Definition handleEditProfile (b : Bot) (i : Interaction) : Bot * list Effect :=
  let accounts := sort_rows by_name (accounts_of (db b) (user_id i)) in
  let message :=
    "**Your Accounts:**" +:+ nl
    +:+ join "" (imap (fun n account =>
          pretty (Z.of_nat n + 1) +:+ ". " +:+ user_accounts.account_name account
          +:+ " " +:+ (if user_accounts.is_primary account then "(Primary)" else "")
          +:+ nl) accounts)
    +:+ nl +:+ "Use `/edit-account account-name:YourAccountName` to edit ranks!" in
  let components :=
    if 1 <? Z.of_nat (length accounts)
    then [ButtonRow (map (fun a => btn_delete_account (user_accounts.id a))
                         (take 5 accounts))]
    else [] in
  (b, [Reply {| content := message; embeds := []; components := take 5 components |}]).

Definition handleMyProfile (b : Bot) (i : Interaction) : Bot * list Effect :=
  match head (List.filter (fun usr => String.eqb (users.discord_id usr) (user_id i))
                          (t_users (db b))) with
  | None => (b, [Reply (text "Profile not found! Use `/setup-profile` to create one.")])
  | Some user =>
      let accounts := sort_rows by_primary_then_name (accounts_of (db b) (user_id i)) in
      let accountFields :=
        match accounts with
        | [] => [(":video_game: Accounts",
                  "No accounts added yet! Use `/add-account` to add your Overwatch accounts.")]
        | _ => map (fun account =>
                 (user_accounts.account_name account +:+ primary_tag account,
                  account_ranks_text account)) accounts
        end in
      (b, [Reply {| content := "";
                    embeds := [ {| title := user_username i +:+ "'s Overwatch Profile";
                                   e_description := ""; e_color := "#FF6B35";
                                   fields :=
                                     [(":earth_africa: Timezone", users.timezone user);
                                      (":star: Preferred Roles",
                                       or_else (join ", " (users.preferred_roles user))
                                               "None selected")]
                                     ++ accountFields |} ];
                    components := [ButtonRow [btn_edit_profile]] |}])
  end.

(** ** Creating and viewing sessions *)

(** The custom id [`select-day-${gameMode}-${maxRankDiff}`] of the day menu
    as [handleSelectMenu] reads it back: split on the dashes, [parts[2]]
    for the game mode and [parseInt(parts[3])] for the rank difference.  A
    negative number prints with a dash of its own, which leaves [parts[3]]
    empty.  The id holds at least three dashes, so both parts exist. *)
Definition day_menu_id (gameMode : string) (maxRankDiff : Z) : SelectId :=
  let parts :=
    split_on "-" ("select-day-" +:+ gameMode +:+ "-" +:+ pretty maxRankDiff) in
  select_day (nth 2 parts "") (parseInt (nth 3 parts "")).

Definition handleCreateSession (b : Bot) (i : Interaction) (game_mode : string)
    (description : option string) (max_rank_diff : option Z)
    : Bot * list Effect :=
  let gameMode := game_mode in
  let description := default "" description in
  let maxRankDiff :=
    let n := default 0 max_rank_diff in if truthy_n n then n else 5 in
  let user := head (List.filter
                (fun usr => String.eqb (users.discord_id usr) (user_id i))
                (t_users (db b))) in
  let userTimezone :=
    or_else (match user with Some usr => users.timezone usr | None => "" end)
            "America/New_York" in
  let draft :=
    {| gameMode := gameMode; ts_description := description;
       maxRankDiff := maxRankDiff; userTimezone := userTimezone;
       guildId := guild i; channelId := channel i |} in
  ({| db := db b;
      tempSessionData := Some (<[user_id i := draft]> (default ∅ (tempSessionData b))) |},
   [Reply {| content := "";
             embeds := [ {| title := ":video_game: Creating " +:+ gameMode +:+ " Session";
                            e_description :=
                              "**Description:** " +:+ or_else description "None" +:+ nl
                              +:+ "**Max Rank Difference:** " +:+ pretty maxRankDiff
                              +:+ " divisions" +:+ nl
                              +:+ "**Your Timezone:** " +:+ userTimezone;
                            e_color := "#0099FF"; fields := [] |} ];
             components :=
               [SelectMenu (day_menu_id gameMode maxRankDiff) "Select day"
                  (map (fun day => {| label := day; value := day;
                                      opt_description := "" |}) daysOfWeek)] |}]).

(** What the handler of the gateway event does with a handler that threw. *)
Definition interaction_catch (c : Completion (list Effect)) : list Effect :=
  match c with
  | Normal effects => effects
  | Throw error => [ConsoleError "Error handling interaction:" error;
                    Reply (text "An error occurred!")]
  | Stuck error => [Uncaught error]
  end.

Definition handleViewSessions (b : Bot) (i : Interaction) : Bot * list Effect :=
  let sessions :=
    order_by sessions.scheduled_time
      (List.filter (fun s => String.eqb (sessions.guild_id s) (guild i)
                             && String.eqb (sessions.status s) "open")
                   (t_sessions (db b))) in
  match sessions with
  | [] => (b, [Reply (text "No active sessions found!")])
  | _ =>
      match mapM (fun s => await (createSessionEmbed (db b) (sessions.id s)))
                 (take 5 sessions) with
      | Normal embeds =>
          (b, [Reply {| content := ""; embeds := embeds; components := [] |}])
      | Throw error | Stuck error => (b, [Uncaught error])
      end
  end.

Definition handleRefreshSession (b : Bot) (sessionId : Z) : Bot * list Effect :=
  (b, interaction_catch (
        embed ← await (createSessionEmbed (db b) sessionId);
        buttons ← await (createSessionButtons (db b) sessionId);
        mret [Reply {| content := ":arrows_counterclockwise: **Refreshed Session Status:**";
                       embeds := [embed]; components := buttons |}])).

(** Date arithmetic of the day menu, in UTC. *)
Definition day_ms : Z := 86400000.
Definition setHours20 (t : Z) : Z := (t / day_ms) * day_ms + 20 * 3600000.
Definition getDay (t : Z) : Z := ((t / day_ms) + 4) mod 7.
Definition dayNames : list string :=
  ["Sunday"; "Monday"; "Tuesday"; "Wednesday"; "Thursday"; "Friday"; "Saturday"].

Definition scheduled_for (now : Z) (selectedDay : string) : Z :=
  if String.eqb selectedDay "Today" then
    let t := setHours20 now in
    if t <=? now then t + day_ms else t
  else if String.eqb selectedDay "Tomorrow" then
    setHours20 (now + day_ms)
  else
    let targetDayIndex := indexOf dayNames selectedDay in
    let currentDayIndex := getDay now in
    let daysToAdd := targetDayIndex - currentDayIndex in
    let daysToAdd := if daysToAdd <=? 0 then daysToAdd + 7 else daysToAdd in
    setHours20 (now + daysToAdd * day_ms).

(** The detached promise chain that should post the session message.  The
    second [then] reads [sessionEmbed], which is bound only inside the
    first one, so the chain always ends in its [catch]; [message_id] is
    never written. *)
Definition post_session (d : Database) (w : Discord) (sessionId : Z)
    (channelId : string) : list Effect :=
  let chain : Completion () :=
    sessionEmbed ← await (createSessionEmbed d sessionId);
    components ← await (createSessionButtons d sessionId);
    _ ← await_settled (channels_fetch w channelId);
    Throw "ReferenceError: sessionEmbed is not defined" in
  match chain with
  | Normal _ => []
  | Throw error => [ConsoleError "Error posting session:" error]
  | Stuck error => [Uncaught error]
  end.

Definition handleSelectMenu (b : Bot) (e : Event) (customId : SelectId)
    (values : list string) : Bot * list Effect :=
  let i := interaction e in
  match customId with
  | select_preferred_roles =>
      let selectedRoles := values in
      let users' :=
        map (fun usr => if String.eqb (users.discord_id usr) (user_id i)
                        then {| users.discord_id := users.discord_id usr;
                                users.username := users.username usr;
                                users.preferred_roles := selectedRoles;
                                users.timezone := users.timezone usr |}
                        else usr)
            (t_users (db b)) in
      (with_db (with_users users' (db b)) b,
       [Reply (text ("Preferred roles updated: " +:+ join ", " selectedRoles))])
  | select_day gameMode maxRankDiff =>
      let selectedDay := default "undefined" (head values) in
      match tempSessionData b with
      | None =>
          (b, [ConsoleError "SelectMenu error:"
                 "TypeError: Cannot read properties of undefined";
               Reply (text "An error occurred!")])
      | Some drafts =>
          match drafts !! user_id i with
          | None =>
              (b, [Reply (text
                 "Session creation expired. Please try `/create-session` again!")])
          | Some sessionData =>
              let scheduledTime := scheduled_for (now e) selectedDay in
              let sessionId := seq_sessions (db b) + 1 in
              let d' :=
                with_sessions
                  (t_sessions (db b) ++
                   [ {| sessions.id := sessionId;
                        sessions.creator_id := user_id i;
                        sessions.guild_id := guildId sessionData;
                        sessions.channel_id := channelId sessionData;
                        sessions.game_mode := gameMode;
                        sessions.scheduled_time := scheduledTime;
                        sessions.timezone := userTimezone sessionData;
                        sessions.description := ts_description sessionData;
                        sessions.max_rank_diff := maxRankDiff;   (* NaN binds as NULL *)
                        sessions.status := "open";
                        sessions.message_id := "" |} ])
                  sessionId (db b) in
              ({| db := d'; tempSessionData := Some (delete (user_id i) drafts) |},
               Reply (text (":white_check_mark: Session #" +:+ pretty sessionId
                            +:+ " created for **" +:+ selectedDay
                            +:+ " at 8:00 PM**! Check the channel for the full session details."))
               :: post_session d' (discord e) sessionId (channelId sessionData))
          end
      end
  | _ =>
      (b, [Reply (text "Feature coming soon!")])
  end.

(** ** Dispatch ([interactionCreate]) *)

Definition handleCommand (b : Bot) (e : Event) (c : Command)
    : Bot * list Effect :=
  let i := interaction e in
  match c with
  | setup_profile tz => handleSetupProfile b i tz
  | add_account name primary => handleAddAccount b i name primary
  | edit_account name => handleEditAccount b i name
  | create_session mode descr diff => handleCreateSession b i mode descr diff
  | join_queue sessionId => joinQueue b i sessionId
  | manage_session sessionId => manageSession b i sessionId
  | view_sessions => handleViewSessions b i
  | my_profile => handleMyProfile b i
  | cancel_session sessionId => handleCancelSession b i sessionId
  | leave_queue sessionId => handleLeaveQueue b e sessionId
  end.

Definition handleButton (b : Bot) (e : Event) (customId : ButtonId)
    : Bot * list Effect :=
  let i := interaction e in
  match customId with
  | btn_join_queue sessionId => joinQueue b i sessionId
  | btn_leave_queue sessionId => handleLeaveQueueButton b e sessionId
  | btn_quick_join sessionId role => handleQuickJoin b e sessionId role
  | btn_toggle_stream sessionId userId => handleToggleStream b e sessionId userId
  | btn_refresh_session sessionId => handleRefreshSession b sessionId
  | btn_manage_session sessionId => manageSession b i sessionId
  | btn_set_rank accountId role => showRankSelection b accountId role
  | btn_edit_profile => handleEditProfile b i
  | btn_delete_account accountId => handleDeleteAccount b i accountId
  end.

Definition step (b : Bot) (e : Event) : Bot * list Effect :=
  match kind (interaction e) with
  | ChatInputCommand c => handleCommand b e c
  | Button customId => handleButton b e customId
  | StringSelectMenu customId values => handleSelectMenu b e customId values
  end.

(** The bot after a sequence of gateway events. *)
Definition run (b : Bot) (events : list Event) : Bot :=
  fold_left (fun b e => fst (step b e)) events b.

(** A new process on the same database file: the constructor runs again,
    [initDatabase] finds its tables and the drafts are gone. *)
Definition restart (b : Bot) : Bot :=
  {| db := db b; tempSessionData := None |}.

(** The bot after a sequence of process runs, each with its events,
    starting on an empty database file. *)
Definition lifetime (runs : list (list Event)) : Bot :=
  fold_left (fun b events => run (restart b) events) runs new_bot.

(** ** Notions used by the properties *)

(** The tiers and divisions of the rank table. *)
Definition known_rank (tier : string) (division : Z) : bool :=
  match get ranks tier with
  | Some info => existsb (Z.eqb division) (divisions info)
  | None => false
  end.

Definition tierIndex (tier : string) : Z := indexOf rankOrder tier.

(** The largest division of the rank table. *)
Definition maxDivision : Z :=
  fold_right Z.max 0 (flat_map (fun '(_, info) => divisions info) ranks).

(** The multiplier of the tier index in [getRankValue]. *)
Definition K : Z := 10.

(** Number of participant rows of a session in a role. *)
Definition participant_count (d : Database) (sessionId : Z) (role : string) : Z :=
  Z.of_nat (length (List.filter
    (fun p => (session_participants.session_id p =? sessionId)
              && String.eqb (session_participants.role p) role)
    (t_session_participants d))).

(** No role of a session of the database holds more participants than the
    session's game mode has slots for it. *)
Definition within_capacity (d : Database) : Prop :=
  Forall (fun s =>
    forall mode, get gameModes (sessions.game_mode s) = Some mode ->
      Forall (fun '(role, count) => participant_count d (sessions.id s) role <= count)
             (roles mode))
    (t_sessions d).

(** Every role of the session's game mode is filled exactly. *)
Definition saturated (d : Database) (s : sessions.row) : Prop :=
  forall mode, get gameModes (sessions.game_mode s) = Some mode ->
    Forall (fun '(role, count) => participant_count d (sessions.id s) role = count)
           (roles mode).

(** The status law for one session row. *)
Definition status_law (d : Database) (s : sessions.row) : Prop :=
  sessions.status s = "cancelled"
  \/ ((sessions.status s = "full" <-> saturated d s)
      /\ (~ saturated d s -> sessions.status s = "open")).

(** The session embed reads 'FULL TEAM SELECTED' in its Status field, the
    last one. *)
Definition shows_full_team (embed : Embed) : bool :=
  match last (fields embed) with
  | Some (name, value) =>
      String.eqb name ":bar_chart: Status"
      && String.prefix ":green_circle: **FULL TEAM SELECTED**" value
  | None => false
  end.

Definition is_reply (f : Effect) : bool :=
  match f with Reply _ => true | _ => false end.

(** The answers the invoking user gets. *)
Definition replies (effects : list Effect) : list Effect :=
  List.filter is_reply effects.

(** The same event with another behaviour of the Discord side. *)
Definition with_discord (w : Discord) (e : Event) : Event :=
  {| interaction := interaction e; now := now e; discord := w |}.

(** Some call of the resync of this session's message is rejected. *)
Definition resync_rejected (w : Discord) (s : sessions.row) : Prop :=
  (exists r, channels_fetch w (sessions.channel_id s) = Rejected r)
  \/ (exists r, messages_fetch w (sessions.channel_id s) (sessions.message_id s)
                = Rejected r)
  \/ (exists r, message_edit w (sessions.channel_id s) (sessions.message_id s)
                = Rejected r).

(** The queue rows of one user in one session. *)
Definition entries_of (d : Database) (sessionId : Z) (userId : string)
    : list session_queue.row :=
  List.filter (queue_match sessionId userId) (t_session_queue d).

(** The entry [joinWithAccount] inserts for a user who has none. *)
Definition fresh_entry (b : Bot) (e : Event) (sessionId accountId : Z)
    (roles : list string) : session_queue.row :=
  {| session_queue.id := seq_session_queue (db b) + 1;
     session_queue.session_id := sessionId;
     session_queue.user_id := user_id (interaction e);
     session_queue.account_id := accountId;
     session_queue.preferred_roles := roles;
     session_queue.is_streaming := false;
     session_queue.queue_position := 0;
     session_queue.status := "queued";
     session_queue.joined_at := now e |}.

(** The status of the row is one of the two the bot writes. *)
Definition open_or_cancelled (s : sessions.row) : Prop :=
  sessions.status s = "open" \/ sessions.status s = "cancelled".

(** The same event with another interaction kind. *)
Definition with_kind (k : InteractionKind) (e : Event) : Event :=
  {| interaction :=
       {| user_id := user_id (interaction e);
          user_username := user_username (interaction e);
          guild := guild (interaction e); channel := channel (interaction e);
          kind := k |};
     now := now e; discord := discord e |}.

(** The rank value of a candidate for a role: that of the role's own rank,
    or for any other role the highest of the three, as
    [getPlayerRankDescription] picks it. *)
Definition rank_value_for (role : string) (q : Joined session_queue.row) : Z :=
  if String.eqb role "Tank" then getRankValue (j_tank_rank q) (j_tank_division q)
  else if String.eqb role "DPS" then getRankValue (j_dps_rank q) (j_dps_division q)
  else if String.eqb role "Support" then
    getRankValue (j_support_rank q) (j_support_division q)
  else Z.max (Z.max (getRankValue (j_tank_rank q) (j_tank_division q))
                    (getRankValue (j_dps_rank q) (j_dps_division q)))
             (getRankValue (j_support_rank q) (j_support_division q)).

(** The role filter of [manageSession] on a stored queue row. *)
Definition wants_role (role : string) (row : session_queue.row) : bool :=
  let roles := session_queue.preferred_roles row in
  includes roles role || includes roles "Any" || String.eqb role "Any".

Definition joined_at_le : Joined session_queue.row -> Joined session_queue.row -> Prop :=
  key_le q_joined_at.

(** ** Scenarios

    Concrete users, Discord behaviours and event sequences on which the
    properties below are exercised. *)

Definition discord_ok : Discord :=
  {| channels_fetch := fun _ => Fulfilled;
     messages_fetch := fun _ _ => Fulfilled;
     message_edit := fun _ _ => Fulfilled |}.

(** The bound message was deleted: fetching it is rejected. *)
Definition discord_message_gone : Discord :=
  {| channels_fetch := fun _ => Fulfilled;
     messages_fetch := fun _ _ => Rejected "DiscordAPIError: Unknown Message";
     message_edit := fun _ _ => Fulfilled |}.

Definition by_user (id name : string) (k : InteractionKind) : Interaction :=
  {| user_id := id; user_username := name; guild := "guild-1";
     channel := "channel-1"; kind := k |}.

Definition alice := by_user "1001" "alice".
Definition bob := by_user "1002" "bob".
Definition carol := by_user "1003" "carol".

Definition at_time (t : Z) (i : Interaction) : Event :=
  {| interaction := i; now := t; discord := discord_ok |}.

(** Alice adds an account, Carol creates 6v6 session #1. *)
Definition session_created : list Event :=
  [ at_time 1000 (alice (ChatInputCommand (add_account "Main" None)));
    at_time 2000 (carol (ChatInputCommand (create_session "6v6" None None)));
    at_time 3000 (carol (StringSelectMenu (select_day "6v6" (Some 5)) ["Today"])) ].

(** ... then Carol cancels it. *)
Definition session_cancelled : list Event :=
  session_created ++ [ at_time 4000 (carol (ChatInputCommand (cancel_session 1))) ].

Definition quick_join_any : Event :=
  at_time 5000 (alice (Button (btn_quick_join 1 "Any"))).

(** Session #1 as Carol's day menu created it. *)
Definition session_1 : sessions.row :=
  {| sessions.id := 1; sessions.creator_id := "1003";
     sessions.guild_id := "guild-1"; sessions.channel_id := "channel-1";
     sessions.game_mode := "6v6"; sessions.scheduled_time := 72000000;
     sessions.timezone := "America/New_York"; sessions.description := "";
     sessions.max_rank_diff := Some 5; sessions.status := "open";
     sessions.message_id := "" |}.

(** Alice is queued for session #1 and Bob presses a toggle button that
    names her. *)
Definition alice_queued : Bot := run new_bot (session_created ++ [quick_join_any]).

Definition bob_toggles_alice : Event :=
  at_time 6000 (bob (Button (btn_toggle_stream 1 "1001"))).

(** A database in which session #1 is bound to a posted message, and the
    bot over it; Alice has one account. *)
Definition bound_db : Database :=
  {| t_users := [];
     t_user_accounts :=
       [ {| user_accounts.id := 1; user_accounts.discord_id := "1001";
            user_accounts.account_name := "Main";
            user_accounts.tank_rank := ""; user_accounts.tank_division := 0;
            user_accounts.dps_rank := ""; user_accounts.dps_division := 0;
            user_accounts.support_rank := ""; user_accounts.support_division := 0;
            user_accounts.is_primary := false |} ];
     t_sessions :=
       [ {| sessions.id := 1; sessions.creator_id := "1003";
            sessions.guild_id := "guild-1"; sessions.channel_id := "channel-1";
            sessions.game_mode := "6v6"; sessions.scheduled_time := 72000000;
            sessions.timezone := "America/New_York"; sessions.description := "";
            sessions.max_rank_diff := Some 5; sessions.status := "open";
            sessions.message_id := "message-1" |} ];
     t_session_queue := []; t_session_participants := [];
     seq_user_accounts := 1; seq_sessions := 1; seq_session_queue := 0 |}.

Definition bound_bot : Bot := {| db := bound_db; tempSessionData := None |}.

(** Two candidates for Tank who joined session #1 at the same second: the
    one stored first is Bronze 5, the other Champion 1. *)
Definition account_ranked (id : Z) (owner rank : string) (division : Z)
    : user_accounts.row :=
  {| user_accounts.id := id; user_accounts.discord_id := owner;
     user_accounts.account_name := "Main";
     user_accounts.tank_rank := rank; user_accounts.tank_division := division;
     user_accounts.dps_rank := rank; user_accounts.dps_division := division;
     user_accounts.support_rank := rank; user_accounts.support_division := division;
     user_accounts.is_primary := true |}.

Definition queued (id sessionId : Z) (userId : string) (accountId : Z)
    (roles : list string) (joined : Z) : session_queue.row :=
  {| session_queue.id := id; session_queue.session_id := sessionId;
     session_queue.user_id := userId; session_queue.account_id := accountId;
     session_queue.preferred_roles := roles; session_queue.is_streaming := false;
     session_queue.queue_position := 0; session_queue.status := "queued";
     session_queue.joined_at := joined |}.

Definition profile (id name : string) : users.row :=
  {| users.discord_id := id; users.username := name;
     users.preferred_roles := []; users.timezone := "America/New_York" |}.

Definition ranked_db : Database :=
  {| t_users := [profile "2001" "weak"; profile "2002" "strong"];
     t_user_accounts := [account_ranked 1 "2001" "Bronze" 5;
                         account_ranked 2 "2002" "Champion" 1];
     t_sessions := [ {| sessions.id := 1; sessions.creator_id := "1003";
                        sessions.guild_id := "guild-1";
                        sessions.channel_id := "channel-1";
                        sessions.game_mode := "5v5";
                        sessions.scheduled_time := 72000000;
                        sessions.timezone := "America/New_York";
                        sessions.description := ""; sessions.max_rank_diff := Some 5;
                        sessions.status := "open"; sessions.message_id := "" |} ];
     t_session_queue := [queued 1 1 "2001" 1 ["Tank"] 100;
                         queued 2 1 "2002" 2 ["Tank"] 100];
     t_session_participants := [];
     seq_user_accounts := 2; seq_sessions := 1; seq_session_queue := 2 |}.

(** The same two rows with the ranks of the two accounts exchanged. *)
Definition ranked_db_swapped : Database :=
  with_user_accounts [account_ranked 1 "2001" "Champion" 1;
                      account_ranked 2 "2002" "Bronze" 5] 2 ranked_db.

(** Twenty-six users with a profile queued for 6v6 session #1. *)
Definition crowd_db : Database :=
  {| t_users := map (fun n => profile (pretty n) ("player" +:+ pretty n)) (seqZ 1 26);
     t_user_accounts := [];
     t_sessions := [session_1];
     t_session_queue :=
       map (fun n => queued n 1 (pretty n) 0 ["Any"] (1000 + n)) (seqZ 1 26);
     t_session_participants := [];
     seq_user_accounts := 0; seq_sessions := 1; seq_session_queue := 26 |}.

(** A database file in which the six slots of 6v6 session #1 are taken: six
    users with a profile hold a participant row each; Alice has a profile
    and an account and is not part of the session. *)
Definition selected (n : Z) : session_participants.row :=
  {| session_participants.id := n; session_participants.session_id := 1;
     session_participants.user_id := pretty n;
     session_participants.account_id := 0; session_participants.role := "Any";
     session_participants.is_streaming := false;
     session_participants.selected_by := "1003";
     session_participants.selected_at := 4000 |}.

Definition full_team_db : Database :=
  {| t_users := profile "1001" "alice"
                :: map (fun n => profile (pretty n) ("player" +:+ pretty n)) (seqZ 1 6);
     t_user_accounts :=
       [ {| user_accounts.id := 1; user_accounts.discord_id := "1001";
            user_accounts.account_name := "Main";
            user_accounts.tank_rank := ""; user_accounts.tank_division := 0;
            user_accounts.dps_rank := ""; user_accounts.dps_division := 0;
            user_accounts.support_rank := ""; user_accounts.support_division := 0;
            user_accounts.is_primary := false |} ];
     t_sessions := [session_1];
     t_session_queue := [];
     t_session_participants := map selected (seqZ 1 6);
     seq_user_accounts := 1; seq_sessions := 1; seq_session_queue := 0 |}.

Definition full_team_bot : Bot := {| db := full_team_db; tempSessionData := None |}.

Definition mode_6v6 : GameMode :=
  {| roles := [("Any", 6)]; totalPlayers := 6 |}.

(** ** Notions used by the further properties *)

(** At most one queue row for every session and user. *)
Definition queue_unique (d : Database) : Prop :=
  forall sessionId userId, (length (entries_of d sessionId userId) <= 1)%nat.

(** The ids of the session rows are 1, 2, ... in the order of the table, and
    the AUTOINCREMENT counter is the last of them. *)
Definition session_ids_consecutive (d : Database) : Prop :=
  map sessions.id (t_sessions d)
    = map Z.of_nat (seq 1 (length (t_sessions d)))
  /\ seq_sessions d = Z.of_nat (length (t_sessions d)).

(** The primary accounts of one user. *)
Definition primaries_of (d : Database) (userId : string) : list user_accounts.row :=
  List.filter (fun a => String.eqb (user_accounts.discord_id a) userId
                        && user_accounts.is_primary a)
              (t_user_accounts d).

(** No rank column of the account is set. *)
Definition unranked (a : user_accounts.row) : Prop :=
  user_accounts.tank_rank a = "" /\ user_accounts.dps_rank a = ""
  /\ user_accounts.support_rank a = "".

(** At most one primary account for every user. *)
Definition primary_unique (d : Database) : Prop :=
  forall userId, (length (primaries_of d userId) <= 1)%nat.

(** No dash in the string. *)
Fixpoint dash_free (s : string) : bool :=
  match s with
  | EmptyString => true
  | String c s' => negb (Ascii.eqb c "-") && dash_free s'
  end.

(** The decimal digits [ds], most significant first, as a string, and the
    number they denote. *)
Fixpoint digit_string (ds : list Z) : string :=
  match ds with
  | [] => EmptyString
  | d :: ds' => String (ascii_of_nat (Z.to_nat (48 + d))) (digit_string ds')
  end.

Definition decimal_value (ds : list Z) : Z :=
  fold_left (fun acc v => acc * 10 + v) ds 0.

(** [interaction.options.getInteger('max-rank-diff') || 5]. *)
Definition maxRankDiff_of (max_rank_diff : option Z) : Z :=
  let n := default 0 max_rank_diff in if truthy_n n then n else 5.

(** The timezone [handleCreateSession] reads for the caller. *)
Definition timezone_of (d : Database) (userId : string) : string :=
  or_else (match head (List.filter
                         (fun usr => String.eqb (users.discord_id usr) userId)
                         (t_users d)) with
           | Some usr => users.timezone usr
           | None => ""
           end) "America/New_York".

(** The interactions whose handlers only read. *)
Definition read_only (k : InteractionKind) : bool :=
  match k with
  | ChatInputCommand (edit_account _) | ChatInputCommand (join_queue _)
  | ChatInputCommand (manage_session _) | ChatInputCommand view_sessions
  | ChatInputCommand my_profile => true
  | Button (btn_join_queue _) | Button (btn_refresh_session _)
  | Button (btn_manage_session _) | Button (btn_set_rank _ _)
  | Button btn_edit_profile => true
  | StringSelectMenu select_preferred_roles _ => false
  | StringSelectMenu (select_day _ _) _ => false
  | StringSelectMenu _ _ => true
  | _ => false
  end.

Definition is_edit (f : Effect) : bool :=
  match f with MessageEdit _ _ _ => true | _ => false end.

(** The profile rows of one user. *)
Definition profiles_of (d : Database) (userId : string) : list users.row :=
  List.filter (fun usr => String.eqb (users.discord_id usr) userId) (t_users d).

(** Every account id was handed out by the AUTOINCREMENT counter. *)
Definition account_ids_issued (d : Database) : Prop :=
  Forall (fun a => user_accounts.id a <= seq_user_accounts d) (t_user_accounts d).

(** * Properties *)

(** ** Helper lemmas *)

Lemma bot_eta (b : Bot) :
  {| db := db b; tempSessionData := tempSessionData b |} = b.
Proof. destruct b; reflexivity. Qed.

Lemma with_db_same (b : Bot) : with_db (db b) b = b.
Proof. apply bot_eta. Qed.

Lemma with_sessions_same (d : Database) :
  with_sessions (t_sessions d) (seq_sessions d) d = d.
Proof. destruct d; reflexivity. Qed.

Lemma with_session_queue_same (d : Database) :
  with_session_queue (t_session_queue d) (seq_session_queue d) d = d.
Proof. destruct d; reflexivity. Qed.

Lemma map_if_none {A} (f : A -> bool) (g : A -> A) (l : list A) :
  List.filter f l = [] -> map (fun x => if f x then g x else x) l = l.
Proof.
  induction l as [|x l IH]; simpl; [reflexivity|].
  destruct (f x); [discriminate|].
  intros H. rewrite IH; auto.
Qed.

Lemma filter_negb_none {A} (f : A -> bool) (l : list A) :
  List.filter f l = [] -> List.filter (fun x => negb (f x)) l = l.
Proof.
  induction l as [|x l IH]; simpl; [reflexivity|].
  destruct (f x); [discriminate|].
  intros H. simpl. rewrite IH; auto.
Qed.

Lemma head_filter_none {A} (f : A -> bool) (l : list A) :
  head (List.filter f l) = None -> List.filter f l = [].
Proof. destruct (List.filter f l); [reflexivity|discriminate]. Qed.

(** ** Rank values *)

Lemma known_rank_inv (tier : string) (division : Z) :
  known_rank tier division = true ->
  In tier rankOrder /\ 1 <= division <= 5.
Proof.
  unfold known_rank, ranks, get.
  repeat match goal with
  | |- context [String.eqb ?k tier] =>
      destruct (String.eqb_spec k tier) as [<-|_]
  end;
  try discriminate;
  cbn [divisions existsb]; rewrite ?orb_true_iff; intros H;
  (split; [cbn; tauto | ]);
  repeat match goal with
  | H : _ \/ _ |- _ => destruct H as [H|H]
  | H : (_ =? _) = true |- _ => apply Z.eqb_eq in H
  end; try discriminate; lia.
Qed.

Lemma getRankValue_known (tier : string) (division : Z) :
  known_rank tier division = true ->
  getRankValue tier division = tierIndex tier * K + (maxDivision + 1 - division)
  /\ 0 <= tierIndex tier.
Proof.
  intros H. destruct (known_rank_inv _ _ H) as [Hin Hd].
  assert (Hn : truthy_n division = true).
  { unfold truthy_n. destruct (Z.eqb_spec division 0); [lia|reflexivity]. }
  unfold getRankValue, tierIndex, K. rewrite Hn.
  change maxDivision with 5.
  cbn in Hin.
  repeat (destruct Hin as [<-|Hin];
          [set (i := indexOf _ _); vm_compute in i; subst i; cbn; lia|]).
  contradiction.
Qed.

(** C8. For every tier and division of the rank table, [getRankValue] is
    [tierIndex * K + (maxDivision + 1 - division)] with [K = 10] above the
    division range [maxDivision = 5]; the value grows strictly with the
    tier, whatever the divisions, and inside a tier it is strictly greater
    for the lower division number. *)
Theorem getRankValue_scalar (t1 t2 : string) (d1 d2 : Z) :
  known_rank t1 d1 = true ->
  known_rank t2 d2 = true ->
  getRankValue t1 d1 = tierIndex t1 * K + (maxDivision + 1 - d1)
  /\ maxDivision < K
  /\ (tierIndex t1 < tierIndex t2 -> getRankValue t1 d1 < getRankValue t2 d2)
  /\ (t1 = t2 -> d1 < d2 -> getRankValue t2 d2 < getRankValue t1 d1).
Proof.
  intros H1 H2.
  destruct (getRankValue_known _ _ H1) as [E1 P1].
  destruct (getRankValue_known _ _ H2) as [E2 P2].
  destruct (known_rank_inv _ _ H1) as [_ B1].
  destruct (known_rank_inv _ _ H2) as [_ B2].
  rewrite E1, E2. change maxDivision with 5. unfold K.
  repeat split; try lia.
  intros ->. lia.
Qed.

Lemma getRankValue_scalar_witness :
  getRankValue "Gold" 3 = 2 * 10 + (5 + 1 - 3)
  /\ getRankValue "Gold" 3 < getRankValue "Platinum" 5
  /\ getRankValue "Gold" 3 < getRankValue "Gold" 1.
Proof.
  destruct (getRankValue_scalar "Gold" "Platinum" 3 5 eq_refl eq_refl)
    as (E & _ & Ht & _).
  destruct (getRankValue_scalar "Gold" "Gold" 1 3 eq_refl eq_refl)
    as (_ & _ & _ & Hd).
  split; [exact E|]. split; [apply Ht; vm_compute; reflexivity|].
  apply Hd; [reflexivity|lia].
Defined.

(** ** Streaming flag *)

(** C10. A toggle-streaming request whose target user is not the
    requesting user is refused and leaves the whole bot state, hence every
    streaming flag of the queue and of the participants, as it was; this
    holds for the handler and for the button that reaches it. *)
Theorem toggle_stream_other_user_refused (b : Bot) (e : Event) (sessionId : Z)
    (userId : string) :
  userId <> user_id (interaction e) ->
  handleToggleStream b e sessionId userId
    = (b, [Reply (text "You can only toggle your own streaming status!")])
  /\ (kind (interaction e) = Button (btn_toggle_stream sessionId userId) ->
      step b e = (b, [Reply (text "You can only toggle your own streaming status!")])).
Proof.
  intros Hne.
  assert (H : handleToggleStream b e sessionId userId
    = (b, [Reply (text "You can only toggle your own streaming status!")])).
  { unfold handleToggleStream.
    destruct (String.eqb_spec userId (user_id (interaction e))) as [->|_];
      [contradiction|reflexivity]. }
  split; [exact H|].
  intros Hk. unfold step. rewrite Hk. exact H.
Qed.

Lemma toggle_stream_other_user_refused_witness :
  handleToggleStream alice_queued bob_toggles_alice 1 "1001"
    = (alice_queued, [Reply (text "You can only toggle your own streaming status!")])
  /\ step alice_queued bob_toggles_alice
     = (alice_queued, [Reply (text "You can only toggle your own streaming status!")]).
Proof.
  destruct (toggle_stream_other_user_refused alice_queued bob_toggles_alice 1 "1001")
    as [H1 H2].
  - simpl. discriminate.
  - split; [exact H1|apply H2; reflexivity].
Defined.

(** ** Cancelling *)

Lemma get_session_set_status (l : list sessions.row) (sessionId : Z)
    (creator : string) (s : sessions.row) :
  head (List.filter (fun s => sessions.id s =? sessionId) l) = Some s ->
  sessions.creator_id s = creator ->
  head (List.filter (fun s => sessions.id s =? sessionId)
          (map (fun s => if cancel_match sessionId creator s
                         then sessions.set_status "cancelled" s else s) l))
  = Some (sessions.set_status "cancelled" s).
Proof.
  intros Hh Hc. induction l as [|x l IH]; simpl in *; [discriminate|].
  destruct (sessions.id x =? sessionId) eqn:Hid.
  - injection Hh as Hx. subst x.
    assert (Hm : cancel_match sessionId creator s = true).
    { unfold cancel_match. rewrite Hid, Hc, String.eqb_refl. reflexivity. }
    rewrite Hm. simpl. rewrite Hid. reflexivity.
  - assert (Hm : cancel_match sessionId creator x = false).
    { unfold cancel_match. rewrite Hid. reflexivity. }
    rewrite Hm, Hid. auto.
Qed.

Lemma cancel_match_count_pos (l : list sessions.row) (sessionId : Z)
    (creator : string) (s : sessions.row) :
  head (List.filter (fun s => sessions.id s =? sessionId) l) = Some s ->
  sessions.creator_id s = creator ->
  (Z.of_nat (length (List.filter (cancel_match sessionId creator) l)) =? 0) = false.
Proof.
  intros Hh Hc. induction l as [|x l IH]; simpl in *; [discriminate|].
  destruct (sessions.id x =? sessionId) eqn:Hid.
  - injection Hh as Hx. subst x.
    assert (Hm : cancel_match sessionId creator s = true).
    { unfold cancel_match. rewrite Hid, Hc, String.eqb_refl. reflexivity. }
    rewrite Hm. simpl. lia.
  - assert (Hm : cancel_match sessionId creator x = false).
    { unfold cancel_match. rewrite Hid. reflexivity. }
    rewrite Hm. auto.
Qed.

Lemma cancel_twice_same (l : list sessions.row) (sessionId : Z) (creator : string) :
  let cancel := map (fun s => if cancel_match sessionId creator s
                              then sessions.set_status "cancelled" s else s) in
  cancel (cancel l) = cancel l
  /\ List.filter (cancel_match sessionId creator) (cancel l)
     = cancel (List.filter (cancel_match sessionId creator) l).
Proof.
  simpl. induction l as [|x l [IH1 IH2]]; simpl; [split; reflexivity|].
  destruct (cancel_match sessionId creator x) eqn:Hm; simpl.
  - assert (Hm' : cancel_match sessionId creator (sessions.set_status "cancelled" x) = true)
      by exact Hm.
    rewrite Hm'. simpl. rewrite ?Hm', ?Hm. rewrite IH1, IH2. split; reflexivity.
  - rewrite ?Hm. rewrite IH1, IH2. split; reflexivity.
Qed.

(** C6. [cancelSession] by the creator of the session sets its status to
    cancelled and answers with success; by a user who is not the creator
    of that session it answers with the failure text and changes nothing;
    by the creator a second time it answers with success again and is a
    no-op: the state, with the status cancelled, stays as the first call
    left it. *)
Theorem cancel_session_creator_only_idempotent (b : Bot) (creator other : Interaction)
    (sessionId : Z) (s : sessions.row) :
  get_session (db b) sessionId = Some s ->
  sessions.creator_id s = user_id creator ->
  get_session_of_creator (db b) sessionId (user_id other) = None ->
  let success :=
    [Reply (text ("Session #" +:+ pretty sessionId +:+ " has been cancelled."))] in
  let once := handleCancelSession b creator sessionId in
  (get_session (db (fst once)) sessionId = Some (sessions.set_status "cancelled" s)
   /\ sessions.status (sessions.set_status "cancelled" s) = "cancelled"
   /\ snd once = success)
  /\ handleCancelSession b other sessionId
     = (b, [Reply (text "Session not found or you are not the creator!")])
  /\ handleCancelSession (fst once) creator sessionId = (fst once, success).
Proof.
  intros Hs Hc Ho success once.
  assert (Hpos := cancel_match_count_pos _ _ _ _ Hs Hc).
  assert (Hget := get_session_set_status _ _ _ _ Hs Hc).
  assert (Honce : once =
    (with_db (with_sessions
       (map (fun s => if cancel_match sessionId (user_id creator) s
                      then sessions.set_status "cancelled" s else s)
            (t_sessions (db b))) (seq_sessions (db b)) (db b)) b, success)).
  { unfold once, handleCancelSession, update_cancelled. rewrite Hpos. reflexivity. }
  split; [|split].
  - rewrite Honce. simpl. unfold get_session. simpl. rewrite Hget. auto.
  - unfold handleCancelSession, update_cancelled.
    apply head_filter_none in Ho.
    change (List.filter (cancel_match sessionId (user_id other)) (t_sessions (db b)) = [])
      in Ho.
    rewrite Ho, (map_if_none _ _ _ Ho). simpl.
    rewrite with_sessions_same, with_db_same. reflexivity.
  - rewrite Honce. simpl.
    unfold handleCancelSession, update_cancelled. simpl.
    destruct (cancel_twice_same (t_sessions (db b)) sessionId (user_id creator))
      as [E1 E2].
    simpl in E1, E2. rewrite E1, E2, length_map, Hpos. reflexivity.
Qed.

Lemma cancel_session_creator_only_idempotent_witness :
  let b := run new_bot session_created in
  let cancel := ChatInputCommand (cancel_session 1) in
  get_session (db (fst (handleCancelSession b (carol cancel) 1))) 1
    = Some (sessions.set_status "cancelled" session_1)
  /\ handleCancelSession b (alice cancel) 1
     = (b, [Reply (text "Session not found or you are not the creator!")])
  /\ handleCancelSession (fst (handleCancelSession b (carol cancel) 1)) (carol cancel) 1
     = (fst (handleCancelSession b (carol cancel) 1),
        [Reply (text "Session #1 has been cancelled.")]).
Proof.
  intros b cancel.
  pose proof (cancel_session_creator_only_idempotent b (carol cancel) (alice cancel)
                1 session_1 eq_refl eq_refl eq_refl) as H.
  cbv zeta in H. destruct H as ((H1 & _ & _) & H2 & H3).
  split; [exact H1|]. split; [exact H2|exact H3].
Defined.

(** ** Leaving the queue *)

Lemma delete_queue_entry_absent (d : Database) (sessionId : Z) (userId : string) :
  get_queue_entry d sessionId userId = None ->
  delete_queue_entry d sessionId userId = (d, 0).
Proof.
  intros H. apply head_filter_none in H.
  unfold delete_queue_entry. rewrite H, (filter_negb_none _ _ H). simpl.
  rewrite with_session_queue_same. reflexivity.
Qed.

(** The command answers that the user was not queued and changes nothing. *)
Lemma handleLeaveQueue_absent (b : Bot) (e : Event) (sessionId : Z) :
  get_queue_entry (db b) sessionId (user_id (interaction e)) = None ->
  handleLeaveQueue b e sessionId
  = (b, [Reply (text "You were not in the queue for this session!")]).
Proof.
  intros H. unfold handleLeaveQueue.
  rewrite (delete_queue_entry_absent _ _ _ H). simpl.
  rewrite with_db_same. reflexivity.
Qed.

(** The button changes nothing either, but resyncs and answers that the
    user left the queue. *)
Lemma handleLeaveQueueButton_absent (b : Bot) (e : Event) (sessionId : Z) :
  get_queue_entry (db b) sessionId (user_id (interaction e)) = None ->
  handleLeaveQueueButton b e sessionId
  = (b, Reply (text (":white_check_mark: Left the queue for session #"
                     +:+ pretty sessionId +:+ "!"))
        :: updateSessionMessage (db b) (discord e) sessionId).
Proof.
  intros H. unfold handleLeaveQueueButton.
  rewrite (delete_queue_entry_absent _ _ _ H).
  rewrite with_db_same. reflexivity.
Qed.

(** C5, at the input where the code departs from it.  Alice has no queue
    entry for session #1.  The [/leave-queue] command answers that she was
    not in the queue and leaves the state as it was; the Leave Queue
    button leaves the state as it was too, but answers that she left the
    queue. *)
Theorem leave_queue_button_answers_success :
  let b := run new_bot session_created in
  let command := at_time 5000 (alice (ChatInputCommand (leave_queue 1))) in
  let press := at_time 5000 (alice (Button (btn_leave_queue 1))) in
  get_queue_entry (db b) 1 "1001" = None
  /\ step b command = (b, [Reply (text "You were not in the queue for this session!")])
  /\ step b press
     = (b, [Reply (text ":white_check_mark: Left the queue for session #1!")]).
Proof.
  intros b command press.
  split; [reflexivity|]. split.
  - apply (handleLeaveQueue_absent b command 1). reflexivity.
  - change (step b press) with (handleLeaveQueueButton b press 1).
    rewrite (handleLeaveQueueButton_absent b press 1) by reflexivity.
    reflexivity.
Qed.

(** ** Joining the queue *)

Lemma replies_updateSessionMessage (d : Database) (w : Discord) (sessionId : Z) :
  replies (updateSessionMessage d w sessionId) = [].
Proof.
  unfold updateSessionMessage.
  destruct (get_session d sessionId) as [s|]; [|reflexivity].
  destruct (negb (truthy_s (sessions.message_id s))); [reflexivity|].
  unfold mbind, Completion_bind, mret, Completion_ret, try_catch.
  destruct (await_settled (channels_fetch w _)); try reflexivity.
  destruct (await_settled (messages_fetch w _ _)); try reflexivity.
  destruct (await (createSessionEmbed d sessionId)); try reflexivity.
  destruct (await (createSessionButtons d sessionId)); try reflexivity.
  destruct (await_settled (message_edit w _ _)); reflexivity.
Qed.

Lemma resync_no_reply (d : Database) (w : Discord) (sessionId : Z) :
  List.filter is_reply (updateSessionMessage d w sessionId) = [].
Proof. exact (replies_updateSessionMessage d w sessionId). Qed.

Lemma replies_cons (m : Message) (effects : list Effect) :
  replies (Reply m :: effects) = Reply m :: replies effects.
Proof. reflexivity. Qed.

Lemma replies_app (l1 l2 : list Effect) :
  replies (l1 ++ l2) = replies l1 ++ replies l2.
Proof. apply List.filter_app. Qed.

(** The Join Queue command and button never write. *)
Lemma joinQueue_readonly (b : Bot) (i : Interaction) (sessionId : Z) :
  fst (joinQueue b i sessionId) = b.
Proof.
  unfold joinQueue.
  destruct (get_queue_entry _ _ _); [reflexivity|].
  destruct (accounts_of _ _) as [|a [|a' l]]; reflexivity.
Qed.

Lemma joinWithAccount_fresh (b : Bot) (e : Event) (sessionId accountId : Z)
    (roles : list string) :
  get_queue_entry (db b) sessionId (user_id (interaction e)) = None ->
  let d' := with_session_queue
              (t_session_queue (db b) ++ [fresh_entry b e sessionId accountId roles])
              (seq_session_queue (db b) + 1) (db b) in
  joinWithAccount b e sessionId accountId roles
  = (with_db d' b,
     Reply (text (":white_check_mark: Successfully joined queue for: **"
                  +:+ join ", " roles +:+ "**"))
     :: updateSessionMessage d' (discord e) sessionId).
Proof.
  intros H. unfold joinWithAccount, joinWithAccount_write. rewrite H. reflexivity.
Qed.

Lemma eligibleAccounts_nil (role : string) : eligibleAccounts [] role = [].
Proof. unfold eligibleAccounts. destruct (negb _); reflexivity. Qed.

Lemma handleQuickJoin_single (b : Bot) (e : Event) (sessionId : Z) (role : string)
    (account : user_accounts.row) :
  eligibleAccounts (accounts_of (db b) (user_id (interaction e))) role = [account] ->
  handleQuickJoin b e sessionId role
  = joinWithAccount b e sessionId (user_accounts.id account) [role].
Proof.
  intros H. unfold handleQuickJoin.
  destruct (accounts_of (db b) (user_id (interaction e))) as [|a l] eqn:Ha.
  - rewrite eligibleAccounts_nil in H. discriminate.
  - cbv zeta. rewrite H. reflexivity.
Qed.

Lemma joinWithAccount_queue_ignores_sessions (b : Bot) (e : Event)
    (sessionId accountId : Z) (roles : list string)
    (table : list sessions.row) (n : Z) :
  t_session_queue (db (fst (joinWithAccount
      (with_db (with_sessions table n (db b)) b) e sessionId accountId roles)))
  = t_session_queue (db (fst (joinWithAccount b e sessionId accountId roles))).
Proof.
  unfold joinWithAccount, joinWithAccount_write, get_queue_entry. simpl.
  destruct (head _); reflexivity.
Qed.

(** C2 at a cancelled session.  Carol has cancelled session #1 and Alice,
    who is not queued, presses its quick-join button: her entry is
    inserted and she is told that she joined. *)
Lemma quick_join_after_cancel_accepted :
  let b := run new_bot session_cancelled in
  get_session (db b) 1 = Some (sessions.set_status "cancelled" session_1)
  /\ entries_of (db b) 1 "1001" = []
  /\ entries_of (db (fst (step b quick_join_any))) 1 "1001"
     = [fresh_entry b quick_join_any 1 1 ["Any"]]
  /\ snd (step b quick_join_any)
     = [Reply (text ":white_check_mark: Successfully joined queue for: **Any**")].
Proof. vm_compute. repeat split; reflexivity. Qed.

(** C2 as the code has it.  Joining does not read the session: a quick
    join by a user who is not queued yet and has exactly one account
    eligible for the role appends the user's entry, leaves the sessions
    table as it is and answers with success, whatever the status of the
    session; the queue that results is the same for every content of the
    sessions table.  The Join Queue command and button write nothing. *)
Theorem quick_join_ignores_session_status (b : Bot) (e : Event) (sessionId : Z)
    (role : string) (account : user_accounts.row) :
  eligibleAccounts (accounts_of (db b) (user_id (interaction e))) role = [account] ->
  get_queue_entry (db b) sessionId (user_id (interaction e)) = None ->
  let r := handleQuickJoin b e sessionId role in
  t_session_queue (db (fst r))
    = t_session_queue (db b)
      ++ [fresh_entry b e sessionId (user_accounts.id account) [role]]
  /\ t_sessions (db (fst r)) = t_sessions (db b)
  /\ replies (snd r)
     = [Reply (text (":white_check_mark: Successfully joined queue for: **"
                     +:+ role +:+ "**"))]
  /\ (forall table n,
        t_session_queue (db (fst (handleQuickJoin
            (with_db (with_sessions table n (db b)) b) e sessionId role)))
        = t_session_queue (db (fst r)))
  /\ (forall i sid, fst (joinQueue b i sid) = b).
Proof.
  intros Hacc Hq r. subst r.
  rewrite (handleQuickJoin_single _ _ _ _ _ Hacc).
  rewrite (joinWithAccount_fresh _ _ _ _ _ Hq). simpl.
  split; [reflexivity|]. split; [reflexivity|]. split.
  { unfold replies. simpl. rewrite resync_no_reply. reflexivity. }
  split.
  - intros table n.
    rewrite (handleQuickJoin_single _ _ _ _ account) by exact Hacc.
    rewrite joinWithAccount_queue_ignores_sessions.
    rewrite (joinWithAccount_fresh _ _ _ _ _ Hq). reflexivity.
  - intros i sid. apply joinQueue_readonly.
Qed.

Lemma quick_join_ignores_session_status_witness :
  let b := run new_bot session_cancelled in
  t_session_queue (db (fst (handleQuickJoin b quick_join_any 1 "Any")))
    = [fresh_entry b quick_join_any 1 1 ["Any"]]
  /\ t_sessions (db (fst (handleQuickJoin b quick_join_any 1 "Any")))
     = [sessions.set_status "cancelled" session_1].
Proof.
  intros b.
  pose proof (quick_join_ignores_session_status b quick_join_any 1 "Any"
    {| user_accounts.id := 1; user_accounts.discord_id := "1001";
       user_accounts.account_name := "Main";
       user_accounts.tank_rank := ""; user_accounts.tank_division := 0;
       user_accounts.dps_rank := ""; user_accounts.dps_division := 0;
       user_accounts.support_rank := ""; user_accounts.support_division := 0;
       user_accounts.is_primary := false |} eq_refl eq_refl) as H.
  cbv zeta in H. destruct H as (H1 & H2 & _).
  split; [exact H1|exact H2].
Defined.

Lemma queue_match_fresh (b : Bot) (e : Event) (sessionId accountId : Z)
    (roles : list string) :
  queue_match sessionId (user_id (interaction e))
    (fresh_entry b e sessionId accountId roles) = true.
Proof.
  unfold queue_match, fresh_entry. simpl.
  rewrite Z.eqb_refl, String.eqb_refl. reflexivity.
Qed.

Lemma array_from_set_pair (A B : string) (r : string) :
  In r (array_from_set [A; B]) <-> r = A \/ r = B.
Proof.
  unfold array_from_set, uniq_from, includes. simpl.
  destruct (String.eqb_spec B A) as [->|Hne]; simpl; intuition congruence.
Qed.

(** C4. A user without an entry who joins with role A and then joins again
    with role B has exactly one queue row for the session afterwards: the
    row created by the first join, with its timestamp, carrying the second
    account and the roles of [new Set] of A and B, whose members are A and
    B.  The second join adds no row to the table, and the Join Queue
    command or button adds none either. *)
Theorem join_twice_merges_roles (b : Bot) (e1 e2 : Event) (sessionId a1 a2 : Z)
    (A B : string) :
  user_id (interaction e2) = user_id (interaction e1) ->
  get_queue_entry (db b) sessionId (user_id (interaction e1)) = None ->
  let b1 := fst (joinWithAccount b e1 sessionId a1 [A]) in
  let b2 := fst (joinWithAccount b1 e2 sessionId a2 [B]) in
  entries_of (db b1) sessionId (user_id (interaction e1))
    = [fresh_entry b e1 sessionId a1 [A]]
  /\ entries_of (db b2) sessionId (user_id (interaction e1))
     = [session_queue.set_roles_account (array_from_set [A; B]) a2
          (fresh_entry b e1 sessionId a1 [A])]
  /\ (forall r, In r (array_from_set [A; B]) <-> r = A \/ r = B)
  /\ length (t_session_queue (db b2)) = length (t_session_queue (db b1))
  /\ fst (joinQueue b1 (interaction e2) sessionId) = b1.
Proof.
  intros Hu Hq b1 b2.
  assert (Hnone := head_filter_none _ _ Hq).
  assert (Hm := queue_match_fresh b e1 sessionId a1 [A]).
  set (f := fresh_entry b e1 sessionId a1 [A]) in *.
  assert (Hb1 : t_session_queue (db b1) = t_session_queue (db b) ++ [f]).
  { unfold b1. rewrite (joinWithAccount_fresh _ _ _ _ _ Hq). reflexivity. }
  assert (He1 : entries_of (db b1) sessionId (user_id (interaction e1)) = [f]).
  { unfold entries_of. rewrite Hb1, List.filter_app, Hnone. simpl.
    rewrite Hm. reflexivity. }
  assert (Hget : get_queue_entry (db b1) sessionId (user_id (interaction e2)) = Some f).
  { unfold get_queue_entry. rewrite Hu.
    change (head (entries_of (db b1) sessionId (user_id (interaction e1))) = Some f).
    rewrite He1. reflexivity. }
  assert (Hb2 : t_session_queue (db b2)
    = t_session_queue (db b)
      ++ [session_queue.set_roles_account (array_from_set [A; B]) a2 f]).
  { unfold b2, joinWithAccount, joinWithAccount_write. rewrite Hget. simpl.
    rewrite Hb1, map_app, Hu. simpl. rewrite Hm.
    rewrite (map_if_none _ _ _ Hnone). reflexivity. }
  split; [exact He1|]. split.
  { unfold entries_of. rewrite Hb2, List.filter_app, Hnone. simpl.
    change (queue_match sessionId (user_id (interaction e1))
              (session_queue.set_roles_account (array_from_set [A; B]) a2 f))
      with (queue_match sessionId (user_id (interaction e1)) f).
    rewrite Hm. reflexivity. }
  split; [apply array_from_set_pair|]. split.
  { rewrite Hb1, Hb2, !length_app. reflexivity. }
  apply joinQueue_readonly.
Qed.

Lemma join_twice_merges_roles_witness :
  let e1 := at_time 5000 (alice (Button (btn_quick_join 7 "Tank"))) in
  let e2 := at_time 6000 (alice (Button (btn_quick_join 7 "DPS"))) in
  let b2 := fst (joinWithAccount (fst (joinWithAccount new_bot e1 7 1 ["Tank"]))
                                 e2 7 1 ["DPS"]) in
  map session_queue.preferred_roles (entries_of (db b2) 7 "1001") = [["Tank"; "DPS"]]
  /\ map session_queue.joined_at (entries_of (db b2) 7 "1001") = [5000].
Proof.
  intros e1 e2 b2.
  pose proof (join_twice_merges_roles new_bot e1 e2 7 1 1 "Tank" "DPS"
                eq_refl eq_refl) as H.
  cbv zeta in H. destruct H as (_ & H & _).
  change (user_id (interaction e1)) with "1001" in H.
  unfold b2. rewrite H. split; reflexivity.
Defined.

(** ** Resync of the session message *)

Lemma replies_post_session (d : Database) (w : Discord) (sessionId : Z)
    (channelId : string) :
  replies (post_session d w sessionId channelId) = [].
Proof.
  unfold post_session, mbind, Completion_bind.
  destruct (await (createSessionEmbed d sessionId)); try reflexivity.
  destruct (await (createSessionButtons d sessionId)); try reflexivity.
  destruct (await_settled (channels_fetch w channelId)); reflexivity.
Qed.

Ltac resync_free :=
  simpl;
  rewrite ?replies_cons, ?replies_app, ?replies_updateSessionMessage,
    ?resync_no_reply, ?replies_post_session;
  try reflexivity.

Lemma joinWithAccount_discord (b : Bot) (e : Event) (w : Discord)
    (sessionId accountId : Z) (roles : list string) :
  fst (joinWithAccount b (with_discord w e) sessionId accountId roles)
  = fst (joinWithAccount b e sessionId accountId roles)
  /\ replies (snd (joinWithAccount b (with_discord w e) sessionId accountId roles))
     = replies (snd (joinWithAccount b e sessionId accountId roles)).
Proof.
  unfold joinWithAccount, joinWithAccount_write. cbn [with_discord interaction discord now].
  destruct (get_queue_entry _ _ _); split; resync_free.
Qed.

(** The state an interaction leaves and the answers it gives do not depend
    on what the Discord side does to the resync. *)
Lemma step_discord_independent (b : Bot) (e : Event) (w : Discord) :
  fst (step b (with_discord w e)) = fst (step b e)
  /\ replies (snd (step b (with_discord w e))) = replies (snd (step b e)).
Proof.
  unfold step. cbn [with_discord interaction].
  destruct (kind (interaction e)) as [c|customId|customId values].
  - destruct c; try (split; reflexivity).
    unfold handleCommand, handleLeaveQueue. cbn [with_discord interaction discord].
    destruct (delete_queue_entry _ _ _) as [d' changes].
    destruct (changes =? 0); split; resync_free.
  - destruct customId; try (split; reflexivity); unfold handleButton.
    + unfold handleLeaveQueueButton. cbn [with_discord interaction discord].
      destruct (delete_queue_entry _ _ _) as [d' changes]. split; resync_free.
    + unfold handleQuickJoin. cbn [with_discord interaction discord].
      destruct (accounts_of _ _) as [|a l]; [split; reflexivity|].
      destruct (eligibleAccounts _ _) as [|a1 [|a2 l2]]; try (split; reflexivity).
      apply joinWithAccount_discord.
    + unfold handleToggleStream. cbn [with_discord interaction discord].
      destruct (negb _); [split; reflexivity|].
      destruct (get_queue_entry _ _ _); [split; resync_free|].
      destruct (get_participant _ _ _); split; resync_free.
  - destruct customId; try (split; reflexivity).
    unfold handleSelectMenu. cbn [with_discord interaction discord now].
    destruct (tempSessionData b) as [drafts|]; [|split; reflexivity].
    destruct (drafts !! _); split; resync_free.
Qed.

Lemma createSessionEmbed_known (d : Database) (sessionId : Z) (s : sessions.row) :
  get_session d sessionId = Some s ->
  is_Some (get gameModes (sessions.game_mode s)) ->
  exists embed, createSessionEmbed d sessionId = Resolve embed.
Proof.
  intros Hs [mode Hm]. unfold createSessionEmbed. rewrite Hs, Hm.
  eexists. reflexivity.
Qed.

Lemma createSessionButtons_known (d : Database) (sessionId : Z) (s : sessions.row) :
  get_session d sessionId = Some s ->
  is_Some (get gameModes (sessions.game_mode s)) ->
  exists rows, createSessionButtons d sessionId = Resolve rows.
Proof.
  intros Hs [mode Hm]. unfold createSessionButtons. rewrite Hs, Hm.
  eexists. reflexivity.
Qed.

(** A rejected call of the resync ends in the [catch] of
    [updateSessionMessage]: the only effect is the logged error. *)
Lemma updateSessionMessage_rejected (d : Database) (w : Discord) (sessionId : Z)
    (s : sessions.row) :
  get_session d sessionId = Some s ->
  sessions.message_id s <> "" ->
  is_Some (get gameModes (sessions.game_mode s)) ->
  resync_rejected w s ->
  exists r, updateSessionMessage d w sessionId
            = [ConsoleError "Failed to update session message:" r].
Proof.
  intros Hs Hbound Hmode Hrej.
  destruct (createSessionEmbed_known _ _ _ Hs Hmode) as [embed He].
  destruct (createSessionButtons_known _ _ _ Hs Hmode) as [rows Hb].
  unfold updateSessionMessage. rewrite Hs.
  assert (Ht : truthy_s (sessions.message_id s) = true).
  { unfold truthy_s. destruct (String.eqb_spec (sessions.message_id s) "");
      [contradiction|reflexivity]. }
  rewrite Ht, He, Hb. simpl.
  unfold mbind, Completion_bind, mret, Completion_ret, try_catch, await_settled.
  destruct (channels_fetch w _) as [|r1] eqn:E1; [|eexists; reflexivity].
  destruct (messages_fetch w _ _) as [|r2] eqn:E2; [|eexists; reflexivity].
  destruct (message_edit w _ _) as [|r3] eqn:E3; [|eexists; reflexivity].
  destruct Hrej as [[r H]|[[r H]|[r H]]]; congruence.
Qed.

(** C9. Let an interaction be handled while the Discord side rejects a call
    of the resync of a session that is bound to a message.  The resync of
    the database the interaction leaves ends in its own [catch]: its only
    effect is the logged error.  The state left is the one the same
    interaction leaves when Discord works, so the mutation stays, and the
    answers given to the user are the same. *)
Theorem resync_failure_contained (b : Bot) (e : Event) (w : Discord)
    (sessionId : Z) (s : sessions.row) :
  let after := fst (step b (with_discord w e)) in
  get_session (db after) sessionId = Some s ->
  sessions.message_id s <> "" ->
  is_Some (get gameModes (sessions.game_mode s)) ->
  resync_rejected w s ->
  (exists r, updateSessionMessage (db after) w sessionId
             = [ConsoleError "Failed to update session message:" r])
  /\ after = fst (step b (with_discord discord_ok e))
  /\ replies (snd (step b (with_discord w e)))
     = replies (snd (step b (with_discord discord_ok e))).
Proof.
  intros after Hs Hbound Hmode Hrej.
  split; [exact (updateSessionMessage_rejected _ _ _ _ Hs Hbound Hmode Hrej)|].
  destruct (step_discord_independent b e w) as [F1 R1].
  destruct (step_discord_independent b e discord_ok) as [F2 R2].
  unfold after. rewrite F1, F2, R1, R2. split; reflexivity.
Qed.

Lemma resync_failure_contained_witness :
  let e := with_discord discord_message_gone quick_join_any in
  updateSessionMessage (db (fst (step bound_bot e))) discord_message_gone 1
    = [ConsoleError "Failed to update session message:"
                    "DiscordAPIError: Unknown Message"]
  /\ entries_of (db (fst (step bound_bot e))) 1 "1001"
     = [fresh_entry bound_bot quick_join_any 1 1 ["Any"]]
  /\ replies (snd (step bound_bot e))
     = [Reply (text ":white_check_mark: Successfully joined queue for: **Any**")].
Proof.
  intros e.
  pose proof (resync_failure_contained bound_bot quick_join_any discord_message_gone 1
    {| sessions.id := 1; sessions.creator_id := "1003";
       sessions.guild_id := "guild-1"; sessions.channel_id := "channel-1";
       sessions.game_mode := "6v6"; sessions.scheduled_time := 72000000;
       sessions.timezone := "America/New_York"; sessions.description := "";
       sessions.max_rank_diff := Some 5; sessions.status := "open";
       sessions.message_id := "message-1" |}) as H.
  cbv zeta in H.
  destruct H as ([r Hr] & Hstate & Hreplies).
  - reflexivity.
  - discriminate.
  - eexists. reflexivity.
  - right. left. eexists. reflexivity.
  - fold e in Hr, Hstate, Hreplies.
    split; [|split].
    + rewrite Hr. f_equal. vm_compute in Hr. congruence.
    + rewrite Hstate. reflexivity.
    + rewrite Hreplies. reflexivity.
Defined.

(** ** Participants and capacity *)

Ltac unfold_handlers :=
  unfold step, handleCommand, handleButton, handleSelectMenu,
    handleSetupProfile, handleAddAccount, handleEditAccount,
    handleCreateSession, joinQueue, manageSession, handleViewSessions,
    handleMyProfile, handleCancelSession, handleLeaveQueue,
    handleLeaveQueueButton, handleQuickJoin, joinWithAccount,
    joinWithAccount_write,
    handleToggleStream, handleRefreshSession, showRankSelection,
    handleEditProfile, handleDeleteAccount, update_cancelled,
    delete_queue_entry.

Ltac head_cases :=
  repeat (cbn [fst snd];
          match goal with
          | |- context [fst (match ?x with _ => _ end)] => destruct x eqn:?
          end);
  cbn [fst snd].

(** No handler inserts into or deletes from [session_participants]; the
    only write is the streaming flag. *)
Lemma step_participants (b : Bot) (e : Event) :
  exists f,
    (forall p, session_participants.session_id (f p) = session_participants.session_id p
               /\ session_participants.role (f p) = session_participants.role p)
    /\ t_session_participants (db (fst (step b e)))
       = map f (t_session_participants (db b)).
Proof.
  assert (Hid : exists f,
    (forall p, session_participants.session_id (f p) = session_participants.session_id p
               /\ session_participants.role (f p) = session_participants.role p)
    /\ t_session_participants (db b) = map f (t_session_participants (db b))).
  { exists (fun p => p). split; [auto|]. symmetry. apply List.map_id. }
  unfold_handlers. head_cases; try exact Hid.
  eexists. split; [|reflexivity].
  intros p. cbv beta. destruct (participant_match _ _ p); auto.
Qed.

Lemma filter_map_length {A} (g : A -> bool) (f : A -> A) (l : list A) :
  (forall x, g (f x) = g x) ->
  length (List.filter g (map f l)) = length (List.filter g l).
Proof.
  intros H. induction l as [|x l IH]; simpl; [reflexivity|].
  rewrite H. destruct (g x); simpl; auto.
Qed.

Lemma step_participant_count (b : Bot) (e : Event) (sessionId : Z) (role : string) :
  participant_count (db (fst (step b e))) sessionId role
  = participant_count (db b) sessionId role.
Proof.
  destruct (step_participants b e) as (f & Hf & E).
  unfold participant_count. rewrite E. f_equal. apply filter_map_length.
  intros p. destruct (Hf p) as [-> ->]. reflexivity.
Qed.

Lemma run_cons (b : Bot) (e : Event) (events : list Event) :
  run b (e :: events) = run (fst (step b e)) events.
Proof. reflexivity. Qed.

(** A property of the database that holds of the empty one and that every
    step keeps holds in every state the bot reaches. *)
Lemma lifetime_invariant (P : Database -> Prop) :
  P empty_db ->
  (forall b e, P (db b) -> P (db (fst (step b e)))) ->
  forall runs, P (db (lifetime runs)).
Proof.
  intros H0 Hstep runs. unfold lifetime.
  assert (H : P (db new_bot)) by exact H0.
  revert H. generalize new_bot.
  induction runs as [|events runs IH]; intros b H; [exact H|].
  simpl. apply IH.
  assert (Hr : P (db (restart b))) by exact H.
  revert Hr. generalize (restart b). clear H b.
  induction events as [|e events IHe]; intros b H; [exact H|].
  rewrite run_cons. apply IHe. apply Hstep. exact H.
Qed.

Lemma run_participants_empty (events : list Event) (b : Bot) :
  t_session_participants (db b) = [] ->
  t_session_participants (db (run b events)) = [].
Proof.
  revert b. induction events as [|e events IH]; intros b H; [exact H|].
  rewrite run_cons. apply IH.
  destruct (step_participants b e) as (f & _ & ->). rewrite H. reflexivity.
Qed.

Lemma participant_count_empty (d : Database) (sessionId : Z) (role : string) :
  t_session_participants d = [] -> participant_count d sessionId role = 0.
Proof. intros H. unfold participant_count. rewrite H. reflexivity. Qed.

Lemma capacities_positive (name : string) (mode : GameMode) :
  get gameModes name = Some mode ->
  roles mode <> [] /\ Forall (fun '(_, count) => 0 < count) (roles mode).
Proof.
  unfold gameModes, get.
  repeat (destruct (String.eqb _ name);
          [intros [= <-]; split; [discriminate|repeat constructor]|]).
  discriminate.
Qed.

Lemma lifetime_participants_empty (runs : list (list Event)) :
  t_session_participants (db (lifetime runs)) = [].
Proof.
  unfold lifetime.
  assert (H : t_session_participants (db new_bot) = []) by reflexivity.
  revert H. generalize new_bot.
  induction runs as [|events runs IH]; intros b H; [exact H|].
  simpl. apply IH. apply run_participants_empty. exact H.
Qed.

(** C1. In every state the bot reaches from the empty database, no role of
    a session holds more participants than the game mode has slots for it.
    Every operation keeps the number of participants of every session and
    role as it was, from any state; the per-role selection menu of the
    accept flow is answered with 'Feature coming soon!' and writes
    nothing. *)
Theorem participants_within_capacity (runs : list (list Event)) (b : Bot) (e : Event)
    (sessionId : Z) (role : string) (values : list string) :
  within_capacity (db (lifetime runs))
  /\ participant_count (db (fst (step b e))) sessionId role
     = participant_count (db b) sessionId role
  /\ step b (with_kind (StringSelectMenu (select_player sessionId role) values) e)
     = (b, [Reply (text "Feature coming soon!")]).
Proof.
  split; [|split; [apply step_participant_count|reflexivity]].
  unfold within_capacity. apply List.Forall_forall. intros s _ mode Hmode.
  destruct (capacities_positive _ _ Hmode) as [_ Hpos].
  eapply List.Forall_impl; [|exact Hpos].
  intros [r count] Hc.
  rewrite participant_count_empty; [lia|].
  apply lifetime_participants_empty.
Qed.

(** ** Session status *)

(** What a step does to the sessions table: rows keep their id, game mode
    and message id and keep their status or become cancelled; a created
    session is appended as open and not bound to a message. *)
Lemma step_sessions (b : Bot) (e : Event) :
  exists g extra,
    t_sessions (db (fst (step b e))) = map g (t_sessions (db b)) ++ extra
    /\ (forall s, sessions.id (g s) = sessions.id s
                  /\ sessions.game_mode (g s) = sessions.game_mode s
                  /\ sessions.message_id (g s) = sessions.message_id s
                  /\ (sessions.status (g s) = sessions.status s
                      \/ sessions.status (g s) = "cancelled"))
    /\ (forall x, In x extra ->
          sessions.status x = "open" /\ sessions.message_id x = "").
Proof.
  assert (Hid : exists g extra,
    t_sessions (db b) = map g (t_sessions (db b)) ++ extra
    /\ (forall s, sessions.id (g s) = sessions.id s
                  /\ sessions.game_mode (g s) = sessions.game_mode s
                  /\ sessions.message_id (g s) = sessions.message_id s
                  /\ (sessions.status (g s) = sessions.status s
                      \/ sessions.status (g s) = "cancelled"))
    /\ (forall x, In x extra ->
          sessions.status x = "open" /\ sessions.message_id x = "")).
  { exists (fun s => s), []. rewrite List.map_id, app_nil_r.
    split; [reflexivity|]. split; [auto|]. intros x []. }
  unfold_handlers. head_cases; try exact Hid.
  - (* cancel-session, no row selected *)
    eexists _, []. rewrite app_nil_r. split; [reflexivity|]. split; [|intros x []].
    intros s. cbv beta. destruct (cancel_match _ _ s); simpl; auto.
  - (* cancel-session *)
    eexists _, []. rewrite app_nil_r. split; [reflexivity|]. split; [|intros x []].
    intros s. cbv beta. destruct (cancel_match _ _ s); simpl; auto.
  - (* day menu *)
    exists (fun s => s). eexists. rewrite List.map_id.
    split; [reflexivity|]. split; [auto|].
    intros x [<-|[]]. simpl. auto.
Qed.

Lemma step_open_or_cancelled (b : Bot) (e : Event) :
  Forall open_or_cancelled (t_sessions (db b)) ->
  Forall open_or_cancelled (t_sessions (db (fst (step b e)))).
Proof.
  intros Hok.
  destruct (step_sessions b e) as (g & extra & -> & Hg & Hextra).
  apply List.Forall_app. split.
  - apply List.Forall_forall. intros x Hx.
    apply List.in_map_iff in Hx as (s & <- & Hs).
    rewrite List.Forall_forall in Hok. specialize (Hok s Hs).
    unfold open_or_cancelled in *. destruct (Hg s) as (_ & _ & _ & Hgs).
    destruct Hgs as [-> | ->]; auto.
  - apply List.Forall_forall. intros x Hx.
    left. apply (Hextra x Hx).
Qed.

Lemma get_session_In (d : Database) (sessionId : Z) (s : sessions.row) :
  get_session d sessionId = Some s ->
  In s (t_sessions d) /\ sessions.id s = sessionId.
Proof.
  unfold get_session. intros H.
  destruct (List.filter _ _) as [|y l] eqn:Hf; [discriminate|].
  injection H as ->.
  assert (Hin : In s (s :: l)) by (left; reflexivity).
  rewrite <- Hf in Hin. apply List.filter_In in Hin as [Hin Hid].
  apply Z.eqb_eq in Hid. auto.
Qed.

Lemma get_session_app (l extra : list sessions.row) (sessionId : Z)
    (s : sessions.row) :
  head (List.filter (fun s => sessions.id s =? sessionId) l) = Some s ->
  head (List.filter (fun s => sessions.id s =? sessionId) (l ++ extra)) = Some s.
Proof.
  rewrite List.filter_app.
  destruct (List.filter _ l); [discriminate|]. intros H. exact H.
Qed.

Lemma get_session_cancel (l : list sessions.row) (sessionId target : Z)
    (creator : string) (s : sessions.row) :
  head (List.filter (fun s => sessions.id s =? sessionId) l) = Some s ->
  head (List.filter (fun s => sessions.id s =? sessionId)
          (map (fun s => if cancel_match target creator s
                         then sessions.set_status "cancelled" s else s) l))
  = Some (if cancel_match target creator s
          then sessions.set_status "cancelled" s else s).
Proof.
  intros Hh. induction l as [|x l IH]; simpl in *; [discriminate|].
  assert (Hid : sessions.id (if cancel_match target creator x
                             then sessions.set_status "cancelled" x else x)
                = sessions.id x)
    by (destruct (cancel_match _ _ x); reflexivity).
  rewrite Hid. destruct (sessions.id x =? sessionId); simpl.
  - injection Hh as ->. reflexivity.
  - auto.
Qed.

(** The stored status of a session changes in one way only: the cancel
    command of its creator sets it to cancelled. *)
Lemma step_status (b : Bot) (e : Event) (sessionId : Z) (s : sessions.row) :
  get_session (db b) sessionId = Some s ->
  exists s', get_session (db (fst (step b e))) sessionId = Some s'
             /\ (s' = s
                 \/ (s' = sessions.set_status "cancelled" s
                     /\ kind (interaction e)
                        = ChatInputCommand (cancel_session sessionId)
                     /\ user_id (interaction e) = sessions.creator_id s)).
Proof.
  intros Hs.
  assert (Hsame : exists s', get_session (db b) sessionId = Some s'
             /\ (s' = s
                 \/ (s' = sessions.set_status "cancelled" s
                     /\ kind (interaction e)
                        = ChatInputCommand (cancel_session sessionId)
                     /\ user_id (interaction e) = sessions.creator_id s)))
    by (exists s; auto).
  assert (Hcancel : forall target,
    kind (interaction e) = ChatInputCommand (cancel_session target) ->
    exists s',
      head (List.filter (fun s => sessions.id s =? sessionId)
             (map (fun s => if cancel_match target (user_id (interaction e)) s
                            then sessions.set_status "cancelled" s else s)
                  (t_sessions (db b)))) = Some s'
      /\ (s' = s
          \/ (s' = sessions.set_status "cancelled" s
              /\ kind (interaction e) = ChatInputCommand (cancel_session sessionId)
              /\ user_id (interaction e) = sessions.creator_id s))).
  { intros target K. eexists. split; [apply get_session_cancel; exact Hs|].
    destruct (cancel_match target (user_id (interaction e)) s) eqn:Hm; [|auto].
    right. unfold cancel_match in Hm. apply andb_true_iff in Hm as [H1 H2].
    apply Z.eqb_eq in H1. apply String.eqb_eq in H2.
    destruct (get_session_In _ _ _ Hs) as [_ Hid].
    split; [reflexivity|]. split; [|auto]. rewrite K. congruence. }
  unfold get_session in *.
  unfold_handlers. head_cases; try exact Hsame.
  - (* cancel-session, no row selected *)
    cbn [db with_db t_sessions with_sessions]. apply Hcancel. reflexivity.
  - (* cancel-session *)
    cbn [db with_db t_sessions with_sessions]. apply Hcancel. reflexivity.
  - (* day menu *)
    exists s. split; [|auto].
    cbn [db t_sessions with_sessions]. apply get_session_app. exact Hs.
Qed.

Lemma step_cancelled_stays (b : Bot) (e : Event) (sessionId : Z) (s : sessions.row) :
  get_session (db b) sessionId = Some s ->
  sessions.status s = "cancelled" ->
  exists s', get_session (db (fst (step b e))) sessionId = Some s'
             /\ sessions.status s' = "cancelled".
Proof.
  intros Hs Hc.
  destruct (step_status b e sessionId s Hs) as (s' & Hs' & [->|(-> & _)]);
    exists s' || eexists; eauto.
Qed.

Lemma run_app (b : Bot) (events1 events2 : list Event) :
  run b (events1 ++ events2) = run (run b events1) events2.
Proof. apply fold_left_app. Qed.

Lemma run_cancelled_stays (events : list Event) (b : Bot) (sessionId : Z)
    (s : sessions.row) :
  get_session (db b) sessionId = Some s ->
  sessions.status s = "cancelled" ->
  exists s', get_session (db (run b events)) sessionId = Some s'
             /\ sessions.status s' = "cancelled".
Proof.
  revert b s. induction events as [|e events IH]; intros b s Hs Hc; [eauto|].
  rewrite run_cons.
  destruct (step_cancelled_stays b e sessionId s Hs Hc) as (s1 & H1 & C1).
  eapply IH; eauto.
Qed.

Lemma run_unbound (events : list Event) (b : Bot) :
  Forall (fun s => sessions.message_id s = "") (t_sessions (db b)) ->
  Forall (fun s => sessions.message_id s = "") (t_sessions (db (run b events))).
Proof.
  revert b. induction events as [|e events IH]; intros b H; [exact H|].
  rewrite run_cons. apply IH.
  destruct (step_sessions b e) as (g & extra & -> & Hg & Hextra).
  apply List.Forall_app. split.
  - apply List.Forall_forall. intros x Hx.
    apply List.in_map_iff in Hx as (s & <- & Hs).
    rewrite List.Forall_forall in H. destruct (Hg s) as (_ & _ & -> & _). auto.
  - apply List.Forall_forall. intros x Hx. apply (Hextra x Hx).
Qed.

(** No session is ever bound to a message: the chain that should post it
    ends in its [catch] before [message_id] is written, so the resync of a
    state the bot reaches from the empty database does nothing. *)
Lemma lifetime_resync_silent (runs : list (list Event)) (w : Discord)
    (sessionId : Z) :
  updateSessionMessage (db (lifetime runs)) w sessionId = [].
Proof.
  assert (H : Forall (fun s => sessions.message_id s = "")
                     (t_sessions (db (lifetime runs)))).
  { unfold lifetime.
    assert (H0 : Forall (fun s => sessions.message_id s = "")
                        (t_sessions (db new_bot))) by constructor.
    revert H0. generalize new_bot.
    induction runs as [|events runs IH]; intros b H0; [exact H0|].
    simpl. apply IH. apply run_unbound. exact H0. }
  unfold updateSessionMessage, get_session.
  destruct (List.filter _ _) as [|s l] eqn:Hf; [reflexivity|]. simpl.
  assert (Hin : In s (s :: l)) by (left; reflexivity).
  rewrite <- Hf in Hin. apply List.filter_In in Hin as [Hin _].
  rewrite List.Forall_forall in H. rewrite (H s Hin). reflexivity.
Qed.

(** The banner of the session embed is computed from the participant rows
    the team query returns. *)
Lemma banner_from_rows (d : Database) (sessionId : Z) (s : sessions.row)
    (mode : GameMode) (embed : Embed) :
  get_session d sessionId = Some s ->
  get gameModes (sessions.game_mode s) = Some mode ->
  createSessionEmbed d sessionId = Resolve embed ->
  (shows_full_team embed = true
   <-> Z.of_nat (length (select_team d sessionId)) = totalPlayers mode).
Proof.
  intros Hs Hmode. unfold createSessionEmbed. rewrite Hs, Hmode.
  intros [= <-]. unfold shows_full_team. cbn [fields].
  rewrite last_snoc, String.eqb_refl. cbn [andb].
  destruct (Z.eqb_spec (Z.of_nat (length (select_team d sessionId)))
                       (totalPlayers mode)) as [E|E];
    destruct (0 <? queue_count d sessionId);
    destruct (0 <? _); split; intros H; try exact E; try reflexivity;
    try discriminate H; contradiction.
Qed.

(** C3, at the input where the code departs from it.  In a database file
    in which the six slots of 6v6 session #1 are taken, Alice joins the
    queue.  Afterwards every role of the session is filled, the stored
    status is still open, not full, and the status law fails; the embed
    rendered from the same state reads 'FULL TEAM SELECTED'. *)
Lemma status_stays_open_on_full_team :
  let b' := fst (step full_team_bot quick_join_any) in
  db b' <> db full_team_bot
  /\ get_session (db b') 1 = Some session_1
  /\ sessions.status session_1 = "open"
  /\ saturated (db b') session_1
  /\ ~ status_law (db b') session_1
  /\ exists embed, createSessionEmbed (db b') 1 = Resolve embed
                   /\ shows_full_team embed = true.
Proof.
  intros b'.
  assert (Hsat : saturated (db b') session_1).
  { intros mode [= <-]. repeat constructor. }
  split; [intros E; apply (f_equal seq_session_queue) in E; discriminate E|].
  split; [reflexivity|]. split; [reflexivity|]. split; [exact Hsat|]. split.
  - intros [Hc|[[_ Hfull] _]]; [discriminate Hc|].
    specialize (Hfull Hsat). discriminate Hfull.
  - destruct (createSessionEmbed (db b') 1) as [embed| |] eqn:E;
      try (vm_compute in E; discriminate E).
    exists embed. split; [reflexivity|].
    vm_compute in E. injection E as <-. reflexivity.
Qed.

(** C3 as the code has it.  The stored status does not follow the
    participants.  In every state the bot reaches from the empty database
    a session is open or cancelled, never full.  From any state, whatever
    rows the participants table holds, an operation leaves the row of a
    session as it was, or it is the cancel command of the session's
    creator and sets the status to cancelled; a session that appears is
    open; a cancelled session is cancelled in every later state.  Whether
    the team is full is computed when the embed is rendered: it reads
    'FULL TEAM SELECTED' exactly when the team query returns as many rows
    as the game mode has players. *)
Theorem status_open_until_cancelled (runs : list (list Event)) (b : Bot) (e : Event)
    (later : list Event) (sessionId : Z) (s : sessions.row) :
  get_session (db b) sessionId = Some s ->
  Forall open_or_cancelled (t_sessions (db (lifetime runs)))
  /\ (exists s', get_session (db (fst (step b e))) sessionId = Some s'
        /\ (s' = s
            \/ (s' = sessions.set_status "cancelled" s
                /\ kind (interaction e)
                   = ChatInputCommand (cancel_session sessionId)
                /\ user_id (interaction e) = sessions.creator_id s)))
  /\ (forall x, In x (t_sessions (db (fst (step b e)))) ->
        (forall y, In y (t_sessions (db b)) -> sessions.id y <> sessions.id x) ->
        sessions.status x = "open")
  /\ (sessions.status s = "cancelled" ->
      exists s', get_session (db (run b later)) sessionId = Some s'
                 /\ sessions.status s' = "cancelled")
  /\ (forall embed mode,
        createSessionEmbed (db b) sessionId = Resolve embed ->
        get gameModes (sessions.game_mode s) = Some mode ->
        (shows_full_team embed = true
         <-> Z.of_nat (length (select_team (db b) sessionId)) = totalPlayers mode)).
Proof.
  intros Hs. split; [|split; [|split; [|split]]].
  - apply (lifetime_invariant (fun d => Forall open_or_cancelled (t_sessions d)));
      [constructor|]. intros b0 e0. apply step_open_or_cancelled.
  - apply step_status. exact Hs.
  - intros x Hx Hnew.
    destruct (step_sessions b e) as (g & extra & E & Hg & Hextra).
    rewrite E in Hx. apply List.in_app_iff in Hx as [Hx|Hx].
    + apply List.in_map_iff in Hx as (y & <- & Hy).
      destruct (Hg y) as (Hid & _). exfalso. apply (Hnew y Hy). congruence.
    + apply (Hextra x Hx).
  - intros Hc. eapply run_cancelled_stays; [exact Hs|exact Hc].
  - intros embed mode Hembed Hmode. eapply banner_from_rows; eassumption.
Qed.

Lemma status_open_until_cancelled_witness :
  let cancel := at_time 6000 (carol (ChatInputCommand (cancel_session 1))) in
  get_session (db (fst (step full_team_bot quick_join_any))) 1 = Some session_1
  /\ get_session (db (fst (step full_team_bot cancel))) 1
     = Some (sessions.set_status "cancelled" session_1)
  /\ exists embed, createSessionEmbed (db full_team_bot) 1 = Resolve embed
                   /\ shows_full_team embed = true.
Proof.
  intros cancel.
  destruct (status_open_until_cancelled [] full_team_bot quick_join_any [] 1
              session_1 eq_refl) as (_ & (s1 & H1 & C1) & _).
  destruct (status_open_until_cancelled [] full_team_bot cancel [] 1
              session_1 eq_refl) as (_ & (s2 & H2 & C2) & _ & _ & H5).
  split; [|split].
  - rewrite H1. destruct C1 as [->|(_ & K & _)]; [reflexivity|discriminate K].
  - rewrite H2. destruct C2 as [->|(-> & _)]; [|reflexivity].
    vm_compute in H2. discriminate H2.
  - destruct (createSessionEmbed (db full_team_bot) 1) as [embed| |] eqn:E;
      try (vm_compute in E; discriminate E).
    exists embed. split; [reflexivity|].
    apply (H5 embed mode_6v6 eq_refl eq_refl). reflexivity.
Defined.

(** ** Eligible candidates *)

Section Ordering.
Context {A : Type} (key : A -> Z).

Local Abbreviation lt := (key_lt key).
Local Abbreviation le := (key_le key).

Lemma insert_sorted_In (x y : A) (l : list A) :
  In y (insert_sorted lt x l) <-> y = x \/ In y l.
Proof.
  induction l as [|z l IH]; simpl; [intuition|].
  destruct (lt x z); simpl; [intuition|]. rewrite IH. intuition.
Qed.

Lemma order_by_In_acc (y : A) (l acc : list A) :
  In y (fold_left (fun acc x => insert_sorted lt x acc) l acc) <-> In y l \/ In y acc.
Proof.
  revert acc. induction l as [|x l IH]; intros acc; simpl; [intuition|].
  rewrite IH, insert_sorted_In. intuition.
Qed.

Lemma order_by_In (y : A) (l : list A) : In y (order_by key l) <-> In y l.
Proof.
  unfold order_by, sort_rows. rewrite order_by_In_acc. simpl. intuition.
Qed.

Lemma insert_sorted_sorted (x : A) (l : list A) :
  StronglySorted le l -> StronglySorted le (insert_sorted lt x l).
Proof.
  induction 1 as [|z l Hs IH Hz]; simpl; [repeat constructor|].
  unfold key_lt at 1. destruct (Z.ltb_spec (key x) (key z)) as [Hlt|Hge].
  - constructor; [constructor; assumption|].
    constructor; [unfold key_le; lia|].
    eapply List.Forall_impl; [|exact Hz]. unfold key_le. intros a Ha. lia.
  - constructor; [exact IH|].
    apply List.Forall_forall. intros a Ha. apply insert_sorted_In in Ha as [->|Ha].
    + unfold key_le. lia.
    + rewrite List.Forall_forall in Hz. auto.
Qed.

Lemma filter_key_above (t : Z) (l : list A) :
  Forall (fun a => t < key a) l -> List.filter (fun a => key a =? t) l = [].
Proof.
  induction 1 as [|a l Ha _ IH]; simpl; [reflexivity|].
  destruct (Z.eqb_spec (key a) t); [lia|exact IH].
Qed.

Lemma insert_sorted_stable (t : Z) (x : A) (l : list A) :
  StronglySorted le l ->
  List.filter (fun a => key a =? t) (insert_sorted lt x l)
  = List.filter (fun a => key a =? t) l ++ (if key x =? t then [x] else []).
Proof.
  induction 1 as [|z l Hs IH Hz]; simpl; [destruct (key x =? t); reflexivity|].
  unfold key_lt at 1. destruct (Z.ltb_spec (key x) (key z)) as [Hlt|Hge].
  - simpl. destruct (Z.eqb_spec (key x) t) as [Hx|Hx]; [|rewrite app_nil_r; reflexivity].
    assert (Hnone : List.filter (fun a => key a =? t) l = []).
    { apply filter_key_above. eapply List.Forall_impl; [|exact Hz].
      unfold key_le. intros a Ha. lia. }
    rewrite Hnone. destruct (Z.eqb_spec (key z) t); [lia|reflexivity].
  - simpl. rewrite IH. destruct (key z =? t); reflexivity.
Qed.

Lemma order_by_acc_sorted_stable (t : Z) (l acc : list A) :
  StronglySorted le acc ->
  StronglySorted le (fold_left (fun acc x => insert_sorted lt x acc) l acc)
  /\ List.filter (fun a => key a =? t)
       (fold_left (fun acc x => insert_sorted lt x acc) l acc)
     = List.filter (fun a => key a =? t) acc ++ List.filter (fun a => key a =? t) l.
Proof.
  revert acc. induction l as [|x l IH]; intros acc Hacc; simpl.
  - rewrite app_nil_r. auto.
  - destruct (IH _ (insert_sorted_sorted x acc Hacc)) as [Hs Hf].
    split; [exact Hs|]. rewrite Hf, (insert_sorted_stable t x acc Hacc).
    rewrite <- app_assoc. destruct (key x =? t); reflexivity.
Qed.

(** [ORDER BY] yields the rows in ascending order of the column. *)
Lemma order_by_sorted (l : list A) : StronglySorted le (order_by key l).
Proof. apply (order_by_acc_sorted_stable 0 l []). constructor. Qed.

(** Rows with the same value of the column keep their scan order. *)
Lemma order_by_stable (t : Z) (l : list A) :
  List.filter (fun a => key a =? t) (order_by key l)
  = List.filter (fun a => key a =? t) l.
Proof. apply (order_by_acc_sorted_stable t l []). constructor. Qed.

Lemma filter_sorted (f : A -> bool) (l : list A) :
  StronglySorted le l -> StronglySorted le (List.filter f l).
Proof.
  induction 1 as [|z l Hs IH Hz]; simpl; [constructor|].
  destruct (f z); [|exact IH]. constructor; [exact IH|].
  apply List.Forall_forall. intros a Ha. apply List.filter_In in Ha as [Ha _].
  rewrite List.Forall_forall in Hz. auto.
Qed.

End Ordering.

Lemma filter_comm {A} (f g : A -> bool) (l : list A) :
  List.filter f (List.filter g l) = List.filter g (List.filter f l).
Proof.
  induction l as [|x l IH]; simpl; [reflexivity|].
  destruct (f x) eqn:Hf, (g x) eqn:Hg; simpl; rewrite ?Hf, ?Hg, IH; reflexivity.
Qed.

Lemma join_rows_In {R} (userOf : R -> string) (accountOf : R -> Z)
    (d : Database) (rows : list R) (q : Joined R) :
  In q (join_rows userOf accountOf d rows) ->
  In (base q) rows /\ In (u q) (t_users d)
  /\ userOf (base q) = users.discord_id (u q).
Proof.
  unfold join_rows. intros H.
  apply List.in_flat_map in H as (r & Hr & H).
  apply List.in_flat_map in H as (usr & Hu & H).
  apply List.filter_In in Hu as [Hu He]. apply String.eqb_eq in He.
  destruct (List.filter _ (t_user_accounts d)) as [|a accs].
  - destruct H as [<-|[]]. simpl. auto.
  - apply List.in_map_iff in H as (a' & <- & _). simpl. auto.
Qed.

Lemma join_rows_complete {R} (userOf : R -> string) (accountOf : R -> Z)
    (d : Database) (rows : list R) (r : R) (usr : users.row) :
  In r rows -> In usr (t_users d) -> userOf r = users.discord_id usr ->
  exists q, In q (join_rows userOf accountOf d rows) /\ base q = r /\ u q = usr.
Proof.
  intros Hr Hu He. unfold join_rows.
  destruct (List.filter (fun a => user_accounts.id a =? accountOf r)
                        (t_user_accounts d)) as [|a accs] eqn:Hacc.
  - exists {| base := r; u := usr; ua := None |}. split; [|auto].
    apply List.in_flat_map. exists r. split; [exact Hr|].
    apply List.in_flat_map. exists usr. split.
    + apply List.filter_In. split; [exact Hu|]. apply String.eqb_eq. exact He.
    + rewrite Hacc. left. reflexivity.
  - exists {| base := r; u := usr; ua := Some a |}. split; [|auto].
    apply List.in_flat_map. exists r. split; [exact Hr|].
    apply List.in_flat_map. exists usr. split.
    + apply List.filter_In. split; [exact Hu|]. apply String.eqb_eq. exact He.
    + rewrite Hacc. left. reflexivity.
Qed.

(** C7 at concrete databases.  Two candidates for Tank joined at the same
    second and the one listed first has the lower rank value; with the
    ranks of the two exchanged the candidates are listed in the same
    order.  Alice, who has no profile row, is queued for 'Any' in session
    #1 and is not among its candidates.  Of twenty-six candidates the menu
    offers twenty-five. *)
Lemma eligible_listing_departs :
  (map (fun q => session_queue.user_id (base q)) (eligible ranked_db 1 "Tank")
     = ["2001"; "2002"]
   /\ map q_joined_at (eligible ranked_db 1 "Tank") = [100; 100]
   /\ map (rank_value_for "Tank") (eligible ranked_db 1 "Tank") = [1; 75]
   /\ map (fun q => session_queue.user_id (base q))
          (eligible ranked_db_swapped 1 "Tank") = ["2001"; "2002"]
   /\ map (rank_value_for "Tank") (eligible ranked_db_swapped 1 "Tank") = [75; 1])
  /\ (map session_queue.preferred_roles (entries_of (db alice_queued) 1 "1001")
        = [["Any"]]
      /\ eligible (db alice_queued) 1 "Any" = [])
  /\ (length (eligible crowd_db 1 "Any") = 26%nat
      /\ map (fun c => match c with
                       | SelectMenu _ _ options => length options
                       | ButtonRow _ => 0%nat
                       end) (selection_menus crowd_db 1 mode_6v6) = [25%nat]).
Proof. vm_compute. repeat split; reflexivity. Qed.

(** C7 as the code has it.  The candidates for a role are queue rows of the
    session whose user has a profile row and whose preferred roles contain
    the role or 'Any', or any such row when the role is 'Any'; every such
    row of a user with a profile is among them.  They are in ascending
    order of the join timestamp, and candidates with the same timestamp are
    in the order of the stored rows: no rank is read.  The menu of a role
    offers the first twenty-five of them. *)
Theorem eligible_fifo_by_timestamp (d : Database) (sessionId : Z) (role : string) :
  (forall q, In q (eligible d sessionId role) ->
     In (base q) (t_session_queue d)
     /\ session_queue.session_id (base q) = sessionId
     /\ In (u q) (t_users d)
     /\ session_queue.user_id (base q) = users.discord_id (u q)
     /\ wants_role role (base q) = true)
  /\ (forall row usr,
        In row (t_session_queue d) ->
        session_queue.session_id row = sessionId ->
        In usr (t_users d) ->
        session_queue.user_id row = users.discord_id usr ->
        wants_role role row = true ->
        exists q, In q (eligible d sessionId role) /\ base q = row /\ u q = usr)
  /\ StronglySorted joined_at_le (eligible d sessionId role)
  /\ (forall t,
        List.filter (fun q => q_joined_at q =? t) (eligible d sessionId role)
        = List.filter (fun q => q_joined_at q =? t)
            (List.filter (eligible_for role) (select_queue d sessionId)))
  /\ (forall mode r placeholder options,
        In (SelectMenu (select_player sessionId r) placeholder options)
           (selection_menus d sessionId mode) ->
        options = map (player_option r) (take 25 (eligible d sessionId r))).
Proof.
  unfold eligible, select_queue_ordered, order_by_joined_at.
  fold (select_queue d sessionId).
  split; [|split; [|split; [|split]]].
  - intros q Hq. apply List.filter_In in Hq as [Hq Hw].
    apply order_by_In in Hq. apply join_rows_In in Hq as (Hb & Hu & He).
    apply List.filter_In in Hb as [Hb Hs]. apply Z.eqb_eq in Hs. auto.
  - intros row usr Hrow Hs Husr He Hw.
    destruct (join_rows_complete session_queue.user_id session_queue.account_id d
                (List.filter (fun q => session_queue.session_id q =? sessionId)
                             (t_session_queue d)) row usr) as (q & Hq & Hb & Hu).
    + apply List.filter_In. split; [exact Hrow|]. apply Z.eqb_eq. exact Hs.
    + exact Husr.
    + exact He.
    + exists q. split; [|auto]. apply List.filter_In. split.
      * apply order_by_In. exact Hq.
      * unfold eligible_for. rewrite Hb. exact Hw.
  - apply filter_sorted. apply order_by_sorted.
  - intros t. rewrite filter_comm, order_by_stable. apply filter_comm.
  - intros mode r placeholder options H. unfold selection_menus in H.
    apply List.in_flat_map in H as ([role' count] & _ & H).
    destruct (_ <? count); [|destruct H].
    destruct (0 <? _); [|destruct H].
    destruct H as [H|[]]. injection H as <- _ <-. reflexivity.
Qed.

Lemma eligible_fifo_by_timestamp_witness :
  StronglySorted joined_at_le (eligible ranked_db 1 "Tank")
  /\ exists q, In q (eligible ranked_db 1 "Tank")
               /\ base q = queued 2 1 "2002" 2 ["Tank"] 100
               /\ u q = profile "2002" "strong".
Proof.
  destruct (eligible_fifo_by_timestamp ranked_db 1 "Tank") as (_ & H2 & H3 & _).
  split; [exact H3|].
  apply H2; [right; left; reflexivity|reflexivity|right; left; reflexivity
            |reflexivity|reflexivity].
Defined.

(** * Further properties *)

(** ** Shape of the tables after a step *)

(** What a step does to the queue: it rewrites rows in place keeping their
    session and user, or deletes rows, or appends the row of a user who
    had none. *)
Lemma step_queue (b : Bot) (e : Event) :
  (exists f,
     (forall q, session_queue.session_id (f q) = session_queue.session_id q
                /\ session_queue.user_id (f q) = session_queue.user_id q)
     /\ t_session_queue (db (fst (step b e))) = map f (t_session_queue (db b)))
  \/ (exists keep,
        t_session_queue (db (fst (step b e)))
        = List.filter keep (t_session_queue (db b)))
  \/ (exists sessionId accountId roles,
        get_queue_entry (db b) sessionId (user_id (interaction e)) = None
        /\ t_session_queue (db (fst (step b e)))
           = t_session_queue (db b)
             ++ [fresh_entry b e sessionId accountId roles]).
Proof.
  assert (Hid : exists f,
     (forall q, session_queue.session_id (f q) = session_queue.session_id q
                /\ session_queue.user_id (f q) = session_queue.user_id q)
     /\ t_session_queue (db b) = map f (t_session_queue (db b))).
  { exists (fun q => q). split; [auto|]. symmetry. apply List.map_id. }
  unfold_handlers. head_cases; try (left; exact Hid).
  all: try (right; left; eexists; reflexivity).
  all: try (left; eexists; split; [|reflexivity]; intros q; cbv beta;
            destruct (queue_match _ _ q); auto).
  all: right; right; do 3 eexists; split; [eassumption|reflexivity].
Qed.

(** ** One queue entry per session and user *)

Lemma entries_of_map (f : session_queue.row -> session_queue.row)
    (l : list session_queue.row) (sessionId : Z) (userId : string) :
  (forall q, session_queue.session_id (f q) = session_queue.session_id q
             /\ session_queue.user_id (f q) = session_queue.user_id q) ->
  List.filter (queue_match sessionId userId) (map f l)
  = map f (List.filter (queue_match sessionId userId) l).
Proof.
  intros Hf. induction l as [|q l IH]; simpl; [reflexivity|].
  assert (E : queue_match sessionId userId (f q) = queue_match sessionId userId q).
  { unfold queue_match. destruct (Hf q) as [-> ->]. reflexivity. }
  rewrite E. destruct (queue_match sessionId userId q); simpl; rewrite IH; reflexivity.
Qed.

Lemma filter_filter_length {A} (f g : A -> bool) (l : list A) :
  (length (List.filter f (List.filter g l)) <= length (List.filter f l))%nat.
Proof.
  induction l as [|x l IH]; simpl; [lia|].
  destruct (g x), (f x) eqn:Hf; simpl; rewrite ?Hf; simpl; lia.
Qed.

Lemma queue_match_inv (sessionId : Z) (userId : string) (q : session_queue.row) :
  queue_match sessionId userId q = true ->
  session_queue.session_id q = sessionId /\ session_queue.user_id q = userId.
Proof.
  unfold queue_match. intros H. apply andb_true_iff in H as [H1 H2].
  apply Z.eqb_eq in H1. apply String.eqb_eq in H2. auto.
Qed.

Lemma step_queue_unique (b : Bot) (e : Event) :
  queue_unique (db b) -> queue_unique (db (fst (step b e))).
Proof.
  intros H sessionId userId. specialize (H sessionId userId).
  unfold entries_of in *.
  destruct (step_queue b e) as [(f & Hf & ->)|[(keep & ->)|(sid & acc & roles & Hn & ->)]].
  - rewrite (entries_of_map f _ _ _ Hf), length_map. exact H.
  - etransitivity; [apply filter_filter_length|exact H].
  - rewrite List.filter_app, length_app. simpl.
    destruct (queue_match sessionId userId (fresh_entry b e sid acc roles)) eqn:Hm;
      simpl; [|lia].
    apply queue_match_inv in Hm as [<- <-]. simpl.
    apply head_filter_none in Hn. simpl in Hn. rewrite Hn. simpl. lia.
Qed.

(** X1. When every interaction is handled to its end before the next one
    is taken up, a user has at most one queue row per session in every
    state the bot reaches from the empty database, and the row the lookup
    returns is that row: a second join of a queued user merges into it.
    Only the order of the callbacks keeps the rows apart, the table has no
    UNIQUE constraint: when the lookups of two joins by one user both run
    before the first INSERT, both callbacks insert and the user has two
    rows. *)
Theorem queue_entry_unique_when_serial (runs : list (list Event)) (e1 e2 : Event)
    (sessionId account1 account2 : Z) (roles1 roles2 : list string) :
  user_id (interaction e2) = user_id (interaction e1) ->
  let b := lifetime runs in
  let userId := user_id (interaction e1) in
  let found := get_queue_entry (db b) sessionId userId in
  found = None ->
  let serial :=
    fst (joinWithAccount (fst (joinWithAccount b e1 sessionId account1 roles1))
                         e2 sessionId account2 roles2) in
  let interleaved :=
    fst (joinWithAccount_write
           (fst (joinWithAccount_write b e1 sessionId account1 roles1 found))
           e2 sessionId account2 roles2 found) in
  (forall s u,
      (length (entries_of (db b) s u) <= 1)%nat
      /\ (forall q, In q (entries_of (db b) s u) ->
                    get_queue_entry (db b) s u = Some q))
  /\ length (entries_of (db serial) sessionId userId) = 1%nat
  /\ length (entries_of (db interleaved) sessionId userId) = 2%nat.
Proof.
  intros Hu b userId found Hfound serial interleaved.
  assert (H : queue_unique (db b)).
  { apply lifetime_invariant; [intros s u; simpl; lia|].
    intros b0 e. apply step_queue_unique. }
  assert (Hnone : entries_of (db b) sessionId userId = []).
  { apply head_filter_none. exact Hfound. }
  assert (Hm1 := queue_match_fresh b e1 sessionId account1 roles1).
  fold userId in Hm1.
  split; [|split].
  - intros s u. specialize (H s u). split; [exact H|].
    intros q Hq. unfold get_queue_entry. fold (entries_of (db b) s u).
    destruct (entries_of _ _ _) as [|q1 [|q2 l]]; simpl in *; [contradiction| |lia].
    destruct Hq as [->|[]]. reflexivity.
  - assert (E1 : fst (joinWithAccount b e1 sessionId account1 roles1)
                 = with_db (with_session_queue
                     (t_session_queue (db b)
                      ++ [fresh_entry b e1 sessionId account1 roles1])
                     (seq_session_queue (db b) + 1) (db b)) b).
    { rewrite (joinWithAccount_fresh b e1 sessionId account1 roles1 Hfound).
      reflexivity. }
    unfold serial. rewrite E1.
    unfold joinWithAccount, joinWithAccount_write, get_queue_entry.
    rewrite Hu. fold userId.
    cbn [db with_db t_session_queue with_session_queue].
    rewrite List.filter_app. fold (entries_of (db b) sessionId userId).
    rewrite Hnone. cbn [List.filter app]. rewrite Hm1. cbn [head fst db with_db].
    unfold entries_of. cbn [t_session_queue with_session_queue].
    rewrite entries_of_map.
    + rewrite length_map, List.filter_app.
      fold (entries_of (db b) sessionId userId). rewrite Hnone.
      cbn [List.filter app]. rewrite Hm1. reflexivity.
    + intros q. destruct (queue_match sessionId userId q); auto.
  - unfold interleaved, joinWithAccount_write. rewrite Hfound.
    cbn [fst db with_db t_session_queue with_session_queue seq_session_queue].
    unfold entries_of. cbn [t_session_queue with_session_queue].
    rewrite !List.filter_app. fold (entries_of (db b) sessionId userId).
    rewrite Hnone. cbn [List.filter app].
    fold (fresh_entry b e1 sessionId account1 roles1). rewrite Hm1.
    unfold queue_match. cbn [session_queue.session_id session_queue.user_id].
    rewrite Hu. fold userId. rewrite Z.eqb_refl, String.eqb_refl. reflexivity.
Qed.

Lemma queue_entry_unique_when_serial_witness :
  let b := lifetime [session_created] in
  let first := at_time 5000 (alice (Button (btn_quick_join 1 "Any"))) in
  let second := at_time 5001 (alice (Button (btn_quick_join 1 "Any"))) in
  map session_queue.id
      (entries_of (db (fst (joinWithAccount
                              (fst (joinWithAccount b first 1 1 ["Any"]))
                              second 1 1 ["Any"]))) 1 "1001")
  = [1]
  /\ map session_queue.id
       (entries_of (db (fst (joinWithAccount_write
                               (fst (joinWithAccount_write b first 1 1 ["Any"] None))
                               second 1 1 ["Any"] None))) 1 "1001")
     = [1; 2].
Proof.
  intros b first second.
  destruct (queue_entry_unique_when_serial [session_created] first second 1 1 1
              ["Any"] ["Any"] eq_refl eq_refl) as (_ & H1 & H2).
  cbv zeta in H1, H2. fold b in H1, H2.
  change (get_queue_entry (db b) 1 (user_id (interaction first))) with
    (@None session_queue.row) in H2.
  change (user_id (interaction first)) with "1001" in H1, H2.
  destruct (entries_of _ 1 "1001") as [|q1 [|q2 l1]] eqn:E1 in H1;
    try discriminate H1.
  destruct (entries_of _ 1 "1001") as [|p1 [|p2 [|p3 l2]]] eqn:E2 in H2;
    try discriminate H2.
  rewrite E1, E2. vm_compute in E1, E2.
  injection E1 as <-. injection E2 as <- <-. split; reflexivity.
Defined.

(** ** Session ids *)

Lemma step_session_ids (b : Bot) (e : Event) :
  session_ids_consecutive (db b) -> session_ids_consecutive (db (fst (step b e))).
Proof.
  unfold session_ids_consecutive. intros [Hids Hseq].
  unfold_handlers. head_cases; try (split; assumption).
  - (* cancel-session, no row selected *)
    simpl. rewrite length_map, List.map_map. simpl.
    split; [|exact Hseq]. rewrite <- Hids. apply List.map_ext.
    intros s. destruct (cancel_match _ _ s); reflexivity.
  - (* cancel-session *)
    simpl. rewrite length_map, List.map_map. simpl.
    split; [|exact Hseq]. rewrite <- Hids. apply List.map_ext.
    intros s. destruct (cancel_match _ _ s); reflexivity.
  - (* day menu *)
    simpl. rewrite map_app, length_app, Hids, Hseq. simpl.
    rewrite Nat.add_1_r, List.seq_S, map_app. simpl.
    split; [f_equal; f_equal; f_equal; lia|lia].
Qed.

Lemma head_filter_id_nodup (l : list sessions.row) (s : sessions.row) :
  List.NoDup (map sessions.id l) -> In s l ->
  head (List.filter (fun x => sessions.id x =? sessions.id s) l) = Some s.
Proof.
  induction l as [|x l IH]; simpl; intros Hnd Hin; [contradiction|].
  inversion Hnd as [|? ? Hx Hnd']; subst.
  destruct Hin as [->|Hin].
  - rewrite Z.eqb_refl. reflexivity.
  - destruct (Z.eqb_spec (sessions.id x) (sessions.id s)) as [E|_]; [|auto].
    exfalso. apply Hx. rewrite E. apply List.in_map. exact Hin.
Qed.

(** X2. In every state the bot reaches from the empty database the session
    rows carry the ids 1, 2, ... in creation order: no session row is ever
    deleted or renumbered: so the ids are distinct and looking a session
    up by its id returns that very row. *)
Theorem session_ids_consecutive_reachable (runs : list (list Event)) :
  map sessions.id (t_sessions (db (lifetime runs)))
    = map Z.of_nat (seq 1 (length (t_sessions (db (lifetime runs)))))
  /\ List.NoDup (map sessions.id (t_sessions (db (lifetime runs))))
  /\ (forall s, In s (t_sessions (db (lifetime runs))) ->
        get_session (db (lifetime runs)) (sessions.id s) = Some s).
Proof.
  assert (H : session_ids_consecutive (db (lifetime runs))).
  { apply lifetime_invariant; [split; reflexivity|].
    intros b e. apply step_session_ids. }
  destruct H as [Hids _].
  assert (Hnd : List.NoDup (map sessions.id (t_sessions (db (lifetime runs))))).
  { rewrite Hids. apply List.NoDup_map_inv with (f := Z.to_nat).
    rewrite List.map_map. erewrite List.map_ext; [rewrite List.map_id; apply List.seq_NoDup|].
    intros n. simpl. apply Nat2Z.id. }
  split; [exact Hids|]. split; [exact Hnd|].
  intros s Hs. apply head_filter_id_nodup; assumption.
Qed.

(** ** Accounts *)

Lemma primaries_cleared (l : list user_accounts.row) (owner userId : string) :
  List.filter (fun a => String.eqb (user_accounts.discord_id a) userId
                        && user_accounts.is_primary a)
    (map (fun a => if String.eqb (user_accounts.discord_id a) owner
                   then set_primary false a else a) l)
  = if String.eqb owner userId then []
    else List.filter (fun a => String.eqb (user_accounts.discord_id a) userId
                               && user_accounts.is_primary a) l.
Proof.
  induction l as [|a l IH]; simpl; [destruct (String.eqb owner userId); reflexivity|].
  rewrite IH.
  destruct (String.eqb_spec (user_accounts.discord_id a) owner) as [Ho|Ho]; simpl.
  - rewrite andb_false_r.
    destruct (String.eqb_spec owner userId) as [Hu|Hu]; [reflexivity|].
    destruct (String.eqb_spec (user_accounts.discord_id a) userId); [congruence|].
    reflexivity.
  - destruct (String.eqb_spec owner userId) as [Hu|Hu]; [|reflexivity].
    destruct (String.eqb_spec (user_accounts.discord_id a) userId); [congruence|].
    reflexivity.
Qed.

Lemma step_primary_unique (b : Bot) (e : Event) :
  primary_unique (db b) -> primary_unique (db (fst (step b e))).
Proof.
  unfold primary_unique, primaries_of. intros H.
  unfold_handlers. head_cases; try exact H.
  - (* add-account *)
    intros userId. specialize (H userId). simpl.
    rewrite List.filter_app, length_app. simpl.
    destruct (default false is_primary) eqn:Hp.
    + rewrite primaries_cleared.
      destruct (String.eqb_spec (user_id (interaction e)) userId) as [Heq|Hne];
        simpl; lia.
    + rewrite andb_false_r. simpl. lia.
  - (* delete-account *)
    intros userId. specialize (H userId). simpl.
    etransitivity; [apply filter_filter_length|exact H].
Qed.

Lemma step_unranked (b : Bot) (e : Event) :
  Forall unranked (t_user_accounts (db b)) ->
  Forall unranked (t_user_accounts (db (fst (step b e)))).
Proof.
  intros H. unfold_handlers. head_cases; try exact H.
  - (* add-account *)
    simpl. apply List.Forall_app. split; [|repeat constructor].
    destruct (default false is_primary); [|exact H].
    apply List.Forall_forall. intros x Hx.
    apply List.in_map_iff in Hx as (a & <- & Ha).
    rewrite List.Forall_forall in H. specialize (H a Ha).
    destruct (String.eqb _ _); exact H.
  - (* delete-account *)
    simpl. apply List.Forall_forall. intros x Hx.
    apply List.filter_In in Hx as [Hx _].
    rewrite List.Forall_forall in H. auto.
Qed.

Lemma rank_column_unranked (role : string) (a : user_accounts.row) :
  unranked a -> rank_column role a = "".
Proof.
  intros (H1 & H2 & H3). unfold rank_column.
  repeat (destruct (String.eqb _ _); [assumption|]). reflexivity.
Qed.

Lemma eligibleAccounts_unranked (l : list user_accounts.row) (role : string) :
  Forall unranked l -> role <> "Any" -> eligibleAccounts l role = [].
Proof.
  intros H Hr. unfold eligibleAccounts.
  destruct (String.eqb_spec role "Any") as [|_]; [contradiction|]. simpl.
  induction H as [|a l Ha _ IH]; simpl; [reflexivity|].
  rewrite (rank_column_unranked role a Ha). simpl. exact IH.
Qed.

(** X3. In every state the bot reaches from the empty database a user has
    at most one account marked primary: adding a primary account clears the
    flag on the user's other accounts first, and nothing else sets it. *)
Theorem primary_account_unique (runs : list (list Event)) (userId : string) :
  (length (primaries_of (db (lifetime runs)) userId) <= 1)%nat.
Proof.
  revert userId.
  apply (lifetime_invariant primary_unique); [intros u; simpl; lia|].
  intros b e. apply step_primary_unique.
Qed.

(** X4. No handler writes a rank column (the rank menu ends in 'Feature
    coming soon!'): in every state the bot reaches from the empty database
    every account is unranked, and a quick join for a role other than 'Any'
    never enqueues: it leaves the state as it is and answers that an
    account or a rank for the role is missing. *)
Theorem quick_join_role_never_enqueues (runs : list (list Event)) (e : Event)
    (sessionId : Z) (role : string) :
  role <> "Any" ->
  Forall unranked (t_user_accounts (db (lifetime runs)))
  /\ fst (handleQuickJoin (lifetime runs) e sessionId role) = lifetime runs
  /\ (snd (handleQuickJoin (lifetime runs) e sessionId role)
        = [Reply (text "Please add an account first with `/add-account`!")]
      \/ snd (handleQuickJoin (lifetime runs) e sessionId role)
         = [Reply (text ("No accounts found with " +:+ role
                         +:+ " ranks! Please set your " +:+ role
                         +:+ " rank first."))]).
Proof.
  intros Hr.
  assert (H : Forall unranked (t_user_accounts (db (lifetime runs)))).
  { apply (lifetime_invariant (fun d => Forall unranked (t_user_accounts d)));
      [constructor|]. intros b e'. apply step_unranked. }
  split; [exact H|].
  unfold handleQuickJoin.
  destruct (accounts_of (db (lifetime runs)) (user_id (interaction e)))
    as [|a l] eqn:Ha; [split; [reflexivity|left; reflexivity]|].
  cbv zeta. rewrite eligibleAccounts_unranked; [split; [reflexivity|right; reflexivity]| |exact Hr].
  rewrite <- Ha. unfold accounts_of.
  apply List.Forall_forall. intros x Hx. apply List.filter_In in Hx as [Hx _].
  rewrite List.Forall_forall in H. auto.
Qed.

Lemma quick_join_role_never_enqueues_witness :
  handleQuickJoin (lifetime [session_created]) 
    (at_time 5000 (alice (Button (btn_quick_join 1 "Tank")))) 1 "Tank"
  = (lifetime [session_created],
     [Reply (text "No accounts found with Tank ranks! Please set your Tank rank first.")]).
Proof.
  destruct (quick_join_role_never_enqueues [session_created]
              (at_time 5000 (alice (Button (btn_quick_join 1 "Tank")))) 1 "Tank")
    as (_ & Hs & Hr); [discriminate|].
  destruct Hr as [Hr|Hr].
  - vm_compute in Hr. discriminate Hr.
  - apply injective_projections; [exact Hs|exact Hr].
Defined.

(** ** The day menu *)

Lemma setHours20_shift (now k : Z) :
  setHours20 (now + k * day_ms) = (now / day_ms + k) * day_ms + 72000000.
Proof. unfold setHours20, day_ms. rewrite Z.div_add by lia. reflexivity. Qed.

Lemma evening_div (x : Z) : (x * day_ms + 72000000) / day_ms = x.
Proof. unfold day_ms. rewrite Z.add_comm, Z.div_add by lia. reflexivity. Qed.

Lemma evening_mod (x : Z) : (x * day_ms + 72000000) mod day_ms = 72000000.
Proof. unfold day_ms. rewrite Z.add_comm, Z.mod_add by lia. reflexivity. Qed.

Lemma scheduled_for_weekday (now i : Z) :
  0 <= i <= 6 ->
  let daysToAdd := i - getDay now in
  let daysToAdd := if daysToAdd <=? 0 then daysToAdd + 7 else daysToAdd in
  let t := setHours20 (now + daysToAdd * day_ms) in
  now < t < now + 8 * day_ms
  /\ t mod day_ms = 20 * 3600000
  /\ getDay t = i
  /\ 1 <= t / day_ms - now / day_ms <= 7.
Proof.
  intros Hi. cbv zeta. rewrite setHours20_shift.
  unfold getDay at 3. rewrite evening_div, evening_mod.
  unfold getDay.
  destruct (Z.leb_spec (i - (now / day_ms + 4) mod 7) 0);
    unfold day_ms in *; Z.div_mod_to_equations; lia.
Qed.

Lemma scheduled_for_named (now : Z) (day : string) :
  day <> "Today" -> day <> "Tomorrow" ->
  scheduled_for now day
  = setHours20 (now + (if indexOf dayNames day - getDay now <=? 0
                       then indexOf dayNames day - getDay now + 7
                       else indexOf dayNames day - getDay now) * day_ms).
Proof.
  intros H1 H2. unfold scheduled_for.
  destruct (String.eqb_spec day "Today"); [contradiction|].
  destruct (String.eqb_spec day "Tomorrow"); [contradiction|]. reflexivity.
Qed.

(** X5. For every day the day menu offers, the scheduled time is strictly
    after the press, less than eight days after it, and at 20:00:00.000.
    'Tomorrow' is the next calendar day; 'Today' is the same day, or the
    next one exactly when 20:00 has been reached; a weekday name gives the
    next day of that name, the same weekday being a week ahead. *)
Theorem day_menu_schedules_next_evening (now : Z) (day : string) :
  In day daysOfWeek ->
  let t := scheduled_for now day in
  now < t < now + 8 * day_ms
  /\ t mod day_ms = 20 * 3600000
  /\ (day = "Tomorrow" -> t / day_ms = now / day_ms + 1)
  /\ (day = "Today" ->
      t / day_ms = now / day_ms + (if 20 * 3600000 <=? now mod day_ms then 1 else 0))
  /\ (In day dayNames ->
      getDay t = indexOf dayNames day /\ 1 <= t / day_ms - now / day_ms <= 7).
Proof.
  intros Hin. cbv zeta. cbn in Hin.
  destruct Hin as [<-|[<-|Hin]].
  - (* Today *)
    change (scheduled_for now "Today")
      with (if setHours20 now <=? now then setHours20 now + day_ms else setHours20 now).
    unfold setHours20.
    assert (Hno : ~ In "Today" dayNames) by (cbn; intuition discriminate).
    destruct (Z.leb_spec (now / day_ms * day_ms + 20 * 3600000) now);
      destruct (Z.leb_spec (20 * 3600000) (now mod day_ms));
      (split; [|split; [|split; [discriminate|split; [intros _|contradiction]]]]);
      unfold day_ms in *; Z.div_mod_to_equations; lia.
  - (* Tomorrow *)
    change (scheduled_for now "Tomorrow") with (setHours20 (now + 1 * day_ms)).
    rewrite setHours20_shift, evening_div, evening_mod.
    assert (Hno : ~ In "Tomorrow" dayNames) by (cbn; intuition discriminate).
    split; [|split; [reflexivity|split; [intros _; reflexivity
                                         |split; [discriminate|contradiction]]]].
    unfold day_ms. Z.div_mod_to_equations. lia.
  - (* a weekday *)
    assert (Hnamed : In day dayNames) by (cbn; tauto).
    assert (H1 : day <> "Today") by (intros ->; cbn in Hin; intuition discriminate).
    assert (H2 : day <> "Tomorrow") by (intros ->; cbn in Hin; intuition discriminate).
    assert (Hi : 0 <= indexOf dayNames day <= 6).
    { repeat (destruct Hin as [<-|Hin]; [vm_compute; split; discriminate|]).
      contradiction. }
    rewrite (scheduled_for_named now day H1 H2).
    destruct (scheduled_for_weekday now (indexOf dayNames day) Hi) as (A & B & C & D).
    cbv zeta in A, B, C, D.
    split; [exact A|]. split; [exact B|]. split; [contradiction|].
    split; [contradiction|]. intros _. split; [exact C|exact D].
Qed.

Lemma day_menu_schedules_next_evening_witness :
  scheduled_for 3000 "Today" = 72000000
  /\ getDay (scheduled_for 3000 "Monday") = 1.
Proof.
  destruct (day_menu_schedules_next_evening 3000 "Monday") as (_ & _ & _ & _ & H).
  { cbn. tauto. }
  split; [reflexivity|]. apply H. cbn. tauto.
Defined.

(** *** Custom id of the day menu *)

Lemma append_cons (x : ascii) (a b : string) :
  String x a +:+ b = String x (a +:+ b).
Proof. reflexivity. Qed.

Lemma split_on_dash_free (a : string) :
  dash_free a = true -> split_on "-" a = [a].
Proof.
  induction a as [|c a IH]; simpl; [reflexivity|].
  intros H. apply andb_true_iff in H as [Hc Ha].
  apply negb_true_iff in Hc. rewrite Hc, (IH Ha). reflexivity.
Qed.

Lemma split_on_segment (a b : string) :
  dash_free a = true ->
  split_on "-" (a +:+ String "-" b) = a :: split_on "-" b.
Proof.
  induction a as [|c a IH]; [reflexivity|].
  rewrite append_cons. simpl.
  intros H. apply andb_true_iff in H as [Hc Ha].
  apply negb_true_iff in Hc. rewrite Hc, (IH Ha). reflexivity.
Qed.

Lemma digit_string_app (ds1 ds2 : list Z) :
  digit_string (ds1 ++ ds2) = digit_string ds1 +:+ digit_string ds2.
Proof.
  induction ds1 as [|d ds1 IH]; [reflexivity|].
  simpl. rewrite append_cons, IH. reflexivity.
Qed.

Lemma append_assoc (a b c : string) : (a +:+ b) +:+ c = a +:+ (b +:+ c).
Proof.
  induction a as [|x a IH]; [reflexivity|].
  rewrite !append_cons, IH. reflexivity.
Qed.

Lemma append_empty (a : string) : a +:+ "" = a.
Proof.
  induction a as [|x a IH]; [reflexivity|].
  rewrite append_cons, IH. reflexivity.
Qed.

Lemma digit_cases (d : Z) :
  0 <= d < 10 ->
  d = 0 \/ d = 1 \/ d = 2 \/ d = 3 \/ d = 4 \/ d = 5 \/ d = 6 \/ d = 7 \/ d = 8 \/ d = 9.
Proof. lia. Qed.

Lemma pretty_N_char_digit (x : N) :
  (x < 10)%N -> pretty_N_char x = ascii_of_nat (Z.to_nat (48 + Z.of_N x)).
Proof.
  intros H.
  assert (C : (x = 0 \/ x = 1 \/ x = 2 \/ x = 3 \/ x = 4 \/ x = 5 \/ x = 6 \/ x = 7
               \/ x = 8 \/ x = 9)%N) by lia.
  repeat (destruct C as [->|C]; [reflexivity|]). subst x. reflexivity.
Qed.

(** The digits [pretty] prints for a natural number. *)
Lemma pretty_N_go_digits (x : N) :
  exists ds, Forall (fun d => 0 <= d < 10) ds
             /\ (forall s, pretty_N_go x s = digit_string ds +:+ s)
             /\ decimal_value ds = Z.of_N x
             /\ ((0 < x)%N -> ds <> []).
Proof.
  induction (N.lt_wf_0 x) as [x _ IH].
  destruct (N.eq_dec x 0) as [->|Hx].
  - exists []. split; [constructor|]. split; [reflexivity|]. split; [reflexivity|lia].
  - assert (Hpos : (0 < x)%N) by lia.
    destruct (IH (x `div` 10)%N) as (ds & Hds & Hgo & Hval & _).
    { apply N.div_lt; lia. }
    assert (Hm : (x `mod` 10 < 10)%N) by (apply N.mod_lt; lia).
    assert (Hx10 : Z.of_N x = Z.of_N (x `div` 10) * 10 + Z.of_N (x `mod` 10)).
    { rewrite (N.div_mod x 10) at 1 by lia.
      rewrite N2Z.inj_add, N2Z.inj_mul. simpl. lia. }
    remember (x `mod` 10)%N as r eqn:Er.
    exists (ds ++ [Z.of_N r]). split; [|split; [|split]].
    + apply List.Forall_app. split; [exact Hds|]. constructor; [lia|constructor].
    + intros s. rewrite pretty_N_go_step by exact Hpos.
      rewrite <- Er, Hgo, digit_string_app, append_assoc.
      rewrite pretty_N_char_digit by exact Hm. reflexivity.
    + unfold decimal_value in *. rewrite fold_left_app. simpl. rewrite Hval.
      lia.
    + intros _ E. destruct ds; discriminate E.
Qed.

Lemma pretty_nonneg_digits (n : Z) :
  0 <= n ->
  exists ds, ds <> [] /\ Forall (fun d => 0 <= d < 10) ds
             /\ pretty n = digit_string ds /\ decimal_value ds = n.
Proof.
  intros Hn. destruct n as [|p|p]; [| |lia].
  - exists [0]. split; [discriminate|]. split; [constructor; [lia|constructor]|].
    split; reflexivity.
  - destruct (pretty_N_go_digits (N.pos p)) as (ds & Hds & Hgo & Hval & Hne).
    exists ds. split; [apply Hne; lia|]. split; [exact Hds|]. split; [|exact Hval].
    change (pretty (Z.pos p)) with (pretty_N_go (N.pos p) "").
    rewrite Hgo, append_empty. reflexivity.
Qed.

Lemma digits_prefix_digit_string (ds : list Z) :
  Forall (fun d => 0 <= d < 10) ds -> digits_prefix 10 (digit_string ds) = ds.
Proof.
  induction 1 as [|d ds Hd _ IH]; simpl; [reflexivity|].
  rewrite IH. apply digit_cases in Hd.
  repeat (destruct Hd as [->|Hd]; [reflexivity|]). subst d. reflexivity.
Qed.

Lemma dash_free_digit_string (ds : list Z) :
  Forall (fun d => 0 <= d < 10) ds -> dash_free (digit_string ds) = true.
Proof.
  induction 1 as [|d ds Hd _ IH]; simpl; [reflexivity|].
  rewrite IH. apply digit_cases in Hd.
  repeat (destruct Hd as [->|Hd]; [reflexivity|]). subst d. reflexivity.
Qed.

(** [parseInt] reads back what printing a non-negative integer wrote. *)
Lemma parseInt_digit_string (ds : list Z) :
  ds <> [] -> Forall (fun d => 0 <= d < 10) ds ->
  parseInt (digit_string ds) = Some (decimal_value ds).
Proof.
  intros Hne Hds.
  assert (Hp := digits_prefix_digit_string ds Hds).
  destruct ds as [|d ds]; [contradiction|].
  inversion Hds as [|? ? Hd Hds']; subst.
  assert (E : parseInt (digit_string (d :: ds))
              = match digits_prefix 10 (digit_string (d :: ds)) with
                | [] => None
                | l => Some (1 * fold_left (fun acc v => acc * 10 + v) l 0)
                end).
  { apply digit_cases in Hd.
    destruct Hd as [->|Hd].
    - destruct ds as [|d' ds]; [reflexivity|].
      inversion Hds' as [|? ? Hd' _]; subst. apply digit_cases in Hd'.
      repeat (destruct Hd' as [->|Hd']; [reflexivity|]). subst d'. reflexivity.
    - repeat (destruct Hd as [->|Hd]; [reflexivity|]). subst d. reflexivity. }
  rewrite E, Hp. unfold decimal_value. f_equal. lia.
Qed.

Lemma parseInt_pretty (n : Z) : 0 <= n -> parseInt (pretty n) = Some n.
Proof.
  intros Hn. destruct (pretty_nonneg_digits n Hn) as (ds & Hne & Hds & -> & <-).
  apply parseInt_digit_string; assumption.
Qed.

Lemma dash_free_pretty (n : Z) : 0 <= n -> dash_free (pretty n) = true.
Proof.
  intros Hn. destruct (pretty_nonneg_digits n Hn) as (ds & _ & Hds & -> & _).
  apply dash_free_digit_string. exact Hds.
Qed.

(** What [handleSelectMenu] reads from the id of the day menu that
    [handleCreateSession] built: the game mode when it has no dash, and
    the rank difference when it is not negative. *)
Lemma day_menu_id_read (gameMode : string) (maxRankDiff : Z) :
  dash_free gameMode = true ->
  day_menu_id gameMode maxRankDiff
  = select_day gameMode (if 0 <=? maxRankDiff then Some maxRankDiff else None).
Proof.
  intros Hm. unfold day_menu_id.
  change ("select-day-" +:+ gameMode +:+ "-" +:+ pretty maxRankDiff)
    with ("select" +:+ String "-" ("day" +:+ String "-"
            (gameMode +:+ String "-" (pretty maxRankDiff)))).
  rewrite !split_on_segment by (reflexivity || exact Hm).
  destruct (Z.leb_spec 0 maxRankDiff) as [Hn|Hn].
  - rewrite split_on_dash_free by (apply dash_free_pretty; exact Hn).
    cbn [nth]. rewrite parseInt_pretty by exact Hn. reflexivity.
  - destruct maxRankDiff as [|p|p]; try lia.
    change (pretty (Z.neg p)) with (String "-" (pretty (Z.pos p))).
    cbn [split_on Ascii.eqb Bool.eqb]. reflexivity.
Qed.

(** X6. A [/create-session] for a game mode without a dash, as the offered
    ones are, answers with a day menu, and the same user's choice in that
    menu appends exactly one session: open, not bound to a message, created
    by that user in the guild and channel of the command, with the mode of
    the command and the time computed from the chosen day.  The rank
    difference of the command (0 or none read as 5) is stored when it is
    not negative; a negative one is lost on the way through the custom id
    of the menu and NULL is stored.  The draft is consumed: the same menu
    used again answers that the creation expired and changes nothing. *)
Theorem day_menu_creates_one_session (b : Bot) (e1 e2 e3 : Event)
    (mode : string) (descr : option string) (diff : option Z)
    (values values' : list string) :
  kind (interaction e1) = ChatInputCommand (create_session mode descr diff) ->
  dash_free mode = true ->
  kind (interaction e2)
    = StringSelectMenu (day_menu_id mode (maxRankDiff_of diff)) values ->
  kind (interaction e3)
    = StringSelectMenu (day_menu_id mode (maxRankDiff_of diff)) values' ->
  user_id (interaction e2) = user_id (interaction e1) ->
  user_id (interaction e3) = user_id (interaction e1) ->
  let b1 := fst (step b e1) in
  let b2 := fst (step b1 e2) in
  db b1 = db b
  /\ (exists m, snd (step b e1) = [Reply m]
                /\ map (fun c => match c with
                                 | SelectMenu customId _ _ => Some customId
                                 | ButtonRow _ => None
                                 end) (components m)
                   = [Some (day_menu_id mode (maxRankDiff_of diff))])
  /\ t_sessions (db b2)
     = t_sessions (db b)
       ++ [ {| sessions.id := seq_sessions (db b) + 1;
               sessions.creator_id := user_id (interaction e1);
               sessions.guild_id := guild (interaction e1);
               sessions.channel_id := channel (interaction e1);
               sessions.game_mode := mode;
               sessions.scheduled_time :=
                 scheduled_for (now e2) (default "undefined" (head values));
               sessions.timezone := timezone_of (db b) (user_id (interaction e1));
               sessions.description := default "" descr;
               sessions.max_rank_diff :=
                 if 0 <=? maxRankDiff_of diff then Some (maxRankDiff_of diff)
                 else None;
               sessions.status := "open";
               sessions.message_id := "" |} ]
  /\ step b2 e3
     = (b2, [Reply (text
          "Session creation expired. Please try `/create-session` again!")]).
Proof.
  intros K1 Hmode K2 K3 U2 U3 b1 b2.
  rewrite (day_menu_id_read _ _ Hmode) in K2, K3.
  assert (E1 : b1 =
    {| db := db b;
       tempSessionData :=
         Some (<[user_id (interaction e1) :=
                 {| gameMode := mode; ts_description := default "" descr;
                    maxRankDiff := maxRankDiff_of diff;
                    userTimezone := timezone_of (db b) (user_id (interaction e1));
                    guildId := guild (interaction e1);
                    channelId := channel (interaction e1) |}]>
               (default ∅ (tempSessionData b))) |}).
  { unfold b1, step. rewrite K1. reflexivity. }
  split; [rewrite E1; reflexivity|].
  split.
  { unfold step. rewrite K1. eexists. split; reflexivity. }
  assert (E2 : b2 =
    {| db := with_sessions
         (t_sessions (db b)
          ++ [ {| sessions.id := seq_sessions (db b) + 1;
                  sessions.creator_id := user_id (interaction e1);
                  sessions.guild_id := guild (interaction e1);
                  sessions.channel_id := channel (interaction e1);
                  sessions.game_mode := mode;
                  sessions.scheduled_time :=
                    scheduled_for (now e2) (default "undefined" (head values));
                  sessions.timezone := timezone_of (db b) (user_id (interaction e1));
                  sessions.description := default "" descr;
                  sessions.max_rank_diff :=
                    if 0 <=? maxRankDiff_of diff then Some (maxRankDiff_of diff)
                    else None;
                  sessions.status := "open";
                  sessions.message_id := "" |} ])
         (seq_sessions (db b) + 1) (db b);
       tempSessionData :=
         Some (delete (user_id (interaction e1))
                 (<[user_id (interaction e1) :=
                    {| gameMode := mode; ts_description := default "" descr;
                       maxRankDiff := maxRankDiff_of diff;
                       userTimezone := timezone_of (db b) (user_id (interaction e1));
                       guildId := guild (interaction e1);
                       channelId := channel (interaction e1) |}]>
                  (default ∅ (tempSessionData b)))) |}).
  { unfold b2, step. rewrite K2, E1. unfold handleSelectMenu.
    cbn [tempSessionData db]. rewrite U2, lookup_insert_eq. reflexivity. }
  split; [rewrite E2; reflexivity|].
  unfold step. rewrite K3, E2. unfold handleSelectMenu.
  cbn [tempSessionData db]. rewrite U3, lookup_delete_eq. reflexivity.
Qed.

Lemma day_menu_creates_one_session_witness :
  let create diff :=
    at_time 2000 (carol (ChatInputCommand (create_session "6v6" None (Some diff)))) in
  let choose diff :=
    at_time 3000 (carol (StringSelectMenu (day_menu_id "6v6" diff) ["Today"])) in
  let after diff diff' :=
    fst (step (fst (step new_bot (create diff))) (choose diff')) in
  map sessions.max_rank_diff (t_sessions (db (after 0 5))) = [Some 5]
  /\ map sessions.max_rank_diff (t_sessions (db (after (-3) (-3)))) = [None]
  /\ map sessions.id (t_sessions (db (after (-3) (-3)))) = [1]
  /\ fst (step (after (-3) (-3)) (choose (-3))) = after (-3) (-3).
Proof.
  intros create choose after.
  destruct (day_menu_creates_one_session new_bot (create 0) (choose 5) (choose 5)
              "6v6" None (Some 0) ["Today"] ["Today"]
              eq_refl eq_refl eq_refl eq_refl eq_refl eq_refl) as (_ & _ & H2 & _).
  destruct (day_menu_creates_one_session new_bot (create (-3)) (choose (-3))
              (choose (-3)) "6v6" None (Some (-3)) ["Today"] ["Today"]
              eq_refl eq_refl eq_refl eq_refl eq_refl eq_refl) as (_ & _ & H2' & H3').
  cbv zeta in H2, H2', H3'. fold (after 0 5) in H2. fold (after (-3) (-3)) in H2', H3'.
  rewrite H2, H2', H3'. repeat split; reflexivity.
Defined.

(** ** Streaming flag, again *)

Lemma set_streaming_same (q : session_queue.row) :
  session_queue.set_streaming (session_queue.is_streaming q) q = q.
Proof. destruct q; reflexivity. Qed.

Lemma entries_singleton (l : list session_queue.row) (sessionId : Z)
    (userId : string) (q x : session_queue.row) :
  List.filter (queue_match sessionId userId) l = [q] ->
  In x l -> queue_match sessionId userId x = true -> x = q.
Proof.
  intros Hf Hin Hm.
  assert (H : In x (List.filter (queue_match sessionId userId) l))
    by (apply List.filter_In; auto).
  rewrite Hf in H. destruct H as [H|[]]. auto.
Qed.

Lemma with_session_queue_twice (l1 l2 : list session_queue.row) (n1 n2 : Z)
    (d : Database) :
  with_session_queue l2 n2 (with_session_queue l1 n1 d) = with_session_queue l2 n2 d.
Proof. reflexivity. Qed.

(** X7. For a user with exactly one queue row in the session, a toggle of
    the own streaming flag flips the flag of that row and changes no other
    row of the queue and no participant row; a second toggle restores the
    database. *)
Theorem toggle_stream_twice_restores (b : Bot) (e : Event) (sessionId : Z)
    (q : session_queue.row) :
  entries_of (db b) sessionId (user_id (interaction e)) = [q] ->
  let userId := user_id (interaction e) in
  let b1 := fst (handleToggleStream b e sessionId userId) in
  entries_of (db b1) sessionId userId
    = [session_queue.set_streaming (negb (session_queue.is_streaming q)) q]
  /\ (forall x, In x (t_session_queue (db b)) ->
        queue_match sessionId userId x = false -> In x (t_session_queue (db b1)))
  /\ length (t_session_queue (db b1)) = length (t_session_queue (db b))
  /\ t_session_participants (db b1) = t_session_participants (db b)
  /\ db (fst (handleToggleStream b1 e sessionId userId)) = db b.
Proof.
  intros Hq userId b1.
  assert (Hown : forall b', handleToggleStream b' e sessionId userId
     = match get_queue_entry (db b') sessionId userId with
       | Some queueEntry =>
           let d' := with_session_queue
             (map (fun x => if queue_match sessionId userId x
                            then session_queue.set_streaming
                                   (negb (session_queue.is_streaming queueEntry)) x
                            else x) (t_session_queue (db b')))
             (seq_session_queue (db b')) (db b') in
           (with_db d' b',
            Reply (text (stream_message
                           (negb (session_queue.is_streaming queueEntry))))
            :: updateSessionMessage d' (discord e) sessionId)
       | None => handleToggleStream b' e sessionId userId
       end).
  { intros b'. unfold handleToggleStream. fold userId.
    rewrite String.eqb_refl. cbn [negb].
    destruct (get_queue_entry (db b') sessionId userId); reflexivity. }
  fold userId in Hq.
  assert (Hget : get_queue_entry (db b) sessionId userId = Some q).
  { unfold get_queue_entry. fold (entries_of (db b) sessionId userId).
    rewrite Hq. reflexivity. }
  assert (Hm : queue_match sessionId userId q = true).
  { assert (Hin : In q (entries_of (db b) sessionId userId))
      by (rewrite Hq; left; reflexivity).
    apply List.filter_In in Hin. tauto. }
  set (flip := fun (s : bool) (x : session_queue.row) =>
                 if queue_match sessionId userId x
                 then session_queue.set_streaming s x else x).
  assert (Hflip : forall s x,
            session_queue.session_id (flip s x) = session_queue.session_id x
            /\ session_queue.user_id (flip s x) = session_queue.user_id x).
  { intros s x. unfold flip. destruct (queue_match _ _ x); auto. }
  assert (E1 : db b1 = with_session_queue
                 (map (flip (negb (session_queue.is_streaming q)))
                      (t_session_queue (db b)))
                 (seq_session_queue (db b)) (db b)).
  { unfold b1. rewrite Hown, Hget. reflexivity. }
  assert (He1 : entries_of (db b1) sessionId userId
                = [session_queue.set_streaming (negb (session_queue.is_streaming q)) q]).
  { rewrite E1. unfold entries_of. cbn [t_session_queue with_session_queue].
    rewrite (entries_of_map _ _ _ _ (Hflip _)).
    fold (entries_of (db b) sessionId userId). rewrite Hq.
    cbn [map]. unfold flip. rewrite Hm. reflexivity. }
  split; [exact He1|]. split; [|split; [|split]].
  - intros x Hx Hmx. rewrite E1. cbn [t_session_queue with_session_queue].
    apply List.in_map_iff. exists x. split; [|exact Hx]. unfold flip. rewrite Hmx.
    reflexivity.
  - rewrite E1. cbn [t_session_queue with_session_queue]. apply length_map.
  - rewrite E1. reflexivity.
  - assert (Hget1 : get_queue_entry (db b1) sessionId userId
        = Some (session_queue.set_streaming (negb (session_queue.is_streaming q)) q)).
    { unfold get_queue_entry. fold (entries_of (db b1) sessionId userId).
      rewrite He1. reflexivity. }
    rewrite Hown, Hget1. cbn [fst db with_db]. rewrite E1.
    cbn [t_session_queue seq_session_queue with_session_queue
         session_queue.is_streaming session_queue.set_streaming].
    rewrite with_session_queue_twice, negb_involutive.
    transitivity (with_session_queue (t_session_queue (db b))
                    (seq_session_queue (db b)) (db b));
      [|apply with_session_queue_same].
    f_equal.
    transitivity (map (fun x => x) (t_session_queue (db b))); [|apply List.map_id].
    rewrite List.map_map.
    apply List.map_ext_in. intros x Hx.
    unfold flip. destruct (queue_match sessionId userId x) eqn:Hmx;
      [|rewrite Hmx; reflexivity].
    assert (Hm' : queue_match sessionId userId
              (session_queue.set_streaming (negb (session_queue.is_streaming q)) x) = true)
      by exact Hmx.
    rewrite Hm'.
    rewrite (entries_singleton _ _ _ q x Hq Hx Hmx). destruct q; reflexivity.
Qed.

Lemma toggle_stream_twice_restores_witness :
  let e := at_time 6000 (alice (Button (btn_toggle_stream 1 "1001"))) in
  map session_queue.is_streaming
      (entries_of (db (fst (handleToggleStream alice_queued e 1 "1001"))) 1 "1001")
    = [true]
  /\ db (fst (handleToggleStream (fst (handleToggleStream alice_queued e 1 "1001"))
                                 e 1 "1001"))
     = db alice_queued.
Proof.
  intros e.
  destruct (toggle_stream_twice_restores alice_queued e 1
              (fresh_entry (run new_bot session_created) quick_join_any 1 1 ["Any"])
              eq_refl) as (H1 & _ & _ & _ & H5).
  split; [|exact H5].
  change (user_id (interaction e)) with "1001" in H1. rewrite H1. reflexivity.
Defined.

(** ** Leaving and joining, again *)

Lemma filter_filter_negb {A} (f : A -> bool) (l : list A) :
  List.filter f (List.filter (fun x => negb (f x)) l) = [].
Proof.
  induction l as [|x l IH]; simpl; [reflexivity|].
  destruct (f x) eqn:Hf; simpl; [exact IH|]. rewrite Hf. exact IH.
Qed.

Lemma queue_match_other (sessionId sessionId' : Z) (userId userId' : string)
    (q : session_queue.row) :
  sessionId' <> sessionId \/ userId' <> userId ->
  queue_match sessionId' userId' q = true ->
  queue_match sessionId userId q = false.
Proof.
  intros Hne Hm. apply queue_match_inv in Hm as [<- <-].
  unfold queue_match.
  destruct (Z.eqb_spec (session_queue.session_id q) sessionId);
    destruct (String.eqb_spec (session_queue.user_id q) userId); try reflexivity.
  destruct Hne; congruence.
Qed.

Lemma entries_of_other_kept (l : list session_queue.row)
    (sessionId sessionId' : Z) (userId userId' : string) :
  sessionId' <> sessionId \/ userId' <> userId ->
  List.filter (queue_match sessionId' userId')
    (List.filter (fun q => negb (queue_match sessionId userId q)) l)
  = List.filter (queue_match sessionId' userId') l.
Proof.
  intros Hne. induction l as [|q l IH]; simpl; [reflexivity|].
  destruct (queue_match sessionId' userId' q) eqn:Hm.
  - rewrite (queue_match_other _ _ _ _ q Hne Hm). simpl. rewrite Hm, IH. reflexivity.
  - destruct (queue_match sessionId userId q); simpl; rewrite ?Hm; exact IH.
Qed.

(** X8. Leaving the queue, by the command or by the button, removes the
    caller's rows of that session and nothing else: afterwards the caller
    has no entry there, the entries of every other session or user are the
    ones before in the same order, and sessions and participants are as
    they were.  The two paths leave the same state. *)
Theorem leave_queue_removes_only_caller (b : Bot) (e : Event) (sessionId : Z) :
  let userId := user_id (interaction e) in
  let b' := fst (handleLeaveQueue b e sessionId) in
  entries_of (db b') sessionId userId = []
  /\ (forall sessionId' userId',
        sessionId' <> sessionId \/ userId' <> userId ->
        entries_of (db b') sessionId' userId' = entries_of (db b) sessionId' userId')
  /\ t_sessions (db b') = t_sessions (db b)
  /\ t_session_participants (db b') = t_session_participants (db b)
  /\ fst (handleLeaveQueueButton b e sessionId) = b'.
Proof.
  intros userId b'.
  assert (E : db b' = with_session_queue
                (List.filter (fun q => negb (queue_match sessionId userId q))
                             (t_session_queue (db b)))
                (seq_session_queue (db b)) (db b)).
  { unfold b', handleLeaveQueue, delete_queue_entry. cbv zeta.
    destruct (_ =? 0); reflexivity. }
  split; [|split; [|split; [|split]]].
  - rewrite E. apply filter_filter_negb.
  - intros sessionId' userId' Hne. rewrite E. apply entries_of_other_kept. exact Hne.
  - rewrite E. reflexivity.
  - rewrite E. reflexivity.
  - unfold b', handleLeaveQueue, handleLeaveQueueButton, delete_queue_entry. cbv zeta.
    destruct (_ =? 0); reflexivity.
Qed.

(** X9. Joining and then leaving is a round trip on the queue: for a user
    without an entry, the join followed by the leave command of the same
    user gives back the queue table as it was, with the row counter
    advanced by one, and the leave is answered with success. *)
Theorem join_then_leave_restores_queue (b : Bot) (e1 e2 : Event)
    (sessionId accountId : Z) (roles : list string) :
  user_id (interaction e2) = user_id (interaction e1) ->
  get_queue_entry (db b) sessionId (user_id (interaction e1)) = None ->
  let b1 := fst (joinWithAccount b e1 sessionId accountId roles) in
  let r := handleLeaveQueue b1 e2 sessionId in
  t_session_queue (db (fst r)) = t_session_queue (db b)
  /\ seq_session_queue (db (fst r)) = seq_session_queue (db b) + 1
  /\ replies (snd r)
     = [Reply (text ("Left the queue for session #" +:+ pretty sessionId +:+ "."))].
Proof.
  intros Hu Hq b1 r.
  assert (Hnone := head_filter_none _ _ Hq).
  assert (Hm := queue_match_fresh b e1 sessionId accountId roles).
  assert (E1 : db b1 = with_session_queue
     (t_session_queue (db b) ++ [fresh_entry b e1 sessionId accountId roles])
     (seq_session_queue (db b) + 1) (db b)).
  { unfold b1. rewrite (joinWithAccount_fresh _ _ _ _ _ Hq). reflexivity. }
  assert (Hd : delete_queue_entry (db b1) sessionId (user_id (interaction e2))
               = (with_session_queue (t_session_queue (db b))
                    (seq_session_queue (db b) + 1) (db b), 1)).
  { unfold delete_queue_entry. rewrite Hu, E1.
    cbn [t_session_queue seq_session_queue with_session_queue].
    rewrite !List.filter_app, Hnone, (filter_negb_none _ _ Hnone). cbn [List.filter].
    rewrite Hm. cbn [negb app]. rewrite app_nil_r. reflexivity. }
  unfold r, handleLeaveQueue. rewrite Hd. cbn [Z.eqb fst snd db with_db].
  split; [reflexivity|]. split; [reflexivity|].
  rewrite replies_cons, replies_updateSessionMessage. reflexivity.
Qed.

Lemma join_then_leave_restores_queue_witness :
  let b := run new_bot session_created in
  let leave := at_time 6000 (alice (ChatInputCommand (leave_queue 1))) in
  t_session_queue
    (db (fst (handleLeaveQueue (fst (joinWithAccount b quick_join_any 1 1 ["Any"]))
                               leave 1))) = []
  /\ seq_session_queue
       (db (fst (handleLeaveQueue (fst (joinWithAccount b quick_join_any 1 1 ["Any"]))
                                  leave 1))) = 1.
Proof.
  intros b leave.
  destruct (join_then_leave_restores_queue b quick_join_any leave 1 1 ["Any"]
              eq_refl eq_refl) as (H1 & H2 & _).
  split; [exact H1|exact H2].
Defined.

(** ** Merging roles *)

Lemma includes_In (l : list string) (x : string) :
  includes l x = true <-> In x l.
Proof.
  unfold includes. rewrite List.existsb_exists. split.
  - intros (y & Hy & E). apply String.eqb_eq in E. subst. exact Hy.
  - intros H. exists x. split; [exact H|apply String.eqb_refl].
Qed.

Lemma uniq_from_In (seen l : list string) (x : string) :
  In x (uniq_from seen l) <-> In x l /\ ~ In x seen.
Proof.
  revert seen. induction l as [|y l IH]; intros seen; simpl; [tauto|].
  destruct (includes seen y) eqn:Hy.
  - apply includes_In in Hy. rewrite IH. split.
    + tauto.
    + intros [[->|H] Hn]; [contradiction|tauto].
  - assert (Hn : ~ In y seen).
    { intros H. apply includes_In in H. congruence. }
    simpl. rewrite IH. simpl. split.
    + intros [->|[H1 H2]]; [tauto|tauto].
    + intros [[->|H] Hs]; [tauto|].
      destruct (String.eqb_spec y x) as [->|Hne]; [tauto|]. right. tauto.
Qed.

Lemma uniq_from_NoDup (seen l : list string) : List.NoDup (uniq_from seen l).
Proof.
  revert seen. induction l as [|y l IH]; intros seen; simpl; [constructor|].
  destruct (includes seen y); [apply IH|].
  constructor; [|apply IH].
  rewrite uniq_from_In. simpl. tauto.
Qed.

Lemma uniq_from_absorbs (seen l r : list string) :
  List.NoDup l -> (forall x, In x l -> ~ In x seen) ->
  (forall y, In y r -> In y l \/ In y seen) ->
  uniq_from seen (l ++ r) = l.
Proof.
  revert seen. induction l as [|x l IH]; intros seen Hnd Hdis Hsub; simpl.
  - induction r as [|y r IHr]; simpl; [reflexivity|].
    assert (Hy : includes seen y = true).
    { apply includes_In. destruct (Hsub y (or_introl eq_refl)) as [[]|H]. exact H. }
    rewrite Hy. apply IHr. intros z Hz. apply Hsub. right. exact Hz.
  - inversion Hnd as [|? ? Hx Hnd']; subst.
    assert (Hn : includes seen x = false).
    { destruct (includes seen x) eqn:E; [|reflexivity].
      apply includes_In in E. exfalso. apply (Hdis x); [left; reflexivity|exact E]. }
    rewrite Hn. f_equal. apply IH; [exact Hnd'| |].
    + intros z Hz [->|Hs]; [contradiction|]. apply (Hdis z); [right; exact Hz|exact Hs].
    + intros y Hy. destruct (Hsub y Hy) as [[->|H]|H]; simpl; tauto.
Qed.

(** X10. A join by a user who already has one entry merges in place: the
    user still has one row, which keeps its id, timestamp and streaming
    flag, holds the account of the new join, and whose roles are the stored
    roles followed by the new ones without repetition: a list without
    duplicates whose members are those of either list; the answer names
    these roles.  When the stored roles have no duplicates and already
    contain the new ones the roles stay as they are.  No row is added and
    the rows of other sessions and users are untouched. *)
Theorem join_existing_merges_in_place (b : Bot) (e : Event)
    (sessionId accountId : Z) (roles : list string) (q : session_queue.row) :
  entries_of (db b) sessionId (user_id (interaction e)) = [q] ->
  let b' := fst (joinWithAccount b e sessionId accountId roles) in
  let newRoles := array_from_set (session_queue.preferred_roles q ++ roles) in
  (exists q', entries_of (db b') sessionId (user_id (interaction e)) = [q']
              /\ session_queue.preferred_roles q' = newRoles
              /\ session_queue.account_id q' = accountId
              /\ session_queue.id q' = session_queue.id q
              /\ session_queue.joined_at q' = session_queue.joined_at q
              /\ session_queue.is_streaming q' = session_queue.is_streaming q)
  /\ replies (snd (joinWithAccount b e sessionId accountId roles))
     = [Reply (text (":white_check_mark: Updated queue entry! Now queued for: **"
                     +:+ join ", " newRoles +:+ "**"))]
  /\ List.NoDup newRoles
  /\ (forall r, In r newRoles <-> In r (session_queue.preferred_roles q) \/ In r roles)
  /\ (List.NoDup (session_queue.preferred_roles q) ->
      (forall r, In r roles -> In r (session_queue.preferred_roles q)) ->
      newRoles = session_queue.preferred_roles q)
  /\ length (t_session_queue (db b')) = length (t_session_queue (db b))
  /\ (forall sessionId' userId',
        sessionId' <> sessionId \/ userId' <> user_id (interaction e) ->
        entries_of (db b') sessionId' userId' = entries_of (db b) sessionId' userId').
Proof.
  intros Hq b' newRoles.
  set (userId := user_id (interaction e)) in *.
  assert (Hget : get_queue_entry (db b) sessionId userId = Some q).
  { unfold get_queue_entry. fold (entries_of (db b) sessionId userId).
    rewrite Hq. reflexivity. }
  assert (Hm : queue_match sessionId userId q = true).
  { assert (Hin : In q (entries_of (db b) sessionId userId))
      by (rewrite Hq; left; reflexivity).
    apply List.filter_In in Hin. tauto. }
  set (upd := fun x : session_queue.row =>
                if queue_match sessionId userId x
                then session_queue.set_roles_account newRoles accountId x else x).
  assert (Hupd : forall x,
            session_queue.session_id (upd x) = session_queue.session_id x
            /\ session_queue.user_id (upd x) = session_queue.user_id x).
  { intros x. unfold upd. destruct (queue_match _ _ x); auto. }
  assert (E : db b' = with_session_queue (map upd (t_session_queue (db b)))
                        (seq_session_queue (db b)) (db b)).
  { unfold b', joinWithAccount, joinWithAccount_write. fold userId. rewrite Hget. reflexivity. }
  split; [|split; [|split; [|split; [|split; [|split]]]]].
  - exists (session_queue.set_roles_account newRoles accountId q).
    split; [|repeat split].
    rewrite E. unfold entries_of. cbn [t_session_queue with_session_queue].
    rewrite (entries_of_map _ _ _ _ Hupd).
    fold (entries_of (db b) sessionId userId). rewrite Hq. cbn [map].
    unfold upd. rewrite Hm. reflexivity.
  - unfold joinWithAccount, joinWithAccount_write. fold userId. rewrite Hget.
    cbn [snd]. rewrite replies_cons, replies_updateSessionMessage. reflexivity.
  - apply uniq_from_NoDup.
  - intros r. unfold newRoles, array_from_set. rewrite uniq_from_In, List.in_app_iff.
    simpl. tauto.
  - intros Hnd Hsub. apply uniq_from_absorbs; [exact Hnd|auto|auto].
  - rewrite E. cbn [t_session_queue with_session_queue]. apply length_map.
  - intros sessionId' userId' Hne. rewrite E. unfold entries_of.
    cbn [t_session_queue with_session_queue].
    rewrite (entries_of_map _ _ _ _ Hupd).
    transitivity (map (fun x => x)
                    (List.filter (queue_match sessionId' userId') (t_session_queue (db b))));
      [|apply List.map_id].
    apply List.map_ext_in. intros x Hx. apply List.filter_In in Hx as [_ Hx].
    unfold upd. rewrite (queue_match_other _ _ _ _ x Hne Hx). reflexivity.
Qed.

Lemma join_existing_merges_in_place_witness :
  let again := at_time 9000 (alice (Button (btn_quick_join 1 "Tank"))) in
  let b' := fst (joinWithAccount alice_queued again 1 7 ["Tank"; "Any"]) in
  map (fun q => (session_queue.id q, session_queue.account_id q,
                 session_queue.preferred_roles q, session_queue.joined_at q))
      (entries_of (db b') 1 "1001")
  = [(1, 7, ["Any"; "Tank"], 5000)]
  /\ replies (snd (joinWithAccount alice_queued again 1 7 ["Tank"; "Any"]))
     = [Reply (text
          ":white_check_mark: Updated queue entry! Now queued for: **Any, Tank**")].
Proof.
  intros again b'.
  destruct (join_existing_merges_in_place alice_queued again 1 7 ["Tank"; "Any"]
              (fresh_entry (run new_bot session_created) quick_join_any 1 1 ["Any"])
              eq_refl) as ((q' & H1 & Hr & Ha & Hi & Hj & _) & H2 & _).
  change (user_id (interaction again)) with "1001" in H1.
  fold b' in H1. rewrite H1, H2. cbn [map]. rewrite Hr, Ha, Hi, Hj.
  split; reflexivity.
Defined.

(** ** Buttons of the session message *)

Lemma In_take {A} (n : nat) (l : list A) (x : A) : In x (take n l) -> In x l.
Proof.
  revert l. induction n as [|n IH]; intros [|y l]; simpl; try tauto.
  intros [->|H]; auto.
Qed.

(** X11. The Toggle Streaming button that [createSessionButtons] builds
    carries the literal text {USER_ID} as its user, which
    [handleToggleStream] compares with the id of the presser: for every
    user with another id a press of the button the bot built is refused
    and changes nothing.  The only buttons of the first row are quick
    joins for the roles of the session's mode. *)
Theorem built_toggle_button_refused (d : Database) (sessionId : Z)
    (rows : list Component) (buttons : list ButtonId) (sessionId' : Z)
    (userId : string) (b : Bot) (e : Event) :
  createSessionButtons d sessionId = Resolve rows ->
  In (ButtonRow buttons) rows ->
  In (btn_toggle_stream sessionId' userId) buttons ->
  user_id (interaction e) <> "{USER_ID}" ->
  sessionId' = sessionId /\ userId = "{USER_ID}"
  /\ step b (with_kind (Button (btn_toggle_stream sessionId' userId)) e)
     = (b, [Reply (text "You can only toggle your own streaming status!")]).
Proof.
  intros Hrows Hrow Hbtn Hu. unfold createSessionButtons in Hrows.
  destruct (get_session d sessionId) as [s|].
  - destruct (get gameModes (sessions.game_mode s)) as [mode|]; [|discriminate].
    injection Hrows as <-.
    assert (Hid : sessionId' = sessionId /\ userId = "{USER_ID}").
    { destruct Hrow as [Hrow|[Hrow|[Hrow|[]]]]; injection Hrow as <-.
      - exfalso. apply In_take in Hbtn.
        apply List.in_map_iff in Hbtn as ([r c] & Hbtn & _). discriminate.
      - cbn in Hbtn. intuition discriminate.
      - destruct Hbtn as [Hbtn|[]]. injection Hbtn as <- <-. auto. }
    destruct Hid as [-> ->]. split; [reflexivity|]. split; [reflexivity|].
    unfold step, handleButton, handleToggleStream. cbn [with_kind interaction kind user_id].
    destruct (String.eqb_spec "{USER_ID}" (user_id (interaction e))) as [E|_];
      [congruence|reflexivity].
  - injection Hrows as <-. destruct Hrow.
Qed.

Lemma built_toggle_button_refused_witness :
  step alice_queued
    (with_kind (Button (btn_toggle_stream 1 "{USER_ID}")) quick_join_any)
  = (alice_queued, [Reply (text "You can only toggle your own streaming status!")]).
Proof.
  destruct (built_toggle_button_refused (db alice_queued) 1
              [ButtonRow [btn_quick_join 1 "Any"];
               ButtonRow [btn_join_queue 1; btn_leave_queue 1;
                          btn_refresh_session 1; btn_manage_session 1];
               ButtonRow [btn_toggle_stream 1 "{USER_ID}"]]
              [btn_toggle_stream 1 "{USER_ID}"] 1 "{USER_ID}"
              alice_queued quick_join_any) as (_ & _ & H).
  - reflexivity.
  - right. right. left. reflexivity.
  - left. reflexivity.
  - discriminate.
  - exact H.
Defined.

(** ** Posting and resync *)

(** X12. The chain that posts a new session never gets as far as sending:
    it always ends with one logged error or one uncaught exception, and
    [message_id] stays empty.  So in every state the bot reaches from the
    empty database no session is bound to a message, and the resync of any
    session does nothing, whatever the Discord side does. *)
Theorem session_message_never_posted (runs : list (list Event)) (d : Database)
    (w : Discord) (sessionId : Z) (channelId : string) :
  ((exists error, post_session d w sessionId channelId
                  = [ConsoleError "Error posting session:" error])
   \/ (exists error, post_session d w sessionId channelId = [Uncaught error]))
  /\ Forall (fun s => sessions.message_id s = "") (t_sessions (db (lifetime runs)))
  /\ updateSessionMessage (db (lifetime runs)) w sessionId = [].
Proof.
  split; [|split].
  - unfold post_session, mbind, Completion_bind.
    destruct (await (createSessionEmbed d sessionId)); [|eauto|eauto].
    destruct (await (createSessionButtons d sessionId)); [|eauto|eauto].
    destruct (await_settled (channels_fetch w channelId)); eauto.
  - apply (lifetime_invariant
             (fun d => Forall (fun s => sessions.message_id s = "") (t_sessions d)));
      [constructor|].
    intros b e H. apply (run_unbound [e] b H).
  - apply lifetime_resync_silent.
Qed.

(** X13. The resync edits at most one message, and only the one the
    session is bound to, after both fetches and the edit were fulfilled;
    for a session that is absent or not bound it has no effect at all.
    When the mode is known and Discord fulfils every call, the effect is
    exactly one edit carrying the embed and the buttons rendered from the
    database. *)
Theorem resync_edits_only_bound_message (d : Database) (w : Discord)
    (sessionId : Z) :
  (length (List.filter is_edit (updateSessionMessage d w sessionId)) <= 1)%nat
  /\ (forall channelId messageId m,
        In (MessageEdit channelId messageId m) (updateSessionMessage d w sessionId) ->
        exists s,
          get_session d sessionId = Some s
          /\ channelId = sessions.channel_id s
          /\ messageId = sessions.message_id s /\ messageId <> ""
          /\ channels_fetch w channelId = Fulfilled
          /\ messages_fetch w channelId messageId = Fulfilled
          /\ message_edit w channelId messageId = Fulfilled
          /\ exists embed rows,
               createSessionEmbed d sessionId = Resolve embed
               /\ createSessionButtons d sessionId = Resolve rows
               /\ m = {| content := ""; embeds := [embed]; components := rows |})
  /\ (get_session d sessionId = None -> updateSessionMessage d w sessionId = [])
  /\ (forall s, get_session d sessionId = Some s ->
        (sessions.message_id s = "" -> updateSessionMessage d w sessionId = [])
        /\ (sessions.message_id s <> "" ->
            is_Some (get gameModes (sessions.game_mode s)) ->
            channels_fetch w (sessions.channel_id s) = Fulfilled ->
            messages_fetch w (sessions.channel_id s) (sessions.message_id s) = Fulfilled ->
            message_edit w (sessions.channel_id s) (sessions.message_id s) = Fulfilled ->
            exists m, updateSessionMessage d w sessionId
                      = [MessageEdit (sessions.channel_id s) (sessions.message_id s) m])).
Proof.
  unfold updateSessionMessage.
  destruct (get_session d sessionId) as [s|] eqn:Hs.
  2:{ split; [simpl; lia|]. split; [intros ? ? ? []|]. split; [reflexivity|].
      intros s [=]. }
  destruct (String.eqb_spec (sessions.message_id s) "") as [Hb|Hb].
  { unfold truthy_s. rewrite Hb. simpl.
    split; [lia|]. split; [intros ? ? ? []|]. split; [discriminate|].
    intros s' [= <-]. split; [reflexivity|]. intros Hne. contradiction. }
  assert (Ht : truthy_s (sessions.message_id s) = true).
  { unfold truthy_s. destruct (String.eqb_spec (sessions.message_id s) "");
      [contradiction|reflexivity]. }
  rewrite Ht. cbn [negb].
  unfold mbind, Completion_bind, mret, Completion_ret, try_catch, await_settled, await.
  destruct (channels_fetch w (sessions.channel_id s)) as [|r1] eqn:E1;
  destruct (messages_fetch w (sessions.channel_id s) (sessions.message_id s))
    as [|r2] eqn:E2;
  destruct (createSessionEmbed d sessionId) as [embed|r3|r3] eqn:E3;
  destruct (createSessionButtons d sessionId) as [rows|r4|r4] eqn:E4;
  destruct (message_edit w (sessions.channel_id s) (sessions.message_id s))
    as [|r5] eqn:E5;
  (split; [simpl; lia|]);
  (split; [intros channelId messageId m Hin; simpl in Hin;
           try (destruct Hin as [Hin|[]]; try discriminate Hin);
           try contradiction;
           injection Hin as <- <- <-;
           exists s; repeat split; auto; eauto|]);
  (split; [discriminate|]);
  intros s' [= <-]; (split; [intros Hne; contradiction|]);
  intros _ Hmode F1 F2 F3; try discriminate;
  try (destruct (createSessionEmbed_known _ _ _ Hs Hmode) as [x Hx]; congruence);
  try (destruct (createSessionButtons_known _ _ _ Hs Hmode) as [x Hx]; congruence);
  eexists; reflexivity.
Qed.

(** X14. The interactions that only show something: edit-account,
    join-queue, manage-session, view-sessions and my-profile, the Join
    Queue, Refresh, Manage Team, Set Rank and Edit Profile buttons, and
    every select menu other than the preferred-roles and the day menu -
    leave the database and the drafts exactly as they were. *)
Theorem read_only_interactions_write_nothing (b : Bot) (e : Event) :
  read_only (kind (interaction e)) = true -> fst (step b e) = b.
Proof.
  intros H. unfold step.
  destruct (kind (interaction e)) as [c|customId|customId values];
    [destruct c|destruct customId|destruct customId]; try discriminate H;
    unfold_handlers; head_cases; reflexivity.
Qed.

Lemma read_only_interactions_write_nothing_witness :
  fst (step alice_queued (at_time 7000 (carol (ChatInputCommand (manage_session 1)))))
  = alice_queued
  /\ fst (step alice_queued
            (at_time 7000 (carol (StringSelectMenu (select_player 1 "Any") ["1001-1"]))))
     = alice_queued.
Proof.
  split; apply read_only_interactions_write_nothing; reflexivity.
Defined.

(** ** Profiles *)

Lemma users_without (userId : string) (l : list users.row) :
  List.NoDup (map users.discord_id l) ->
  List.NoDup (map users.discord_id
    (List.filter (fun usr => negb (String.eqb (users.discord_id usr) userId)) l))
  /\ ~ In userId (map users.discord_id
         (List.filter (fun usr => negb (String.eqb (users.discord_id usr) userId)) l))
  /\ (forall x, In x (map users.discord_id
         (List.filter (fun usr => negb (String.eqb (users.discord_id usr) userId)) l)) ->
       In x (map users.discord_id l)).
Proof.
  induction l as [|x l IH]; simpl; intros Hnd.
  - split; [constructor|]. tauto.
  - inversion Hnd as [|? ? Hx Hnd']; subst.
    destruct (IH Hnd') as (I1 & I2 & I3).
    destruct (String.eqb_spec (users.discord_id x) userId); simpl.
    + split; [exact I1|]. split; [exact I2|]. intros y Hy. right. auto.
    + split; [constructor; [intros Hy; apply Hx; auto|exact I1]|].
      split; [intros [Hy|Hy]; [congruence|contradiction]|].
      intros y [Hy|Hy]; auto.
Qed.

Lemma step_users_unique (b : Bot) (e : Event) :
  List.NoDup (map users.discord_id (t_users (db b))) ->
  List.NoDup (map users.discord_id (t_users (db (fst (step b e))))).
Proof.
  intros H. unfold_handlers. head_cases; try exact H.
  - (* setup-profile *)
    simpl. rewrite map_app. simpl.
    destruct (users_without (user_id (interaction e)) _ H) as (K1 & K2 & _).
    apply List.NoDup_app; [exact K1|repeat constructor; simpl; tauto|].
    intros x Hx [<-|[]]. contradiction.
  - (* preferred roles *)
    simpl. rewrite List.map_map.
    erewrite List.map_ext; [exact H|].
    intros usr. destruct (String.eqb _ _); reflexivity.
Qed.

(** X15. [/setup-profile] leaves the caller with exactly one profile row:
    the current username, the given timezone (America/New_York when none
    is given) and an empty list of preferred roles, whatever was stored
    before; the rows of other users are kept.  In every state the bot
    reaches from the empty database a user has at most one profile row. *)
Theorem setup_profile_single_fresh_row (runs : list (list Event)) (b : Bot)
    (i : Interaction) (tz : option string) (other : string) :
  let b' := fst (handleSetupProfile b i tz) in
  profiles_of (db b') (user_id i)
    = [ {| users.discord_id := user_id i; users.username := user_username i;
           users.preferred_roles := [];
           users.timezone := or_else (default "" tz) "America/New_York" |} ]
  /\ (other <> user_id i -> profiles_of (db b') other = profiles_of (db b) other)
  /\ List.NoDup (map users.discord_id (t_users (db (lifetime runs)))).
Proof.
  intros b'. unfold b', handleSetupProfile, profiles_of.
  cbn [fst db with_db t_users with_users]. rewrite !List.filter_app. cbn [List.filter].
  cbn [users.discord_id]. rewrite String.eqb_refl.
  split; [|split].
  - rewrite filter_filter_negb. reflexivity.
  - intros Hne. destruct (String.eqb_spec (user_id i) other) as [E|_]; [congruence|].
    rewrite app_nil_r.
    induction (t_users (db b)) as [|x l IH]; simpl; [reflexivity|].
    destruct (String.eqb_spec (users.discord_id x) other) as [Eo|Eo].
    + destruct (String.eqb_spec (users.discord_id x) (user_id i)); [congruence|].
      simpl. destruct (String.eqb_spec (users.discord_id x) other); [|contradiction].
      rewrite IH. reflexivity.
    + destruct (String.eqb (users.discord_id x) (user_id i)); simpl; [exact IH|].
      destruct (String.eqb_spec (users.discord_id x) other); [contradiction|exact IH].
  - apply (lifetime_invariant
             (fun d => List.NoDup (map users.discord_id (t_users d))));
      [constructor|]. intros b0 e. apply step_users_unique.
Qed.

(** ** Accounts, again *)

Lemma step_account_ids_issued (b : Bot) (e : Event) :
  account_ids_issued (db b) -> account_ids_issued (db (fst (step b e))).
Proof.
  unfold account_ids_issued. intros H.
  unfold_handlers. head_cases; try exact H.
  - (* add-account *)
    simpl. apply List.Forall_app. split; [|repeat constructor; simpl; lia].
    assert (H' : Forall (fun a => user_accounts.id a <= seq_user_accounts (db b) + 1)
                        (t_user_accounts (db b))).
    { eapply List.Forall_impl; [|exact H]. intros a Ha. simpl in Ha. lia. }
    destruct (default false is_primary); [|exact H'].
    apply List.Forall_forall. intros x Hx.
    apply List.in_map_iff in Hx as (a & <- & Ha).
    rewrite List.Forall_forall in H'. specialize (H' a Ha).
    destruct (String.eqb _ _); exact H'.
  - (* delete-account *)
    simpl. apply List.Forall_forall. intros x Hx.
    apply List.filter_In in Hx as [Hx _].
    rewrite List.Forall_forall in H. auto.
Qed.

Lemma fresh_id_not_stored (l : list user_accounts.row) (n accountId : Z)
    (f : user_accounts.row -> bool) :
  Forall (fun a => user_accounts.id a <= n) l -> n < accountId ->
  List.filter (fun a => (user_accounts.id a =? accountId) && f a) l = []
  /\ List.filter (fun a => negb (user_accounts.id a =? accountId)) l = l.
Proof.
  intros H Hn. induction H as [|a l Ha _ [I1 I2]]; simpl; [auto|].
  destruct (Z.eqb_spec (user_accounts.id a) accountId); [lia|].
  simpl. rewrite I1, I2. auto.
Qed.

(** X16. In a state the bot reaches from the empty database, an account
    added without the primary flag and then deleted by its owner gives the
    accounts table back as it was, and the owner is answered that the
    account, named between double quotes, is deleted; only the owner can
    delete it: for any other user the delete is answered with 'Account not
    found or not yours!' and changes nothing. *)
Theorem add_then_delete_account_restores (runs : list (list Event))
    (owner other : Interaction) (name : string) (primary : option bool) :
  default false primary = false ->
  user_id other <> user_id owner ->
  let b := lifetime runs in
  let accountId := seq_user_accounts (db b) + 1 in
  let b1 := fst (handleAddAccount b owner name primary) in
  handleDeleteAccount b1 other accountId
    = (b1, [Reply (text "Account not found or not yours!")])
  /\ t_user_accounts (db (fst (handleDeleteAccount b1 owner accountId)))
     = t_user_accounts (db b)
  /\ snd (handleDeleteAccount b1 owner accountId)
     = [Reply (text (":white_check_mark: Deleted account " +:+ dquote +:+ name
                     +:+ dquote +:+ "!"))].
Proof.
  intros Hp Hne b accountId b1.
  assert (Hissued : account_ids_issued (db b)).
  { apply (lifetime_invariant account_ids_issued); [constructor|].
    intros b0 e. apply step_account_ids_issued. }
  set (new := {| user_accounts.id := accountId;
                 user_accounts.discord_id := user_id owner;
                 user_accounts.account_name := name;
                 user_accounts.tank_rank := ""; user_accounts.tank_division := 0;
                 user_accounts.dps_rank := ""; user_accounts.dps_division := 0;
                 user_accounts.support_rank := ""; user_accounts.support_division := 0;
                 user_accounts.is_primary := false |}).
  assert (E1 : db b1 = with_user_accounts (t_user_accounts (db b) ++ [new])
                         accountId (db b)).
  { unfold b1, handleAddAccount. rewrite Hp. reflexivity. }
  assert (Hold : forall (f : user_accounts.row -> bool),
            List.filter (fun a => (user_accounts.id a =? accountId) && f a)
                        (t_user_accounts (db b)) = []
            /\ List.filter (fun a => negb (user_accounts.id a =? accountId))
                           (t_user_accounts (db b)) = t_user_accounts (db b)).
  { intros f. apply (fresh_id_not_stored _ _ accountId f Hissued).
    unfold accountId. lia. }
  split; [|split].
  - unfold handleDeleteAccount. rewrite E1.
    cbn [t_user_accounts with_user_accounts].
    rewrite List.filter_app, (proj1 (Hold _)). cbn [List.filter app].
    cbn [user_accounts.id user_accounts.discord_id new]. rewrite Z.eqb_refl.
    destruct (String.eqb_spec (user_id owner) (user_id other)); [congruence|].
    reflexivity.
  - unfold handleDeleteAccount. rewrite E1.
    cbn [t_user_accounts with_user_accounts].
    rewrite List.filter_app, (proj1 (Hold _)). cbn [List.filter app].
    cbn [user_accounts.id user_accounts.discord_id new].
    rewrite Z.eqb_refl, String.eqb_refl. cbn [andb head fst db with_db].
    cbn [t_user_accounts with_user_accounts].
    rewrite List.filter_app, (proj2 (Hold (fun _ => true))). cbn [List.filter].
    cbn [user_accounts.id new]. rewrite Z.eqb_refl. cbn [negb]. apply app_nil_r.
  - unfold handleDeleteAccount. rewrite E1.
    cbn [t_user_accounts with_user_accounts].
    rewrite List.filter_app, (proj1 (Hold _)). cbn [List.filter app].
    cbn [user_accounts.id user_accounts.discord_id new].
    rewrite Z.eqb_refl, String.eqb_refl. reflexivity.
Qed.

Lemma add_then_delete_account_restores_witness :
  let b := lifetime [session_created] in
  let add := ChatInputCommand (add_account "Alt" None) in
  t_user_accounts
    (db (fst (handleDeleteAccount (fst (handleAddAccount b (alice add) "Alt" None))
                                  (alice add) 2)))
  = t_user_accounts (db b)
  /\ fst (handleDeleteAccount (fst (handleAddAccount b (alice add) "Alt" None))
                              (bob add) 2)
     = fst (handleAddAccount b (alice add) "Alt" None)
  /\ snd (handleDeleteAccount (fst (handleAddAccount b (alice add) "Alt" None))
                              (alice add) 2)
     = [Reply (text (":white_check_mark: Deleted account " +:+ dquote +:+ "Alt"
                     +:+ dquote +:+ "!"))].
Proof.
  intros b add.
  destruct (add_then_delete_account_restores [session_created] (alice add) (bob add)
              "Alt" None eq_refl) as (H1 & H2 & H3); [discriminate|].
  cbv zeta in H1, H2, H3.
  split; [exact H2|]. split; [exact (f_equal fst H1)|exact H3].
Defined.

(** ** Rank texts *)

Lemma formatRank_nonempty (rank : string) (division : Z) :
  formatRank rank division <> "".
Proof.
  unfold formatRank, truthy_s.
  destruct rank as [|c rank]; simpl; [discriminate|].
  destruct (negb (truthy_n division)); discriminate.
Qed.

Lemma or_else_nonempty (a b : string) : a <> "" -> or_else a b = a.
Proof.
  intros H. unfold or_else, truthy_s.
  destruct (String.eqb_spec a ""); [contradiction|reflexivity].
Qed.

(** X17. The rank text of a candidate is never empty.  For Tank, DPS and
    Support it is the formatted rank of that role; for any other role it is
    the formatted rank of one of the three roles whose rank value is the
    highest of the three, Tank before DPS before Support on equal
    values. *)
Theorem rank_description_shows_highest (player : Joined session_queue.row)
    (role : string) :
  let tank := (j_tank_rank player, j_tank_division player) in
  let dps := (j_dps_rank player, j_dps_division player) in
  let support := (j_support_rank player, j_support_division player) in
  let value := fun p : string * Z => getRankValue (fst p) (snd p) in
  let text := fun p : string * Z => formatRank (fst p) (snd p) in
  getPlayerRankDescription player role <> ""
  /\ (role = "Tank" -> getPlayerRankDescription player role = text tank)
  /\ (role = "DPS" -> getPlayerRankDescription player role = text dps)
  /\ (role = "Support" -> getPlayerRankDescription player role = text support)
  /\ (role <> "Tank" -> role <> "DPS" -> role <> "Support" ->
      exists shown,
        getPlayerRankDescription player role = text shown
        /\ value shown = Z.max (Z.max (value tank) (value dps)) (value support)
        /\ ((shown = tank)
            \/ (shown = dps /\ value tank < value dps)
            \/ (shown = support /\ value tank < value support
                /\ value dps < value support))).
Proof.
  cbv zeta. unfold getPlayerRankDescription. cbn [fst snd].
  split; [|split; [|split; [|split]]].
  - repeat match goal with
    | |- context [if ?c then _ else _] => destruct c
    end; rewrite or_else_nonempty; apply formatRank_nonempty.
  - intros ->. cbn. apply or_else_nonempty, formatRank_nonempty.
  - intros ->. cbn. apply or_else_nonempty, formatRank_nonempty.
  - intros ->. cbn. apply or_else_nonempty, formatRank_nonempty.
  - intros H1 H2 H3.
    destruct (String.eqb_spec role "Tank"); [contradiction|].
    destruct (String.eqb_spec role "DPS"); [contradiction|].
    destruct (String.eqb_spec role "Support"); [contradiction|].
    set (vt := getRankValue (j_tank_rank player) (j_tank_division player)).
    set (vd := getRankValue (j_dps_rank player) (j_dps_division player)).
    set (vs := getRankValue (j_support_rank player) (j_support_division player)).
    destruct (Z.eqb_spec (Z.max (Z.max vt vd) vs) vt) as [Et|Et].
    + exists (j_tank_rank player, j_tank_division player). cbn [fst snd].
      split; [apply or_else_nonempty, formatRank_nonempty|]. fold vt. split; [lia|auto].
    + destruct (Z.eqb_spec (Z.max (Z.max vt vd) vs) vd) as [Ed|Ed].
      * exists (j_dps_rank player, j_dps_division player). cbn [fst snd].
        split; [apply or_else_nonempty, formatRank_nonempty|]. fold vd.
        split; [lia|]. right. left. split; [reflexivity|lia].
      * exists (j_support_rank player, j_support_division player). cbn [fst snd].
        split; [apply or_else_nonempty, formatRank_nonempty|]. fold vs.
        split; [lia|]. right. right. split; [reflexivity|lia].
Qed.

Lemma rank_description_shows_highest_witness :
  getPlayerRankDescription
    {| base := queued 2 1 "2002" 2 ["Any"] 100; u := profile "2002" "strong";
       ua := Some {| user_accounts.id := 2; user_accounts.discord_id := "2002";
                     user_accounts.account_name := "Main";
                     user_accounts.tank_rank := "Gold";
                     user_accounts.tank_division := 2;
                     user_accounts.dps_rank := "Diamond";
                     user_accounts.dps_division := 4;
                     user_accounts.support_rank := "";
                     user_accounts.support_division := 0;
                     user_accounts.is_primary := true |} |} "Any"
  = "Diamond 4".
Proof.
  match goal with
  | |- getPlayerRankDescription ?p ?r = _ =>
      destruct (rank_description_shows_highest p r) as (_ & _ & _ & _ & H)
  end.
  specialize (H ltac:(discriminate) ltac:(discriminate) ltac:(discriminate)).
  destruct H as (shown & Ht & Hmax & [->|[[-> _]|[-> [Hv _]]]]).
  - vm_compute in Hmax. discriminate Hmax.
  - exact Ht.
  - vm_compute in Hv. discriminate Hv.
Defined.

Lemma indexOf_absent (l : list string) (x : string) :
  ~ In x l -> indexOf l x = -1.
Proof.
  induction l as [|y l IH]; simpl; intros H; [reflexivity|].
  destruct (String.eqb_spec y x); [tauto|]. rewrite IH by tauto. reflexivity.
Qed.

(** X18. On the tiers and divisions of the rank table [getRankValue] is
    one-to-one and lies between 1 and 75, so the value identifies the rank
    and 0 is never the value of a rank; it is 0 when the rank is empty,
    when the division is 0, and for every tier that is not in the order. *)
Theorem getRankValue_identifies_rank (t1 t2 : string) (d1 d2 : Z) :
  known_rank t1 d1 = true ->
  known_rank t2 d2 = true ->
  1 <= getRankValue t1 d1 <= 75
  /\ (getRankValue t1 d1 = getRankValue t2 d2 -> t1 = t2 /\ d1 = d2)
  /\ (forall d, getRankValue "" d = 0)
  /\ (forall t, getRankValue t 0 = 0)
  /\ (forall t d, ~ In t rankOrder -> getRankValue t d = 0).
Proof.
  intros H1 H2.
  destruct (getRankValue_known _ _ H1) as [E1 P1].
  destruct (getRankValue_known _ _ H2) as [E2 P2].
  destruct (known_rank_inv _ _ H1) as [I1 B1].
  destruct (known_rank_inv _ _ H2) as [I2 B2].
  assert (T1 : tierIndex t1 <= 7).
  { unfold tierIndex. cbn in I1.
    repeat (destruct I1 as [<-|I1]; [vm_compute; discriminate|]). contradiction. }
  assert (Hmax : maxDivision = 5) by reflexivity.
  split; [rewrite E1, Hmax; unfold K; lia|]. split; [|split; [|split]].
  - rewrite E1, E2, Hmax. unfold K. intros E.
    assert (Ht : tierIndex t1 = tierIndex t2) by lia.
    split; [|lia].
    unfold tierIndex in Ht. cbn in I1, I2.
    repeat (destruct I1 as [<-|I1]; [|]); try contradiction;
      repeat (destruct I2 as [<-|I2]; [|]); try contradiction;
      first [reflexivity | vm_compute in Ht; discriminate Ht].
  - intros d. reflexivity.
  - intros t. unfold getRankValue. cbn [truthy_n Z.eqb negb].
    rewrite orb_true_r. reflexivity.
  - intros t d Hn. unfold getRankValue.
    destruct (negb (truthy_s t) || negb (truthy_n d)); [reflexivity|].
    rewrite (indexOf_absent _ _ Hn). reflexivity.
Qed.

Lemma getRankValue_identifies_rank_witness :
  1 <= getRankValue "Master" 3 <= 75
  /\ (getRankValue "Master" 3 = getRankValue "Master" 3 -> "Master" = "Master" /\ 3 = 3).
Proof.
  destruct (getRankValue_identifies_rank "Master" "Master" 3 3 eq_refl eq_refl)
    as (H1 & H2 & _).
  split; [exact H1|exact H2].
Defined.

(** ** Listing sessions *)

Lemma mapM_Normal {A B} (f : A -> Completion B) (l : list A) (ys : list B) :
  mapM f l = Normal ys -> Forall2 (fun x y => f x = Normal y) l ys.
Proof.
  revert ys. induction l as [|x l IH]; intros ys; simpl.
  - intros [= <-]. constructor.
  - unfold mbind, Completion_bind, mret, Completion_ret.
    destruct (f x) as [y| |] eqn:Hx; try discriminate.
    destruct (mapM f l) as [k| |]; try discriminate.
    intros [= <-]. constructor; [exact Hx|]. apply IH. reflexivity.
Qed.

(** X19. [/view-sessions] shows only open sessions of the guild it is used
    in, between one and five of them: every embed of the answer is the
    rendering of a session row of that guild whose status is open, so a
    cancelled session is never listed.  When the guild has no open session
    the answer is 'No active sessions found!'. *)
Theorem view_sessions_lists_open_only (b : Bot) (i : Interaction) (m : Message) :
  In (Reply m) (snd (handleViewSessions b i)) ->
  (m = text "No active sessions found!"
   /\ forall s, In s (t_sessions (db b)) -> sessions.guild_id s = guild i ->
                sessions.status s <> "open")
  \/ ((1 <= length (embeds m) <= 5)%nat
      /\ Forall (fun embed =>
           exists s, In s (t_sessions (db b))
                     /\ sessions.guild_id s = guild i
                     /\ sessions.status s = "open"
                     /\ createSessionEmbed (db b) (sessions.id s) = Resolve embed)
           (embeds m)).
Proof.
  unfold handleViewSessions.
  set (shown := List.filter (fun s => String.eqb (sessions.guild_id s) (guild i)
                                      && String.eqb (sessions.status s) "open")
                            (t_sessions (db b))).
  destruct (order_by sessions.scheduled_time shown) as [|s0 rest] eqn:Ho.
  - intros [[= <-]|[]]. left. split; [reflexivity|].
    intros s Hs Hg Hopen.
    assert (Hin : In s (order_by sessions.scheduled_time shown)).
    { apply order_by_In. apply List.filter_In. split; [exact Hs|].
      rewrite Hg, Hopen, !String.eqb_refl. reflexivity. }
    rewrite Ho in Hin. destruct Hin.
  - destruct (mapM _ (take 5 (s0 :: rest))) as [embeds0| |] eqn:Hm;
      cbn [snd]; intros [Hr|[]]; try discriminate Hr.
    injection Hr as <-. right. cbn [embeds].
    apply mapM_Normal in Hm.
    assert (Hlen := Forall2_length _ _ _ Hm).
    split.
    { rewrite <- Hlen. simpl. rewrite length_take. lia. }
    assert (Hall : Forall (fun s => In s shown) (take 5 (s0 :: rest))).
    { apply List.Forall_forall. intros s Hs. apply In_take in Hs.
      rewrite <- Ho in Hs. apply order_by_In in Hs. exact Hs. }
    clear Hlen. induction Hm as [|s embed l ys Hs _ IH]; [constructor|].
    inversion Hall as [|? ? Hin Hall']; subst.
    constructor; [|apply IH; exact Hall'].
    apply List.filter_In in Hin as [Hin Hc].
    apply andb_true_iff in Hc as [Hg Hopen].
    apply String.eqb_eq in Hg, Hopen.
    exists s. repeat split; auto.
    unfold await in Hs. destruct (createSessionEmbed _ _); congruence.
Qed.

Lemma view_sessions_lists_open_only_witness :
  snd (handleViewSessions (run new_bot session_cancelled)
         (carol (ChatInputCommand view_sessions)))
  = [Reply (text "No active sessions found!")].
Proof.
  destruct (view_sessions_lists_open_only (run new_bot session_cancelled)
              (carol (ChatInputCommand view_sessions))
              (text "No active sessions found!")) as [[_ H]|[H _]].
  - left. reflexivity.
  - reflexivity.
  - simpl in H. lia.
Defined.

(** ** Managing a session, again *)

(** X20. Whatever [manageSession] answers stays inside the limits of a
    Discord message: at most five selection menus, each with between one
    and twenty-five options.  Every menu is for a role of the session's
    game mode that still has fewer participants than slots, and menus are
    shown only to the creator of the session. *)
Theorem manage_menus_within_limits (b : Bot) (i : Interaction) (sessionId : Z)
    (m : Message) :
  In (Reply m) (snd (manageSession b i sessionId)) ->
  (length (components m) <= 5)%nat
  /\ Forall (fun c =>
       exists role count placeholder options session mode,
         c = SelectMenu (select_player sessionId role) placeholder options
         /\ (1 <= length options <= 25)%nat
         /\ get_session_of_creator (db b) sessionId (user_id i) = Some session
         /\ get gameModes (sessions.game_mode session) = Some mode
         /\ In (role, count) (roles mode)
         /\ Z.of_nat (length (List.filter (in_role role)
                                (select_team (db b) sessionId))) < count)
       (components m).
Proof.
  unfold manageSession.
  destruct (get_session_of_creator (db b) sessionId (user_id i)) as [session|] eqn:Hs.
  2:{ intros [[= <-]|[]]. split; [simpl; lia|constructor]. }
  destruct (createManagementEmbed session _ _) as [embed| |];
    destruct (get gameModes (sessions.game_mode session)) as [mode|] eqn:Hmode;
    cbn [snd]; intros [Hr|[]]; try discriminate Hr.
  injection Hr as <-. cbn [components].
  split; [rewrite length_take; lia|].
  apply List.Forall_forall. intros c Hc. apply In_take in Hc.
  unfold selection_menus in Hc.
  apply List.in_flat_map in Hc as ([role count] & Hrole & Hc).
  destruct (Z.ltb_spec (Z.of_nat (length (List.filter (in_role role)
              (select_team (db b) sessionId)))) count) as [Hopen|_]; [|destruct Hc].
  destruct (Z.ltb_spec 0 (Z.of_nat (length (eligible (db b) sessionId role))))
    as [Hsome|_]; [|destruct Hc].
  destruct Hc as [<-|[]].
  exists role, count. do 2 eexists. exists session, mode.
  split; [reflexivity|]. rewrite length_map, length_take.
  repeat split; auto; lia.
Qed.

Lemma manage_menus_within_limits_witness :
  let b := {| db := crowd_db; tempSessionData := None |} in
  let i := carol (ChatInputCommand (manage_session 1)) in
  exists m, snd (manageSession b i 1) = [Reply m]
            /\ (length (components m) <= 5)%nat.
Proof.
  intros b i.
  destruct (snd (manageSession b i 1)) as [|[m| | |] l] eqn:E;
    try (vm_compute in E; discriminate E).
  destruct l; [|vm_compute in E; discriminate E].
  exists m. split; [reflexivity|].
  apply (manage_menus_within_limits b i 1 m). rewrite E. left. reflexivity.
Defined.

(** ** Cancelling, again *)

(** X21. Cancelling writes nothing but the status of the caller's own
    session with that id: the queue, the participants, the accounts, the
    profiles and the drafts are as before, no session row is added or
    removed, and every session with another id or another creator is the
    same row as before. *)
Theorem cancel_touches_only_own_session (b : Bot) (i : Interaction) (sessionId : Z) :
  let b' := fst (handleCancelSession b i sessionId) in
  t_session_queue (db b') = t_session_queue (db b)
  /\ t_session_participants (db b') = t_session_participants (db b)
  /\ t_user_accounts (db b') = t_user_accounts (db b)
  /\ t_users (db b') = t_users (db b)
  /\ tempSessionData b' = tempSessionData b
  /\ map sessions.id (t_sessions (db b')) = map sessions.id (t_sessions (db b))
  /\ (forall k, k <> sessionId -> get_session (db b') k = get_session (db b) k)
  /\ (forall s, In s (t_sessions (db b)) -> sessions.creator_id s <> user_id i ->
        In s (t_sessions (db b'))).
Proof.
  intros b'.
  assert (E : b' = with_db (with_sessions
     (map (fun s => if cancel_match sessionId (user_id i) s
                    then sessions.set_status "cancelled" s else s)
          (t_sessions (db b))) (seq_sessions (db b)) (db b)) b).
  { unfold b', handleCancelSession, update_cancelled. destruct (_ =? 0); reflexivity. }
  rewrite E. clear E b'.
  cbn [db with_db t_session_queue t_session_participants t_user_accounts
       t_users t_sessions with_sessions tempSessionData].
  repeat (split; [reflexivity|]).
  split; [|split].
  - rewrite List.map_map. apply List.map_ext. intros s.
    destruct (cancel_match _ _ s); reflexivity.
  - intros k Hk. unfold get_session. cbn [t_sessions with_sessions].
    induction (t_sessions (db b)) as [|s l IH]; simpl; [reflexivity|].
    destruct (Z.eqb_spec (sessions.id s) sessionId) as [Es|Es].
    + assert (Hid : sessions.id (if cancel_match sessionId (user_id i) s
                                 then sessions.set_status "cancelled" s else s)
                    = sessions.id s)
        by (destruct (cancel_match _ _ s); reflexivity).
      rewrite Hid.
      destruct (Z.eqb_spec (sessions.id s) k); [lia|exact IH].
    + assert (Hc : cancel_match sessionId (user_id i) s = false).
      { unfold cancel_match. destruct (Z.eqb_spec (sessions.id s) sessionId);
          [contradiction|reflexivity]. }
      rewrite Hc. destruct (sessions.id s =? k); [reflexivity|exact IH].
  - intros s Hs Hc. apply List.in_map_iff. exists s. split; [|exact Hs].
    unfold cancel_match.
    destruct (String.eqb_spec (sessions.creator_id s) (user_id i)); [contradiction|].
    rewrite andb_false_r. reflexivity.
Qed.

(** ** Delete buttons *)

Lemma sort_rows_In {A} (lt : A -> A -> bool) (y : A) (l : list A) :
  In y (sort_rows lt l) -> In y l.
Proof.
  unfold sort_rows.
  assert (H : forall acc,
             In y (fold_left (fun acc x => insert_sorted lt x acc) l acc) ->
             In y l \/ In y acc).
  { induction l as [|x l IH]; intros acc; simpl; [auto|].
    intros Hy. apply IH in Hy as [Hy|Hy]; [auto|].
    assert (Hi : forall k, In y (insert_sorted lt x k) -> y = x \/ In y k).
    { induction k as [|z k IHk]; simpl; [intuition|].
      destruct (lt x z); simpl; intuition. }
    apply Hi in Hy. intuition. }
  intros Hy. apply H in Hy as [Hy|[]]. exact Hy.
Qed.

Lemma head_filter_some {A} (f : A -> bool) (l : list A) (x : A) :
  In x l -> f x = true ->
  exists y, head (List.filter f l) = Some y /\ In y l /\ f y = true.
Proof.
  intros Hx Hf.
  assert (Hin : In x (List.filter f l)) by (apply List.filter_In; auto).
  destruct (List.filter f l) as [|y k] eqn:E; [destruct Hin|].
  exists y. split; [reflexivity|].
  apply List.filter_In. rewrite E. left. reflexivity.
Qed.

(** X22. A Delete button that [/edit-profile] or [/edit-account] shows to a
    user works when that user presses it: it names an account of the
    caller, [handleDeleteAccount] answers that the account, named between
    double quotes, is deleted, and afterwards exactly the accounts with
    another id are left. *)
Theorem offered_delete_button_deletes (b : Bot) (i : Interaction) (name : string)
    (m : Message) (buttons : list ButtonId) (accountId : Z) :
  In (Reply m) (snd (handleEditProfile b i))
  \/ In (Reply m) (snd (handleEditAccount b i name)) ->
  In (ButtonRow buttons) (components m) ->
  In (btn_delete_account accountId) buttons ->
  (exists account,
      In account (t_user_accounts (db b))
      /\ user_accounts.id account = accountId
      /\ user_accounts.discord_id account = user_id i
      /\ snd (handleDeleteAccount b i accountId)
         = [Reply (text (":white_check_mark: Deleted account " +:+ dquote
                         +:+ user_accounts.account_name account +:+ dquote
                         +:+ "!"))])
  /\ (forall a, In a (t_user_accounts (db (fst (handleDeleteAccount b i accountId))))
                <-> In a (t_user_accounts (db b)) /\ user_accounts.id a <> accountId).
Proof.
  intros Hm Hrow Hbtn.
  assert (Hown : exists a, In a (t_user_accounts (db b))
                           /\ user_accounts.id a = accountId
                           /\ user_accounts.discord_id a = user_id i).
  { destruct Hm as [Hm|Hm].
    - unfold handleEditProfile in Hm. cbn [snd] in Hm.
      destruct Hm as [[= <-]|[]]. cbn [components] in Hrow.
      apply In_take in Hrow.
      destruct (1 <? _); [|destruct Hrow].
      destruct Hrow as [[= <-]|[]].
      apply List.in_map_iff in Hbtn as (a & [= Ha] & Hin).
      apply In_take, sort_rows_In in Hin.
      apply List.filter_In in Hin as [Hin Ho]. apply String.eqb_eq in Ho.
      exists a. auto.
    - unfold handleEditAccount in Hm.
      destruct (head _) as [account|] eqn:Hh; cbn [snd] in Hm;
        destruct Hm as [[= <-]|[]]; [|destruct Hrow].
      assert (Hin : In account (List.filter
                (fun a => String.eqb (user_accounts.discord_id a) (user_id i)
                          && String.eqb (user_accounts.account_name a) name)
                (t_user_accounts (db b)))).
      { destruct (List.filter _ _) as [|x k]; [discriminate Hh|].
        injection Hh as ->. left. reflexivity. }
      apply List.filter_In in Hin as [Hin Hc].
      apply andb_true_iff in Hc as [Ho _]. apply String.eqb_eq in Ho.
      cbn [components] in Hrow. unfold rank_buttons in Hrow.
      destruct Hrow as [[= <-]|[[= <-]|[]]].
      + destruct Hbtn as [Hb|[Hb|[Hb|[]]]]; discriminate Hb.
      + destruct Hbtn as [[= Ha]|[]]. exists account. auto. }
  destruct Hown as (a & Hin & Hid & Ho).
  destruct (head_filter_some
              (fun a => (user_accounts.id a =? accountId)
                        && String.eqb (user_accounts.discord_id a) (user_id i))
              (t_user_accounts (db b)) a Hin) as (account & Hh & Hin' & Hc).
  { rewrite Hid, Ho, Z.eqb_refl, String.eqb_refl. reflexivity. }
  apply andb_true_iff in Hc as [Hc1 Hc2].
  apply Z.eqb_eq in Hc1. apply String.eqb_eq in Hc2.
  unfold handleDeleteAccount. rewrite Hh. cbn [fst snd db with_db].
  split.
  - exists account. auto.
  - intros x. cbn [t_user_accounts with_user_accounts].
    rewrite List.filter_In.
    destruct (Z.eqb_spec (user_accounts.id x) accountId); simpl; intuition congruence.
Qed.

Lemma offered_delete_button_deletes_witness :
  let b := lifetime [[at_time 1000 (alice (ChatInputCommand (add_account "Main" None)));
                      at_time 2000 (alice (ChatInputCommand (add_account "Alt" None)))]] in
  let i := alice (Button btn_edit_profile) in
  snd (handleDeleteAccount b i 2)
  = [Reply (text (":white_check_mark: Deleted account " +:+ dquote +:+ "Alt"
                  +:+ dquote +:+ "!"))].
Proof.
  intros b i.
  destruct (offered_delete_button_deletes b i ""
              {| content := content
                   (match snd (handleEditProfile b i) with
                    | Reply m :: _ => m | _ => text "" end);
                 embeds := [];
                 components := [ButtonRow [btn_delete_account 2; btn_delete_account 1]] |}
              [btn_delete_account 2; btn_delete_account 1] 2)
    as ((account & Hin & Hid & _ & Hr) & _).
  - left. left. reflexivity.
  - left. reflexivity.
  - left. reflexivity.
  - rewrite Hr. vm_compute in Hin.
    destruct Hin as [<-|[<-|[]]]; [vm_compute in Hid; discriminate Hid|reflexivity].
Defined.
